(** * Gesture classification and temporal stabilization

    A shallow embedding of the [GestureRecognizer] class of
    ps23josh/hand-recognition.  Two revisions of the class are embedded in
    full, and further down the classifier and estimator of the first
    revision ([Baseline]) and the handlers of the application around them:

    - [PalmFacing]: the revision with the explicit [isThumbsUp] check, a
      five-label buffer and an 800 ms cooldown (second document of
      [src/unnamed/part_003], lines 257-560);
    - [Simplified]: [src/src/utils/gestureRecognition.ts], with a three-label
      buffer and a 300 ms cooldown.

    JavaScript numbers are IEEE 754 binary64 values and are modelled by Rocq's
    primitive floats, so every comparison, subtraction and square root below
    is the one the engine evaluates.  Timestamps ([Date.now()]) are integral
    milliseconds and are modelled in [Z].  Reading a property of [undefined]
    raises a [TypeError]; this is the only exception the embedded code can
    raise and is modelled by the [result] type. *)

From Stdlib Require Import Ascii String List ZArith Lia Bool Arith.
From Stdlib Require Import Floats DecimalString.
Import ListNotations.

Set Warnings "-inexact-float".
Open Scope string_scope.
Open Scope list_scope.
Open Scope nat_scope.

(** ** Exceptions *)

Inductive result (A : Type) : Type :=
| Ok (a : A)
| TypeError.

Arguments Ok {A} a.
Arguments TypeError {A}.

Definition bind {A B : Type} (c : result A) (k : A -> result B) : result B :=
  match c with
  | Ok a => k a
  | TypeError => TypeError
  end.

Notation "v <- c ;; k" := (bind c (fun v => k))
  (at level 61, c at next level, right associativity).

(** ** JavaScript numbers *)

Module Js.

(** [a < b] and [a > b]: false as soon as one side is NaN. *)
Definition lt (a b : float) : bool := PrimFloat.ltb a b.
Definition gt (a b : float) : bool := PrimFloat.ltb b a.

(** [a >= b] *)
Definition ge (a b : float) : bool := PrimFloat.leb b a.

(** Truthiness of a number: [0], [-0] and [NaN] are falsy. *)
Definition truthy (v : float) : bool :=
  negb (PrimFloat.eqb v 0 || PrimFloat.is_nan v).

(** [a || b] on numbers. *)
Definition orElse (a b : float) : float := if truthy a then a else b.

(** [v || 0] where [v] may be [undefined]. *)
Definition orZero (v : option float) : float :=
  match v with
  | Some n => if truthy n then n else 0%float
  | None => 0%float
  end.

(** [Math.pow(a, 2)]: engines return the correctly rounded product. *)
Definition pow2 (a : float) : float := (a * a)%float.

Definition sqrt (a : float) : float := PrimFloat.sqrt a.
Definition abs (a : float) : float := PrimFloat.abs a.

(** [Math.max] and [Math.min]: NaN if an argument is NaN; [+0] is larger
    than [-0]. *)
Definition max (a b : float) : float :=
  if PrimFloat.is_nan a || PrimFloat.is_nan b then nan
  else if PrimFloat.ltb a b then b
  else if PrimFloat.ltb b a then a
  else if PrimFloat.eqb a 0 then (a + b)%float
  else a.

Definition min (a b : float) : float :=
  if PrimFloat.is_nan a || PrimFloat.is_nan b then nan
  else if PrimFloat.ltb a b then a
  else if PrimFloat.ltb b a then b
  else if PrimFloat.eqb a 0 then (- ((- a) + (- b)))%float
  else a.

(** The number held by an array's [length]. *)
Definition ofNat (n : nat) : float :=
  PrimFloat.of_uint63 (Uint63.of_Z (Z.of_nat n)).

(** Closed interval test on numbers, used to state bounds. *)
Definition within (lo hi v : float) : bool :=
  PrimFloat.leb lo v && PrimFloat.leb v hi.

End Js.

(** ** Data model *)

(** [interface HandLandmark { x: number; y: number; z?: number }] *)
Record HandLandmark : Type := {
  x : float;
  y : float;
  z : option float
}.

(** [interface GestureResult { type: string; confidence: number;
    landmarks?: HandLandmark[] }] *)
Module GestureResult.
Record t : Type := {
  type : string;
  confidence : float;
  landmarks : option (list HandLandmark)
}.
End GestureResult.

(** The two fields of MediaPipe's [results] object that [processResults]
    reads: [multiHandLandmarks] and the labels of [multiHandedness]. *)
Record Results : Type := {
  multiHandLandmarks : option (list (list HandLandmark));
  multiHandedness : option (list string)
}.

(** The fields of a [GestureRecognizer] instance that the stabilizer reads or
    writes.  [onResultsCallback] records whether a callback is registered. *)
Record GestureRecognizer : Type := {
  lastGestureTime : Z;
  gestureBuffer : list string;
  onResultsCallback : bool
}.

(** What one call of [processResults] did to the registered callback. *)
Inductive Outcome : Type :=
| NotCalled
| Called (r : option GestureResult.t)
| Threw.

(** [new GestureRecognizer()] *)
Definition newRecognizer : GestureRecognizer :=
  {| lastGestureTime := 0; gestureBuffer := []; onResultsCallback := false |}.

(** The part of [detectGesture] that precedes [hands.send]: it registers the
    callback. *)
Definition detectGesture (this : GestureRecognizer) : GestureRecognizer :=
  {| lastGestureTime := lastGestureTime this;
     gestureBuffer := gestureBuffer this;
     onResultsCallback := true |}.

(** [destroy()] *)
Definition destroy (this : GestureRecognizer) : GestureRecognizer :=
  {| lastGestureTime := lastGestureTime this;
     gestureBuffer := [];
     onResultsCallback := false |}.

(** ** Array and object access *)

(** [o.field] where [o] may be [undefined]. *)
Definition get {A : Type} (o : option HandLandmark) (field : HandLandmark -> A)
  : result A :=
  match o with
  | Some l => Ok (field l)
  | None => TypeError
  end.

(** [landmarks[idxs[i]]]: [undefined] when either index is out of range. *)
Definition at2 (landmarks : list HandLandmark) (idxs : list nat) (i : nat)
  : option HandLandmark :=
  match nth_error idxs i with
  | Some k => nth_error landmarks k
  | None => None
  end.

(** [fingersUp[i] === 1] *)
Definition isOne (fingersUp : list nat) (i : nat) : bool :=
  match nth_error fingersUp i with
  | Some 1 => true
  | _ => false
  end.

(** [fingersUp.reduce((sum, finger) => sum + finger, 0)] *)
Definition sum (fingersUp : list nat) : nat :=
  fold_left (fun sum finger => sum + finger) fingersUp 0.

(** [results.multiHandedness?.[0]?.label || 'Right'] *)
Definition handednessOf (results : Results) : string :=
  match multiHandedness results with
  | Some (label :: _) => if (label =? "")%string then "Right" else label
  | _ => "Right"
  end.

(** The conversion [landmarks.map(landmark => ({x, y, z}))]. *)
Definition convert (landmarks : list HandLandmark) : list HandLandmark :=
  map (fun landmark =>
         {| x := x landmark; y := y landmark; z := z landmark |}) landmarks.

(** ** The frequency table of [getMostFrequentGesture]

    The object [frequency] is an association list in insertion order, which
    is the order [Object.keys] enumerates non-numeric keys in (gesture names
    are never numeric).  The list holds the object's own properties only: a
    read [frequency[gesture]] of a key that is absent gives [undefined] in
    the list, where the object [{}] would answer with an inherited property
    for the names of [Object.prototype] ([constructor], [toString],
    [__proto__], ...).  The classifier returns none of those names, so the
    list and the object agree on every buffer the recognizer builds; the
    theorems on the vote are stated for buffers of the classifier's labels
    ([concreteLabels] below). *)

Fixpoint lookup (frequency : list (string * nat)) (key : string) : option nat :=
  match frequency with
  | [] => None
  | (k, n) :: rest => if (k =? key)%string then Some n else lookup rest key
  end.

(** [frequency[gesture] = (frequency[gesture] || 0) + 1] *)
Fixpoint increment (frequency : list (string * nat)) (gesture : string)
  : list (string * nat) :=
  match frequency with
  | [] => [(gesture, 1)]
  | (k, n) :: rest =>
      if (k =? gesture)%string then (k, n + 1) :: rest
      else (k, n) :: increment rest gesture
  end.

(** [this.gestureBuffer.forEach(gesture => ...)] starting from [{}]. *)
Definition countGestures (gestureBuffer : list string) : list (string * nat) :=
  fold_left increment gestureBuffer [].

(** [frequency[a]] for a key of the table. *)
Definition freq (frequency : list (string * nat)) (key : string) : nat :=
  match lookup frequency key with
  | Some n => n
  | None => 0
  end.

(** [Object.keys(frequency).reduce((a, b) => frequency[a] > frequency[b] ? a : b)];
    [None] stands for the exception [reduce] raises on an empty array, which
    the caller's emptiness guard excludes. *)
Definition reduceKeys (frequency : list (string * nat)) : option string :=
  match List.map fst frequency with
  | [] => None
  | first :: others =>
      Some (fold_left
              (fun a b => if freq frequency b <? freq frequency a then a else b)
              others first)
  end.

(** [getMostFrequentGesture] with the required number of detections as a
    parameter; each revision fixes it. *)
Definition mostFrequentAtLeast (required : nat) (gestureBuffer : list string)
  : option string :=
  if length gestureBuffer =? 0 then None
  else
    let frequency := countGestures gestureBuffer in
    match reduceKeys frequency with
    | Some mostFrequent =>
        if required <=? freq frequency mostFrequent then Some mostFrequent
        else None
    | None => None
    end.

(** [buffer.push(gestureType); if (buffer.length > capacity) buffer.shift()] *)
Definition pushGesture (capacity : nat) (gestureBuffer : list string)
  (gestureType : string) : list string :=
  let pushed := gestureBuffer ++ [gestureType] in
  if capacity <? length pushed then tl pushed else pushed.

(** A string used as a condition: [null] and the empty string are falsy. *)
Definition truthyString (s : option string) : bool :=
  match s with
  | Some g => negb (g =? "")%string
  | None => false
  end.

(** * The palm-facing revision ([src/unnamed/part_003], lines 257-560) *)

Module PalmFacing.

(** The loop [for (let i = 1; i < 5; i++)] of [getFingersUp], over the
    values [todo] that [i] still has to take. *)
Fixpoint otherFingers (landmarks : list HandLandmark) (tips pips mcps : list nat)
  (todo : list nat) (fingers : list nat) : result (list nat) :=
  match todo with
  | [] => Ok fingers
  | i :: rest =>
      tipY <- get (at2 landmarks tips i) y ;;
      pipY <- get (at2 landmarks pips i) y ;;
      mcpY <- get (at2 landmarks mcps i) y ;;
      let fingerUp := if Js.lt tipY pipY && Js.lt pipY mcpY then 1 else 0 in
      otherFingers landmarks tips pips mcps rest (fingers ++ [fingerUp])
  end.

Definition getFingersUp (landmarks : list HandLandmark)
  (tips pips mcps : list nat) (handedness : string) : result (list nat) :=
  let fingers := [] in
  let thumbTip := at2 landmarks tips 0 in
  let thumbIp := at2 landmarks pips 0 in
  let thumbMcp := at2 landmarks mcps 0 in
  fingers <-
    (if (handedness =? "Right")%string then
       tipX <- get thumbTip x ;;
       ipX <- get thumbIp x ;;
       Ok (fingers ++ [if Js.gt tipX ipX then 1 else 0])
     else
       tipX <- get thumbTip x ;;
       ipX <- get thumbIp x ;;
       Ok (fingers ++ [if Js.lt tipX ipX then 1 else 0])) ;;
  otherFingers landmarks tips pips mcps [1; 2; 3; 4] fingers.

Definition isThumbsUp (landmarks : list HandLandmark) (handedness : string)
  : result bool :=
  let thumbTip := nth_error landmarks 4 in
  let thumbMcp := nth_error landmarks 2 in
  let indexMcp := nth_error landmarks 5 in
  isPointingUp <-
    (tipY <- get thumbTip y ;;
     mcpY <- get thumbMcp y ;;
     if Js.lt tipY mcpY then
       tipY' <- get thumbTip y ;;
       indexY <- get indexMcp y ;;
       Ok (Js.lt tipY' indexY)
     else Ok false) ;;
  tipX <- get thumbTip x ;;
  indexX <- get indexMcp x ;;
  let thumbDistance := Js.abs (tipX - indexX) in
  let isExtended := Js.gt thumbDistance 0.05 in
  Ok (isPointingUp && isExtended).

Definition isOkGesture (landmarks : list HandLandmark) : result bool :=
  let thumbTip := nth_error landmarks 4 in
  let indexTip := nth_error landmarks 8 in
  tx <- get thumbTip x ;;
  ix <- get indexTip x ;;
  ty <- get thumbTip y ;;
  iy <- get indexTip y ;;
  let distance := Js.sqrt (Js.pow2 (tx - ix) + Js.pow2 (ty - iy)) in
  m12 <- get (nth_error landmarks 12) y ;;
  m10 <- get (nth_error landmarks 10) y ;;
  let middleUp := Js.lt m12 m10 in
  r16 <- get (nth_error landmarks 16) y ;;
  r14 <- get (nth_error landmarks 14) y ;;
  let ringUp := Js.lt r16 r14 in
  p20 <- get (nth_error landmarks 20) y ;;
  p18 <- get (nth_error landmarks 18) y ;;
  let pinkyUp := Js.lt p20 p18 in
  Ok (Js.lt distance 0.05 && (middleUp || ringUp || pinkyUp)).

Definition classifyGesture (landmarks : list HandLandmark) (handedness : string)
  : result string :=
  let fingerTips := [4; 8; 12; 16; 20] in
  let fingerPips := [3; 6; 10; 14; 18] in
  let fingerMcps := [2; 5; 9; 13; 17] in
  fingersUp <- getFingersUp landmarks fingerTips fingerPips fingerMcps handedness ;;
  let fingerCount := sum fingersUp in
  if fingerCount =? 0 then Ok "fist"
  else if fingerCount =? 5 then Ok "open_palm"
  else if isOne fingersUp 1 && (fingerCount =? 1) then Ok "pointing"
  else if isOne fingersUp 0 && (fingerCount =? 1) then
    thumbsUp <- isThumbsUp landmarks handedness ;;
    if thumbsUp then Ok "thumbs_up" else Ok "unknown"
  else if isOne fingersUp 1 && isOne fingersUp 2 && (fingerCount =? 2) then Ok "peace"
  else
    ok <- (if isOne fingersUp 0 && isOne fingersUp 1
           then isOkGesture landmarks else Ok false) ;;
    if ok then Ok "ok_sign"
    else if isOne fingersUp 1 && isOne fingersUp 4 && (fingerCount =? 2)
    then Ok "rock_on"
    else Ok "unknown".

(** The two loop-carried counters of [calculateConfidence] after one more
    landmark. *)
Definition score (scores : float * float) (landmark : HandLandmark)
  : float * float :=
  let '(stabilityScore, visibilityScore) := scores in
  let z0 := Js.orZero (z landmark) in
  let stabilityScore :=
    if Js.lt (Js.abs z0) 0.1 then (stabilityScore + 1)%float
    else stabilityScore in
  let visibilityScore :=
    if Js.gt (x landmark) 0.1 && Js.lt (x landmark) 0.9
       && Js.gt (y landmark) 0.1 && Js.lt (y landmark) 0.9
    then (visibilityScore + 1)%float
    else visibilityScore in
  (stabilityScore, visibilityScore).

Definition calculateConfidence (landmarks : list HandLandmark) : float :=
  let '(stabilityScore, visibilityScore) :=
    fold_left score landmarks (0%float, 0%float) in
  let stabilityRatio := (stabilityScore / Js.ofNat (length landmarks))%float in
  let visibilityRatio := (visibilityScore / Js.ofNat (length landmarks))%float in
  let confidence := (stabilityRatio * 0.6 + visibilityRatio * 0.4)%float in
  Js.max 0.5 (Js.min 0.95 confidence).

Definition getMostFrequentGesture (gestureBuffer : list string) : option string :=
  mostFrequentAtLeast 3 gestureBuffer.

(** [processResults(results)], where [now] is the value of the [Date.now()]
    in the cooldown test and [now'] the value of the [Date.now()] stored in
    [lastGestureTime].  An exception leaves before any field is written. *)
Definition processResults (this : GestureRecognizer) (results : Results)
  (now now' : Z) : GestureRecognizer * Outcome :=
  if negb (onResultsCallback this) then (this, NotCalled)
  else
    match multiHandLandmarks results with
    | Some (landmarks :: _) =>
        let handedness := handednessOf results in
        let handLandmarks := convert landmarks in
        match classifyGesture handLandmarks handedness with
        | TypeError => (this, Threw)
        | Ok gestureType =>
            if negb (gestureType =? "unknown")%string then
              let buffer := pushGesture 5 (gestureBuffer this) gestureType in
              let consistentGesture := getMostFrequentGesture buffer in
              if truthyString consistentGesture
                 && (now - lastGestureTime this >? 800)%Z
              then
                let confidence := calculateConfidence handLandmarks in
                ({| lastGestureTime := now';
                    gestureBuffer := buffer;
                    onResultsCallback := onResultsCallback this |},
                 Called (Some {| GestureResult.type :=
                                   match consistentGesture with
                                   | Some g => g
                                   | None => ""
                                   end;
                                 GestureResult.confidence := confidence;
                                 GestureResult.landmarks := Some handLandmarks |}))
              else
                ({| lastGestureTime := lastGestureTime this;
                    gestureBuffer := buffer;
                    onResultsCallback := onResultsCallback this |},
                 NotCalled)
            else (this, NotCalled)
        end
    | _ =>
        ({| lastGestureTime := lastGestureTime this;
            gestureBuffer := [];
            onResultsCallback := onResultsCallback this |},
         Called None)
    end.

End PalmFacing.

(** * The simplified revision ([src/src/utils/gestureRecognition.ts]) *)

Module Simplified.

(** The loop [for (let i = 0; i < 4; i++)] of [getFingersUpSimplified]. *)
Fixpoint otherFingers (landmarks : list HandLandmark)
  (fingerTips fingerPips fingerMcps : list nat)
  (todo : list nat) (fingers : list nat) : result (list nat) :=
  match todo with
  | [] => Ok fingers
  | i :: rest =>
      tipY <- get (at2 landmarks fingerTips i) y ;;
      pipY <- get (at2 landmarks fingerPips i) y ;;
      mcpY <- get (at2 landmarks fingerMcps i) y ;;
      let isFingerUp := Js.lt tipY pipY && Js.lt tipY mcpY in
      otherFingers landmarks fingerTips fingerPips fingerMcps rest
        (fingers ++ [if isFingerUp then 1 else 0])
  end.

Definition getFingersUpSimplified (landmarks : list HandLandmark)
  (handedness : string) : result (list nat) :=
  let fingers := [] in
  let thumbTip := nth_error landmarks 4 in
  let thumbMcp := nth_error landmarks 2 in
  let indexMcp := nth_error landmarks 5 in
  tipX <- get thumbTip x ;;
  indexX <- get indexMcp x ;;
  let thumbDistance := Js.abs (tipX - indexX) in
  isThumbUp <-
    (if Js.gt thumbDistance 0.05 then
       tipY <- get thumbTip y ;;
       mcpY <- get thumbMcp y ;;
       Ok (Js.lt tipY (mcpY + 0.02)%float)
     else Ok false) ;;
  let fingers := fingers ++ [if isThumbUp then 1 else 0] in
  let fingerTips := [8; 12; 16; 20] in
  let fingerPips := [6; 10; 14; 18] in
  let fingerMcps := [5; 9; 13; 17] in
  otherFingers landmarks fingerTips fingerPips fingerMcps [0; 1; 2; 3] fingers.

Definition isOkGestureSimplified (landmarks : list HandLandmark) : result bool :=
  let thumbTip := nth_error landmarks 4 in
  let indexTip := nth_error landmarks 8 in
  let middleTip := nth_error landmarks 12 in
  let ringTip := nth_error landmarks 16 in
  let pinkyTip := nth_error landmarks 20 in
  tx <- get thumbTip x ;;
  ix <- get indexTip x ;;
  ty <- get thumbTip y ;;
  iy <- get indexTip y ;;
  let thumbIndexDistance := Js.sqrt (Js.pow2 (tx - ix) + Js.pow2 (ty - iy)) in
  m12 <- get middleTip y ;;
  m10 <- get (nth_error landmarks 10) y ;;
  let middleUp := Js.lt m12 m10 in
  r16 <- get ringTip y ;;
  r14 <- get (nth_error landmarks 14) y ;;
  let ringUp := Js.lt r16 r14 in
  p20 <- get pinkyTip y ;;
  p18 <- get (nth_error landmarks 18) y ;;
  let pinkyUp := Js.lt p20 p18 in
  let otherFingersUp :=
    2 <=? length (filter (fun b : bool => b) [middleUp; ringUp; pinkyUp]) in
  Ok (Js.lt thumbIndexDistance 0.08 && otherFingersUp).

(** The [console.log] call has no effect on the result and is left out. *)
Definition classifyGesture (landmarks : list HandLandmark) (handedness : string)
  : result string :=
  fingersUp <- getFingersUpSimplified landmarks handedness ;;
  let fingerCount := sum fingersUp in
  if fingerCount =? 0 then Ok "fist"
  else if fingerCount =? 5 then Ok "open_palm"
  else if isOne fingersUp 0 && (fingerCount =? 1) then Ok "thumbs_up"
  else if isOne fingersUp 1 && (fingerCount =? 1) then Ok "pointing"
  else if isOne fingersUp 1 && isOne fingersUp 2 && (fingerCount =? 2) then Ok "peace"
  else if isOne fingersUp 1 && isOne fingersUp 4 && (fingerCount =? 2) then Ok "rock_on"
  else
    ok <- isOkGestureSimplified landmarks ;;
    if ok then Ok "ok_sign" else Ok "unknown".

Definition score (scores : float * float) (landmark : HandLandmark)
  : float * float :=
  let '(visibilityScore, stabilityScore) := scores in
  let visibilityScore :=
    if Js.gt (x landmark) 0.1 && Js.lt (x landmark) 0.9
       && Js.gt (y landmark) 0.1 && Js.lt (y landmark) 0.9
    then (visibilityScore + 1)%float
    else visibilityScore in
  let z0 := Js.orZero (z landmark) in
  let stabilityScore :=
    if Js.lt (Js.abs z0) 0.2 then (stabilityScore + 1)%float
    else stabilityScore in
  (visibilityScore, stabilityScore).

Definition calculateConfidence (landmarks : list HandLandmark) : float :=
  let '(visibilityScore, stabilityScore) :=
    fold_left score landmarks (0%float, 0%float) in
  let visibilityRatio := (visibilityScore / Js.ofNat (length landmarks))%float in
  let stabilityRatio := (stabilityScore / Js.ofNat (length landmarks))%float in
  let baseConfidence := 0.7%float in
  let confidence :=
    (baseConfidence + (visibilityRatio * 0.2) + (stabilityRatio * 0.1))%float in
  Js.max 0.6 (Js.min 0.95 confidence).

Definition getMostFrequentGesture (gestureBuffer : list string) : option string :=
  mostFrequentAtLeast 2 gestureBuffer.

Definition processResults (this : GestureRecognizer) (results : Results)
  (now now' : Z) : GestureRecognizer * Outcome :=
  if negb (onResultsCallback this) then (this, NotCalled)
  else
    match multiHandLandmarks results with
    | Some (landmarks :: _) =>
        let handedness := handednessOf results in
        let handLandmarks := convert landmarks in
        match classifyGesture handLandmarks handedness with
        | TypeError => (this, Threw)
        | Ok gestureType =>
            if negb (gestureType =? "unknown")%string then
              let buffer := pushGesture 3 (gestureBuffer this) gestureType in
              let consistentGesture := getMostFrequentGesture buffer in
              if truthyString consistentGesture
                 && (now - lastGestureTime this >? 300)%Z
              then
                let confidence := calculateConfidence handLandmarks in
                ({| lastGestureTime := now';
                    gestureBuffer := buffer;
                    onResultsCallback := onResultsCallback this |},
                 Called (Some {| GestureResult.type :=
                                   match consistentGesture with
                                   | Some g => g
                                   | None => ""
                                   end;
                                 GestureResult.confidence := confidence;
                                 GestureResult.landmarks := Some handLandmarks |}))
              else
                ({| lastGestureTime := lastGestureTime this;
                    gestureBuffer := buffer;
                    onResultsCallback := onResultsCallback this |},
                 NotCalled)
            else (this, NotCalled)
        end
    | _ =>
        ({| lastGestureTime := lastGestureTime this;
            gestureBuffer := [];
            onResultsCallback := onResultsCallback this |},
         Called None)
    end.

End Simplified.

(** * Sample frames *)

Definition pt (px py : float) : HandLandmark :=
  {| x := px; y := py; z := Some 0%float |}.

(** A right hand, index finger extended upwards, the others curled. *)
Definition pointingFrame : list HandLandmark :=
  [ pt 0.5 0.9;
    pt 0.45 0.8; pt 0.42 0.7; pt 0.45 0.65; pt 0.45 0.62;
    pt 0.5 0.6; pt 0.5 0.5; pt 0.5 0.4; pt 0.5 0.3;
    pt 0.55 0.6; pt 0.55 0.55; pt 0.55 0.6; pt 0.55 0.65;
    pt 0.6 0.6; pt 0.6 0.55; pt 0.6 0.6; pt 0.6 0.65;
    pt 0.65 0.6; pt 0.65 0.55; pt 0.65 0.6; pt 0.65 0.65 ].

(** Index, middle and ring fingers extended; thumb and pinky curled. *)
Definition threeFingersFrame : list HandLandmark :=
  [ pt 0.5 0.9;
    pt 0.45 0.8; pt 0.42 0.7; pt 0.45 0.65; pt 0.45 0.62;
    pt 0.5 0.6; pt 0.5 0.5; pt 0.5 0.4; pt 0.5 0.3;
    pt 0.55 0.6; pt 0.55 0.5; pt 0.55 0.4; pt 0.55 0.3;
    pt 0.6 0.6; pt 0.6 0.5; pt 0.6 0.4; pt 0.6 0.3;
    pt 0.65 0.6; pt 0.65 0.55; pt 0.65 0.6; pt 0.65 0.65 ].

(** A right hand with only the thumb raised. *)
Definition thumbsUpFrame : list HandLandmark :=
  [ pt 0.5 0.9;
    pt 0.4 0.7; pt 0.35 0.6; pt 0.3 0.5; pt 0.32 0.4;
    pt 0.5 0.6; pt 0.5 0.55; pt 0.5 0.6; pt 0.5 0.65;
    pt 0.55 0.6; pt 0.55 0.55; pt 0.55 0.6; pt 0.55 0.65;
    pt 0.6 0.6; pt 0.6 0.55; pt 0.6 0.6; pt 0.6 0.65;
    pt 0.65 0.6; pt 0.65 0.55; pt 0.65 0.6; pt 0.65 0.65 ].

(** As [thumbsUpFrame], with the thumb IP joint and the thumb tip on
    binary fractions ([x = 1/4] and [x = 5/16]), which [1 - x] mirrors
    without rounding. *)
Definition binaryThumbsUpFrame : list HandLandmark :=
  [ pt 0.5 0.9;
    pt 0.4 0.7; pt 0.35 0.6; pt 0.25 0.5; pt 0.3125 0.4;
    pt 0.5 0.6; pt 0.5 0.55; pt 0.5 0.6; pt 0.5 0.65;
    pt 0.55 0.6; pt 0.55 0.55; pt 0.55 0.6; pt 0.55 0.65;
    pt 0.6 0.6; pt 0.6 0.55; pt 0.6 0.6; pt 0.6 0.65;
    pt 0.65 0.6; pt 0.65 0.55; pt 0.65 0.6; pt 0.65 0.65 ].

(** As [thumbsUpFrame], with the thumb IP joint on the frame's left edge
    ([x = 0]) and the thumb tip a hair to its right ([x = 2^-60], written
    [0x1p-60]). *)
Definition hairlineThumbFrame : list HandLandmark :=
  [ pt 0.5 0.9;
    pt 0.1 0.7; pt 0.05 0.6; pt 0 0.5; pt 0x1p-60 0.4;
    pt 0.5 0.6; pt 0.5 0.55; pt 0.5 0.6; pt 0.5 0.65;
    pt 0.55 0.6; pt 0.55 0.55; pt 0.55 0.6; pt 0.55 0.65;
    pt 0.6 0.6; pt 0.6 0.55; pt 0.6 0.6; pt 0.6 0.65;
    pt 0.65 0.6; pt 0.65 0.55; pt 0.65 0.6; pt 0.65 0.65 ].

(** Thumb tip touching the index tip, thumb and index extended, and of the
    remaining fingers only the pinky raised. *)
Definition pinchOneFrame : list HandLandmark :=
  [ pt 0.5 0.9;
    pt 0.4 0.7; pt 0.42 0.6; pt 0.45 0.4; pt 0.48 0.32;
    pt 0.5 0.6; pt 0.5 0.5; pt 0.5 0.4; pt 0.5 0.3;
    pt 0.55 0.6; pt 0.55 0.55; pt 0.55 0.6; pt 0.55 0.65;
    pt 0.6 0.6; pt 0.6 0.55; pt 0.6 0.6; pt 0.6 0.65;
    pt 0.65 0.6; pt 0.65 0.5; pt 0.65 0.4; pt 0.65 0.3 ].

(** Thumb tip touching the index tip with middle, ring and pinky raised, but
    the thumb tip left of its IP joint. *)
Definition pinchTuckedFrame : list HandLandmark :=
  [ pt 0.5 0.9;
    pt 0.4 0.7; pt 0.45 0.6; pt 0.5 0.4; pt 0.48 0.32;
    pt 0.5 0.6; pt 0.5 0.5; pt 0.5 0.4; pt 0.5 0.3;
    pt 0.55 0.6; pt 0.55 0.5; pt 0.55 0.4; pt 0.55 0.3;
    pt 0.6 0.6; pt 0.6 0.5; pt 0.6 0.4; pt 0.6 0.3;
    pt 0.65 0.6; pt 0.65 0.5; pt 0.65 0.4; pt 0.65 0.3 ].

(** All five fingers raised, the index leaning towards the thumb so that the
    two tips touch. *)
Definition pinchOpenFrame : list HandLandmark :=
  [ pt 0.5 0.9;
    pt 0.4 0.7; pt 0.4 0.6; pt 0.41 0.4; pt 0.43 0.32;
    pt 0.5 0.6; pt 0.47 0.5; pt 0.44 0.4; pt 0.42 0.3;
    pt 0.55 0.6; pt 0.55 0.5; pt 0.55 0.4; pt 0.55 0.3;
    pt 0.6 0.6; pt 0.6 0.5; pt 0.6 0.4; pt 0.6 0.3;
    pt 0.65 0.6; pt 0.65 0.5; pt 0.65 0.4; pt 0.65 0.3 ].

(** Every landmark on the frame's corner, far from the camera plane. *)
Definition edgeFrame : list HandLandmark :=
  repeat {| x := 0; y := 1; z := Some 0.5%float |} 21.

(** Every landmark in the centre of the frame, with no depth reported. *)
Definition centredFrame : list HandLandmark :=
  repeat {| x := 0.5; y := 0.5; z := None |} 21.

(** The [results] object for one detected hand. *)
Definition oneHand (landmarks : list HandLandmark) (label : string) : Results :=
  {| multiHandLandmarks := Some [landmarks];
     multiHandedness := Some [label] |}.

(** The [results] object when no hand is detected. *)
Definition noHand : Results :=
  {| multiHandLandmarks := Some []; multiHandedness := Some [] |}.

(** A recognizer with a registered callback and a given history. *)
Definition tracking (buffer : list string) (last : Z) : GestureRecognizer :=
  {| lastGestureTime := last; gestureBuffer := buffer; onResultsCallback := true |}.

(** * Reading a validated frame *)

Definition origin : HandLandmark := {| x := 0; y := 0; z := None |}.

(** Landmark [k] of a frame that has it. *)
Definition lm (landmarks : list HandLandmark) (k : nat) : HandLandmark :=
  nth k landmarks origin.

(** The finger-state rules in the words of the design: the thumb is up when
    its tip is to the right of its IP joint for a right hand and to the left
    of it otherwise. *)
Definition thumbUp (landmarks : list HandLandmark) (handedness : string) : bool :=
  if (handedness =? "Right")%string
  then Js.gt (x (lm landmarks 4)) (x (lm landmarks 3))
  else Js.lt (x (lm landmarks 4)) (x (lm landmarks 3)).

(** A finger is up when tip, PIP and MCP are stacked upwards in that order. *)
Definition fingerUp (landmarks : list HandLandmark) (tip pip mcp : nat) : bool :=
  Js.lt (y (lm landmarks tip)) (y (lm landmarks pip))
  && Js.lt (y (lm landmarks pip)) (y (lm landmarks mcp)).

Definition fingerState (landmarks : list HandLandmark) (handedness : string)
  : list nat :=
  [ Nat.b2n (thumbUp landmarks handedness);
    Nat.b2n (fingerUp landmarks 8 6 5);
    Nat.b2n (fingerUp landmarks 12 10 9);
    Nat.b2n (fingerUp landmarks 16 14 13);
    Nat.b2n (fingerUp landmarks 20 18 17) ].

(** The thumb is truly vertical: its tip is above both its MCP and the index
    MCP, and more than 0.05 away from the index MCP horizontally. *)
Definition thumbVertical (landmarks : list HandLandmark) : bool :=
  Js.lt (y (lm landmarks 4)) (y (lm landmarks 2))
  && Js.lt (y (lm landmarks 4)) (y (lm landmarks 5))
  && Js.gt (Js.abs (x (lm landmarks 4) - x (lm landmarks 5))) 0.05.

(** Euclidean distance between thumb tip and index tip. *)
Definition pinchDistance (landmarks : list HandLandmark) : float :=
  Js.sqrt (Js.pow2 (x (lm landmarks 4) - x (lm landmarks 8))
           + Js.pow2 (y (lm landmarks 4) - y (lm landmarks 8))).

(** The tip-above-PIP test. *)
Definition tipAbovePip (landmarks : list HandLandmark) (tip pip : nat) : bool :=
  Js.lt (y (lm landmarks tip)) (y (lm landmarks pip)).

(** How many of middle, ring and pinky pass the tip-above-PIP test. *)
Definition raisedOthers (landmarks : list HandLandmark) : nat :=
  Nat.b2n (tipAbovePip landmarks 12 10)
  + Nat.b2n (tipAbovePip landmarks 16 14)
  + Nat.b2n (tipAbovePip landmarks 20 18).

(** The pinch test of [PalmFacing.isOkGesture] on a validated frame. *)
Definition pinched (landmarks : list HandLandmark) : bool :=
  Js.lt (pinchDistance landmarks) 0.05
  && (tipAbovePip landmarks 12 10 || tipAbovePip landmarks 16 14
      || tipAbovePip landmarks 20 18).

(** The decision chain of [PalmFacing.classifyGesture], given the finger
    states and the outcome of the two auxiliary checks. *)
Definition policy (fingersUp : list nat) (vertical ok : bool) : string :=
  let fingerCount := sum fingersUp in
  if fingerCount =? 0 then "fist"
  else if fingerCount =? 5 then "open_palm"
  else if isOne fingersUp 1 && (fingerCount =? 1) then "pointing"
  else if isOne fingersUp 0 && (fingerCount =? 1) then
    if vertical then "thumbs_up" else "unknown"
  else if isOne fingersUp 1 && isOne fingersUp 2 && (fingerCount =? 2) then "peace"
  else if isOne fingersUp 0 && isOne fingersUp 1 && ok then "ok_sign"
  else if isOne fingersUp 1 && isOne fingersUp 4 && (fingerCount =? 2) then "rock_on"
  else "unknown".

(** The finger states of the simplified revision: the thumb is up when its
    tip is more than 0.05 from the index MCP horizontally and not lower than
    0.02 below its own MCP; another finger is up when its tip is above both
    its PIP and its MCP. *)
Definition simplifiedFingerState (landmarks : list HandLandmark) : list nat :=
  [ Nat.b2n (Js.gt (Js.abs (x (lm landmarks 4) - x (lm landmarks 5))) 0.05
             && Js.lt (y (lm landmarks 4)) (y (lm landmarks 2) + 0.02)%float);
    Nat.b2n (Js.lt (y (lm landmarks 8)) (y (lm landmarks 6))
             && Js.lt (y (lm landmarks 8)) (y (lm landmarks 5)));
    Nat.b2n (Js.lt (y (lm landmarks 12)) (y (lm landmarks 10))
             && Js.lt (y (lm landmarks 12)) (y (lm landmarks 9)));
    Nat.b2n (Js.lt (y (lm landmarks 16)) (y (lm landmarks 14))
             && Js.lt (y (lm landmarks 16)) (y (lm landmarks 13)));
    Nat.b2n (Js.lt (y (lm landmarks 20)) (y (lm landmarks 18))
             && Js.lt (y (lm landmarks 20)) (y (lm landmarks 17))) ].

(** The pinch test of [Simplified.isOkGestureSimplified] on a validated
    frame. *)
Definition pinchedLoosely (landmarks : list HandLandmark) : bool :=
  Js.lt (pinchDistance landmarks) 0.08
  && (2 <=? length (filter (fun b : bool => b)
                      [tipAbovePip landmarks 12 10; tipAbovePip landmarks 16 14;
                       tipAbovePip landmarks 20 18])).

(** The rules [Simplified.classifyGesture] tries before the pinch test:
    fist, open palm, thumb only, index only, index with middle, index with
    pinky. *)
Definition simplerRule (fingersUp : list nat) : bool :=
  let fingerCount := sum fingersUp in
  (fingerCount =? 0) || (fingerCount =? 5)
  || (isOne fingersUp 0 && (fingerCount =? 1))
  || (isOne fingersUp 1 && (fingerCount =? 1))
  || (isOne fingersUp 1 && isOne fingersUp 2 && (fingerCount =? 2))
  || (isOne fingersUp 1 && isOne fingersUp 4 && (fingerCount =? 2)).

(** The decision chain of [Simplified.classifyGesture]. *)
Definition simplifiedPolicy (fingersUp : list nat) (ok : bool) : string :=
  let fingerCount := sum fingersUp in
  if fingerCount =? 0 then "fist"
  else if fingerCount =? 5 then "open_palm"
  else if isOne fingersUp 0 && (fingerCount =? 1) then "thumbs_up"
  else if isOne fingersUp 1 && (fingerCount =? 1) then "pointing"
  else if isOne fingersUp 1 && isOne fingersUp 2 && (fingerCount =? 2) then "peace"
  else if isOne fingersUp 1 && isOne fingersUp 4 && (fingerCount =? 2) then "rock_on"
  else if ok then "ok_sign" else "unknown".

(** The frame mirrored left to right: every [x] replaced by [1 - x]. *)
Definition mirror (landmarks : list HandLandmark) : list HandLandmark :=
  map (fun landmark =>
         {| x := (1 - x landmark)%float; y := y landmark; z := z landmark |})
      landmarks.

(** ** Subtractions that do not round

    Every finite double is an integer multiple of 2^-1074, the smallest
    positive double; [scaled] is that integer, read off the sign, mantissa
    and exponent of the number.  Infinities and NaN have none. *)
Definition scaled (f : spec_float) : option Z :=
  match f with
  | S754_zero _ => Some 0%Z
  | S754_finite s m e =>
      Some ((if s then - Z.pos m else Z.pos m) * 2 ^ (e + 1074))%Z
  | S754_infinity _ | S754_nan => None
  end.

(** The subtraction [a - b] of two finite doubles is exact: the double the
    engine computes is the difference of the two numbers, not a rounding of
    it. *)
Definition exactSub (a b : float) : bool :=
  match scaled (Prim2SF a), scaled (Prim2SF b), scaled (Prim2SF (a - b)%float) with
  | Some va, Some vb, Some vd => (vd =? va - vb)%Z
  | _, _, _ => false
  end.

(** Mirroring does not round the three x-coordinates that the horizontal
    tests of the thumbs-up rule read: [1 - x] is exact for the thumb IP
    joint, the thumb tip and the index MCP. *)
Definition mirrorsExactly (landmarks : list HandLandmark) : bool :=
  exactSub 1 (x (lm landmarks 3))
  && exactSub 1 (x (lm landmarks 4))
  && exactSub 1 (x (lm landmarks 5)).

(** The x-coordinates [k / 1024], for [k] from 0 to 1024. *)
Definition binaryFractions : list float :=
  map (fun k => (Js.ofNat k / 1024)%float) (seq 0 1025).

(** *** The rounding of IEEE 754, as Rocq specifies it

    [SpecFloat] rounds a mantissa [m] with exponent [e] in two stages:
    [aligned] brings the mantissa to the exponent of the result, keeping
    track of the bits shifted out, and [finish] rounds to nearest, ties to
    even.  [shlZ] and [shrZ] are the two shifts by a number of bits, and
    [nearest v] is the double nearest to [v] times 2^-1074. *)
Definition shlZ (m : positive) (n : Z) : positive :=
  match n with
  | Z.pos p => Pos.iter xO m p
  | _ => m
  end.

Definition shrZ (mrs : shr_record) (n : Z) : shr_record :=
  match n with
  | Z.pos p => Pos.iter shr_1 mrs p
  | _ => mrs
  end.

Definition noBitsLost (m : Z) : shr_record :=
  {| shr_m := m; shr_r := false; shr_s := false |}.

Definition aligned (m : positive) (e : Z) : shr_record * Z :=
  let '(mz, ez) := shl_align m e (fexp prec emax (Z.pos (digits2_pos m) + e)) in
  shr_fexp prec emax (Z.pos mz) ez loc_Exact.

Definition finish (s : bool) (stage : shr_record * Z) : spec_float :=
  let '(mrs', e') := stage in
  let '(mrs'', e'') :=
    shr_fexp prec emax
      (round_nearest_even (shr_m mrs') (loc_of_shr_record mrs')) e' loc_Exact in
  match shr_m mrs'' with
  | Z0 => S754_zero s
  | Z.pos m =>
      if (e'' <=? emax - prec)%Z then S754_finite s m e'' else S754_infinity s
  | Z.neg _ => S754_nan
  end.

Definition nearest (v : Z) : spec_float :=
  binary_normalize prec emax v (-1074) false.

(** * Running the stabilizer

    One invocation of [processResults]: the [results] object it receives and
    the two clock readings it may take. *)

Record Tick : Type := {
  results : Results;
  checkedAt : Z;
  storedAt : Z
}.

Definition step (this : GestureRecognizer) (t : Tick) : GestureRecognizer * Outcome :=
  PalmFacing.processResults this (results t) (checkedAt t) (storedAt t).

(** The recognizer after a sequence of invocations. *)
Definition runAll (this : GestureRecognizer) (ticks : list Tick) : GestureRecognizer :=
  fold_left (fun r t => fst (step r t)) ticks this.

(** The invocations, in order, that handed a [GestureResult] to the callback. *)
Fixpoint emitting (this : GestureRecognizer) (ticks : list Tick) : list Tick :=
  match ticks with
  | [] => []
  | t :: rest =>
      match step this t with
      | (this', Called (Some _)) => t :: emitting this' rest
      | (this', _) => emitting this' rest
      end
  end.

(** An invocation carrying one right hand, both clock readings equal. *)
Definition rightHandAt (landmarks : list HandLandmark) (time : Z) : Tick :=
  {| results := oneHand landmarks "Right"; checkedAt := time; storedAt := time |}.

(** A driving loop that holds a pointing right hand: five frames 100 ms
    apart, then two more once the cooldown has run out. *)
Definition sustainedPointing : list Tick :=
  [ rightHandAt pointingFrame 1700000000000;
    rightHandAt pointingFrame 1700000000100;
    rightHandAt pointingFrame 1700000000200;
    rightHandAt pointingFrame 1700000000300;
    rightHandAt pointingFrame 1700000000400;
    rightHandAt pointingFrame 1700000001000;
    rightHandAt pointingFrame 1700000001100 ].

(** The states a recognizer can be in: it is constructed, and then driven
    through [detectGesture], [processResults] and [destroy]. *)
Inductive reachable : GestureRecognizer -> Prop :=
| reach_new : reachable newRecognizer
| reach_detect this : reachable this -> reachable (detectGesture this)
| reach_process this results now now' :
    reachable this ->
    reachable (fst (PalmFacing.processResults this results now now'))
| reach_destroy this : reachable this -> reachable (destroy this).

(** The branches of [PalmFacing.processResults], one constructor per path
    through the method. *)
Inductive Transition (this : GestureRecognizer) (r : Results) (now now' : Z)
  : GestureRecognizer -> Outcome -> Prop :=
| T_unregistered :
    onResultsCallback this = false ->
    Transition this r now now' this NotCalled
| T_noHand :
    onResultsCallback this = true ->
    multiHandLandmarks r = None \/ multiHandLandmarks r = Some [] ->
    Transition this r now now'
      {| lastGestureTime := lastGestureTime this;
         gestureBuffer := [];
         onResultsCallback := true |}
      (Called None)
| T_threw landmarks others :
    onResultsCallback this = true ->
    multiHandLandmarks r = Some (landmarks :: others) ->
    PalmFacing.classifyGesture (convert landmarks) (handednessOf r) = TypeError ->
    Transition this r now now' this Threw
| T_unknown landmarks others :
    onResultsCallback this = true ->
    multiHandLandmarks r = Some (landmarks :: others) ->
    PalmFacing.classifyGesture (convert landmarks) (handednessOf r) = Ok "unknown" ->
    Transition this r now now' this NotCalled
| T_held landmarks others g :
    onResultsCallback this = true ->
    multiHandLandmarks r = Some (landmarks :: others) ->
    PalmFacing.classifyGesture (convert landmarks) (handednessOf r) = Ok g ->
    g <> "unknown" ->
    truthyString (PalmFacing.getMostFrequentGesture
                    (pushGesture 5 (gestureBuffer this) g))
    && (now - lastGestureTime this >? 800)%Z = false ->
    Transition this r now now'
      {| lastGestureTime := lastGestureTime this;
         gestureBuffer := pushGesture 5 (gestureBuffer this) g;
         onResultsCallback := true |}
      NotCalled
| T_emit landmarks others g c :
    onResultsCallback this = true ->
    multiHandLandmarks r = Some (landmarks :: others) ->
    PalmFacing.classifyGesture (convert landmarks) (handednessOf r) = Ok g ->
    g <> "unknown" ->
    PalmFacing.getMostFrequentGesture (pushGesture 5 (gestureBuffer this) g)
    = Some c ->
    c <> "" ->
    (now - lastGestureTime this > 800)%Z ->
    Transition this r now now'
      {| lastGestureTime := now';
         gestureBuffer := pushGesture 5 (gestureBuffer this) g;
         onResultsCallback := true |}
      (Called (Some {| GestureResult.type := c;
                       GestureResult.confidence :=
                         PalmFacing.calculateConfidence (convert landmarks);
                       GestureResult.landmarks := Some (convert landmarks) |})).

(** The labels other than ["unknown"]. *)
Definition concreteLabels : list string :=
  ["fist"; "open_palm"; "pointing"; "thumbs_up"; "peace"; "ok_sign"; "rock_on"].

(** The shape of the stabilizer's buffer: at most five labels, none of them
    ["unknown"] or empty. *)
Definition wellFormed (this : GestureRecognizer) : Prop :=
  length (gestureBuffer this) <= 5
  /\ Forall (fun g => In g concreteLabels) (gestureBuffer this).

(** ** Counters of the confidence estimator *)

(** [n] successive [+= 1] on a counter. *)
Definition plusOnes (n : nat) (a : float) : float :=
  Nat.iter n (fun s => (s + 1)%float) a.

Definition stable (bound : float) (landmark : HandLandmark) : bool :=
  Js.lt (Js.abs (Js.orZero (z landmark))) bound.

Definition visible (landmark : HandLandmark) : bool :=
  Js.gt (x landmark) 0.1 && Js.lt (x landmark) 0.9
  && Js.gt (y landmark) 0.1 && Js.lt (y landmark) 0.9.

Definition countIf (p : HandLandmark -> bool) (landmarks : list HandLandmark) : nat :=
  length (filter p landmarks).

(** The palm-facing score computed from the two counts, for a frame of
    [n] landmarks. *)
Definition palmFacingScore (n stableCount visibleCount : nat) : float :=
  let stabilityRatio := (plusOnes stableCount 0 / Js.ofNat n)%float in
  let visibilityRatio := (plusOnes visibleCount 0 / Js.ofNat n)%float in
  Js.max 0.5 (Js.min 0.95 (stabilityRatio * 0.6 + visibilityRatio * 0.4)).

(** The simplified score computed from the two counts. *)
Definition simplifiedScore (n visibleCount stableCount : nat) : float :=
  let visibilityRatio := (plusOnes visibleCount 0 / Js.ofNat n)%float in
  let stabilityRatio := (plusOnes stableCount 0 / Js.ofNat n)%float in
  Js.max 0.6 (Js.min 0.95 (0.7 + (visibilityRatio * 0.2) + (stabilityRatio * 0.1))).

(** Every pair of counts up to [n] gives a score within [lo, hi]. *)
Definition allScoresWithin (lo hi : float) (score : nat -> nat -> float) (n : nat)
  : bool :=
  forallb (fun a => forallb (fun b => Js.within lo hi (score a b)) (seq 0 (S n)))
          (seq 0 (S n)).

(** * The first revision ([src/unnamed/part_003], lines 1-256) *)

Module Baseline.

(** The loop [for (let i = 1; i < 5; i++)] of [getFingersUp]: a finger is up
    as soon as its tip is above its PIP joint. *)
Fixpoint otherFingers (landmarks : list HandLandmark) (tips pips : list nat)
  (todo : list nat) (fingers : list nat) : result (list nat) :=
  match todo with
  | [] => Ok fingers
  | i :: rest =>
      tipY <- get (at2 landmarks tips i) y ;;
      pipY <- get (at2 landmarks pips i) y ;;
      otherFingers landmarks tips pips rest
        (fingers ++ [if Js.lt tipY pipY then 1 else 0])
  end.

Definition getFingersUp (landmarks : list HandLandmark)
  (tips pips mcps : list nat) (handedness : string) : result (list nat) :=
  let fingers := [] in
  fingers <-
    (if (handedness =? "Right")%string then
       tipX <- get (at2 landmarks tips 0) x ;;
       ipX <- get (at2 landmarks pips 0) x ;;
       Ok (fingers ++ [if Js.gt tipX ipX then 1 else 0])
     else
       tipX <- get (at2 landmarks tips 0) x ;;
       ipX <- get (at2 landmarks pips 0) x ;;
       Ok (fingers ++ [if Js.lt tipX ipX then 1 else 0])) ;;
  otherFingers landmarks tips pips [1; 2; 3; 4] fingers.

Definition isOkGesture (landmarks : list HandLandmark) : result bool :=
  let thumbTip := nth_error landmarks 4 in
  let indexTip := nth_error landmarks 8 in
  tx <- get thumbTip x ;;
  ix <- get indexTip x ;;
  ty <- get thumbTip y ;;
  iy <- get indexTip y ;;
  let distance := Js.sqrt (Js.pow2 (tx - ix) + Js.pow2 (ty - iy)) in
  Ok (Js.lt distance 0.05).

Definition classifyGesture (landmarks : list HandLandmark) (handedness : string)
  : result string :=
  let fingerTips := [4; 8; 12; 16; 20] in
  let fingerPips := [3; 6; 10; 14; 18] in
  let fingerMcps := [2; 5; 9; 13; 17] in
  fingersUp <- getFingersUp landmarks fingerTips fingerPips fingerMcps handedness ;;
  let fingerCount := sum fingersUp in
  if fingerCount =? 0 then Ok "fist"
  else if fingerCount =? 5 then Ok "open_palm"
  else if isOne fingersUp 1 && (fingerCount =? 1) then Ok "pointing"
  else if isOne fingersUp 0 && (fingerCount =? 1) then Ok "thumbs_up"
  else if isOne fingersUp 1 && isOne fingersUp 2 && (fingerCount =? 2) then Ok "peace"
  else
    ok <- (if isOne fingersUp 0 && isOne fingersUp 1
           then isOkGesture landmarks else Ok false) ;;
    if ok then Ok "ok_sign"
    else if isOne fingersUp 1 && isOne fingersUp 2 && isOne fingersUp 4
            && (fingerCount =? 3)
    then Ok "rock_on"
    else Ok "unknown".

Definition calculateConfidence (landmarks : list HandLandmark) : float :=
  let totalVariance :=
    fold_left (fun totalVariance landmark =>
                 let variance := Js.abs (Js.orZero (z landmark)) in
                 (totalVariance + variance)%float)
              landmarks 0%float in
  let avgVariance := (totalVariance / Js.ofNat (length landmarks))%float in
  let confidence := Js.max 0.5 (Js.min 0.95 (1 - avgVariance * 10)) in
  confidence.

Definition getMostFrequentGesture (gestureBuffer : list string) : option string :=
  mostFrequentAtLeast 3 gestureBuffer.

End Baseline.

(** The finger states of the first revision: the thumb as in the palm-facing
    revision, the other fingers by the tip-above-PIP test alone. *)
Definition baselineFingerState (landmarks : list HandLandmark)
  (handedness : string) : list nat :=
  [ Nat.b2n (thumbUp landmarks handedness);
    Nat.b2n (tipAbovePip landmarks 8 6);
    Nat.b2n (tipAbovePip landmarks 12 10);
    Nat.b2n (tipAbovePip landmarks 16 14);
    Nat.b2n (tipAbovePip landmarks 20 18) ].

(** The decision chain of [Baseline.classifyGesture]. *)
Definition baselinePolicy (fingersUp : list nat) (ok : bool) : string :=
  let fingerCount := sum fingersUp in
  if fingerCount =? 0 then "fist"
  else if fingerCount =? 5 then "open_palm"
  else if isOne fingersUp 1 && (fingerCount =? 1) then "pointing"
  else if isOne fingersUp 0 && (fingerCount =? 1) then "thumbs_up"
  else if isOne fingersUp 1 && isOne fingersUp 2 && (fingerCount =? 2) then "peace"
  else if isOne fingersUp 0 && isOne fingersUp 1 && ok then "ok_sign"
  else if isOne fingersUp 1 && isOne fingersUp 2 && isOne fingersUp 4
          && (fingerCount =? 3)
  then "rock_on"
  else "unknown".

(** All eight names a classifier can return. *)
Definition allLabels : list string := "unknown" :: concreteLabels.

(** * The application around the recognizer *)

(** [Omit<GestureData, 'id' | 'timestamp'>] *)
Module Detected.
Record t : Type := {
  type : string;
  confidence : float;
  coordinates : option (float * float)
}.
End Detected.

(** [interface GestureData] of [src/src/App.tsx]; [timestamp] in
    milliseconds. *)
Module GestureData.
Record t : Type := {
  id : string;
  type : string;
  confidence : float;
  timestamp : Z;
  coordinates : option (float * float)
}.
End GestureData.

Module App.

Record Stats : Type := {
  totalGestures : Z;
  accuracy : float;
  avgConfidence : float;
  sessionTime : nat
}.

(** The state of the [App] component that the detection handlers touch. *)
Record State : Type := {
  detectedGestures : list GestureData.t;
  stats : Stats;
  sessionStartTime : option Z
}.

Definition initialStats : Stats :=
  {| totalGestures := 0; accuracy := 95.2; avgConfidence := 0.85;
     sessionTime := 0 |}.

Definition initialState : State :=
  {| detectedGestures := []; stats := initialStats; sessionStartTime := None |}.

(** [handleGestureDetected(gesture)], with the random [id] and the time of
    [new Date()] as inputs. *)
Definition handleGestureDetected (st : State) (gesture : Detected.t)
  (random : string) (now : Z) : State :=
  let newGesture :=
    {| GestureData.id := random;
       GestureData.type := Detected.type gesture;
       GestureData.confidence := Detected.confidence gesture;
       GestureData.timestamp := now;
       GestureData.coordinates := Detected.coordinates gesture |} in
  let prev := stats st in
  {| detectedGestures := newGesture :: firstn 49 (detectedGestures st);
     stats := {| totalGestures := totalGestures prev + 1;
                 accuracy := accuracy prev;
                 avgConfidence :=
                   ((avgConfidence prev + Detected.confidence gesture) / 2)%float;
                 sessionTime := sessionTime prev |};
     sessionStartTime := sessionStartTime st |}.

Definition handleReset (st : State) : State :=
  {| detectedGestures := []; stats := initialStats; sessionStartTime := None |}.

(** [s.padStart(2, '0')] *)
Definition padStart2 (s : string) : string :=
  match String.length s with
  | 0 => "00" ++ s
  | 1 => "0" ++ s
  | _ => s
  end%string.

(** [n.toString()] for a non-negative integer. *)
Definition toString (n : nat) : string :=
  NilZero.string_of_uint (Nat.to_uint n).

(** [formatTime(seconds)] of [App] and [StatsPanel], on the whole seconds the
    session timer produces. *)
Definition formatTime (seconds : nat) : string :=
  let mins := seconds / 60 in
  let secs := seconds mod 60 in
  (padStart2 (toString mins) ++ ":" ++ padStart2 (toString secs))%string.

(** Reading [MM:SS] back: the number before the first colon times 60 plus
    the number after it. *)
Definition readNumber (s : string) : option nat :=
  option_map Nat.of_uint (NilZero.uint_of_string s).

Fixpoint splitAtColon (s : string) : option (string * string) :=
  match s with
  | EmptyString => None
  | String c rest =>
      if Ascii.eqb c ":"%char then Some (EmptyString, rest)
      else match splitAtColon rest with
           | Some (before, after) => Some (String c before, after)
           | None => None
           end
  end.

Definition readTime (s : string) : option nat :=
  match splitAtColon s with
  | Some (mins, secs) =>
      match readNumber mins, readNumber secs with
      | Some m, Some sec => Some (m * 60 + sec)
      | _, _ => None
      end
  | None => None
  end.

(** One detection handed to [handleGestureDetected]: the gesture, the random
    id and the time. *)
Definition Detection : Type := (Detected.t * string * Z)%type.

Definition record (st : State) (d : Detection) : State :=
  let '(gesture, random, now) := d in handleGestureDetected st gesture random now.

Definition asGestureData (d : Detection) : GestureData.t :=
  let '(gesture, random, now) := d in
  {| GestureData.id := random;
     GestureData.type := Detected.type gesture;
     GestureData.confidence := Detected.confidence gesture;
     GestureData.timestamp := now;
     GestureData.coordinates := Detected.coordinates gesture |}.

End App.

(** The test that a time formats to five characters which read back as the
    same time. *)
Definition formatsBack (seconds : nat) : bool :=
  (String.length (App.formatTime seconds) =? 5)
  && match App.readTime (App.formatTime seconds) with
     | Some n => n =? seconds
     | None => false
     end.

(** The callback [GestureDetector] passes to [detectGesture]
    ([src/unnamed/part_001], lines 123-153): what it hands to
    [onGestureDetected], if anything. *)
Module GestureDetector.

(** [landmarks[9]?.x] and [landmarks[9]?.y] used as numbers: [undefined]
    becomes [NaN]. *)
Definition optional (o : option HandLandmark) (field : HandLandmark -> float)
  : float :=
  match o with
  | Some p => field p
  | None => nan
  end.

Definition onResult (sensitivity : float) (result : option GestureResult.t)
  : option Detected.t :=
  match result with
  | Some r =>
      if Js.ge (GestureResult.confidence r) (sensitivity / 100) then
        Some {| Detected.type := GestureResult.type r;
                Detected.confidence := GestureResult.confidence r;
                Detected.coordinates :=
                  match GestureResult.landmarks r with
                  | Some l =>
                      Some (Js.orElse
                              ((1 - optional (nth_error l 9) x) * 640) 320,
                            Js.orElse (optional (nth_error l 9) y * 480) 240)
                  | None => Some (320, 240)%float
                  end |}
      else None
  | None => None
  end.

(** The values the sensitivity slider of [ControlPanel] can take
    ([min="0.3" max="0.9" step="0.1"]); [App] starts at 0.7. *)
Definition sliderValues : list float :=
  [0.3; 0.4; 0.5; 0.6; 0.7; 0.8; 0.9]%float.

End GestureDetector.

(** [getConfidenceColor] of [GestureHistory]. *)
Definition getConfidenceColor (confidence : float) : string :=
  if Js.ge confidence 0.8 then "text-green-400"
  else if Js.ge confidence 0.6 then "text-yellow-400"
  else "text-red-400".

(** Every pair of counts up to [n] gives a score that passes the test [p]. *)
Definition allScoresSatisfy (p : float -> bool) (score : nat -> nat -> float)
  (n : nat) : bool :=
  forallb (fun a => forallb (fun b => p (score a b)) (seq 0 (S n))) (seq 0 (S n)).

(** [Math.max(lo, Math.min(hi, confidence))], the last step of every
    confidence estimator. *)
Definition clamp (lo hi confidence : float) : float :=
  Js.max lo (Js.min hi confidence).

(** * Basic facts *)

Lemma bind_Ok {A B : Type} (a : A) (k : A -> result B) :
  bind (Ok a) k = k a.
Proof. reflexivity. Qed.

Lemma convert_id (landmarks : list HandLandmark) : convert landmarks = landmarks.
Proof.
  unfold convert.
  induction landmarks as [|[px py pz] rest IH]; simpl; [reflexivity|].
  now rewrite IH.
Qed.

Lemma nth_error_lm (landmarks : list HandLandmark) (k : nat) :
  k < length landmarks -> nth_error landmarks k = Some (lm landmarks k).
Proof. intros H. unfold lm. now apply nth_error_nth'. Qed.

Lemma get_lm {A : Type} (landmarks : list HandLandmark) (k : nat)
  (field : HandLandmark -> A) :
  k < length landmarks ->
  get (nth_error landmarks k) field = Ok (field (lm landmarks k)).
Proof. intros H. now rewrite nth_error_lm. Qed.

Lemma get_short {A : Type} (landmarks : list HandLandmark) (k : nat)
  (field : HandLandmark -> A) :
  length landmarks <= k -> get (nth_error landmarks k) field = TypeError.
Proof.
  intros H. apply nth_error_None in H. now rewrite H.
Qed.

Lemma get_at2 {A : Type} (landmarks : list HandLandmark) (idxs : list nat)
  (i k : nat) (field : HandLandmark -> A) :
  nth_error idxs i = Some k ->
  k < length landmarks ->
  get (at2 landmarks idxs i) field = Ok (field (lm landmarks k)).
Proof. intros Hi Hk. unfold at2. rewrite Hi. now apply get_lm. Qed.

Ltac frame_reads :=
  repeat (first [ rewrite get_lm by lia
                | erewrite get_at2 by first [reflexivity | lia] ];
          rewrite bind_Ok).

(** ** The classifier on frames of at least 21 landmarks *)

Lemma getFingersUp_frame (landmarks : list HandLandmark) (handedness : string) :
  21 <= length landmarks ->
  PalmFacing.getFingersUp landmarks
    [4; 8; 12; 16; 20] [3; 6; 10; 14; 18] [2; 5; 9; 13; 17] handedness
  = Ok (fingerState landmarks handedness).
Proof.
  intros Hlen.
  unfold PalmFacing.getFingersUp, fingerState, thumbUp, fingerUp.
  cbn [PalmFacing.otherFingers].
  destruct (handedness =? "Right")%string; frame_reads; reflexivity.
Qed.

Lemma isThumbsUp_frame (landmarks : list HandLandmark) (handedness : string) :
  21 <= length landmarks ->
  PalmFacing.isThumbsUp landmarks handedness = Ok (thumbVertical landmarks).
Proof.
  intros Hlen.
  unfold PalmFacing.isThumbsUp, thumbVertical.
  frame_reads.
  destruct (Js.lt (y (lm landmarks 4)) (y (lm landmarks 2))); frame_reads;
    reflexivity.
Qed.

Lemma isOkGesture_frame (landmarks : list HandLandmark) :
  21 <= length landmarks ->
  PalmFacing.isOkGesture landmarks
  = Ok (pinched landmarks).
Proof.
  intros Hlen.
  unfold PalmFacing.isOkGesture, pinched, pinchDistance, tipAbovePip.
  frame_reads. reflexivity.
Qed.

(** ** Confidence counters *)

Lemma plusOnes_S (n : nat) (a : float) :
  plusOnes (S n) a = plusOnes n (a + 1)%float.
Proof. unfold plusOnes. exact (Nat.iter_succ_r n float (fun s => (s + 1)%float) a). Qed.

Lemma countIf_le (p : HandLandmark -> bool) (landmarks : list HandLandmark) :
  countIf p landmarks <= length landmarks.
Proof. unfold countIf. apply filter_length_le. Qed.

Lemma palmFacing_fold (landmarks : list HandLandmark) (a b : float) :
  fold_left PalmFacing.score landmarks (a, b)
  = (plusOnes (countIf (stable 0.1) landmarks) a,
     plusOnes (countIf visible landmarks) b).
Proof.
  revert a b.
  induction landmarks as [|p rest IH]; intros a b; [reflexivity|].
  cbn [fold_left]. unfold PalmFacing.score at 2.
  fold (stable 0.1 p). fold (visible p).
  rewrite IH. unfold countIf. cbn [filter].
  destruct (stable 0.1 p), (visible p); cbn [length];
    rewrite ?plusOnes_S; reflexivity.
Qed.

Lemma simplified_fold (landmarks : list HandLandmark) (a b : float) :
  fold_left Simplified.score landmarks (a, b)
  = (plusOnes (countIf visible landmarks) a,
     plusOnes (countIf (stable 0.2) landmarks) b).
Proof.
  revert a b.
  induction landmarks as [|p rest IH]; intros a b; [reflexivity|].
  cbn [fold_left]. unfold Simplified.score at 2.
  fold (stable 0.2 p). fold (visible p).
  rewrite IH. unfold countIf. cbn [filter].
  destruct (stable 0.2 p), (visible p); cbn [length];
    rewrite ?plusOnes_S; reflexivity.
Qed.

Lemma palmFacing_confidence (landmarks : list HandLandmark) :
  PalmFacing.calculateConfidence landmarks
  = palmFacingScore (length landmarks)
      (countIf (stable 0.1) landmarks) (countIf visible landmarks).
Proof.
  unfold PalmFacing.calculateConfidence. rewrite palmFacing_fold. reflexivity.
Qed.

Lemma simplified_confidence (landmarks : list HandLandmark) :
  Simplified.calculateConfidence landmarks
  = simplifiedScore (length landmarks)
      (countIf visible landmarks) (countIf (stable 0.2) landmarks).
Proof.
  unfold Simplified.calculateConfidence. rewrite simplified_fold. reflexivity.
Qed.

Lemma allScoresWithin_spec (lo hi : float) (score : nat -> nat -> float)
  (n a b : nat) :
  allScoresWithin lo hi score n = true ->
  a <= n -> b <= n -> Js.within lo hi (score a b) = true.
Proof.
  unfold allScoresWithin. intros Hall Ha Hb.
  assert (Ha' : In a (seq 0 (S n))) by (apply in_seq; lia).
  assert (Hb' : In b (seq 0 (S n))) by (apply in_seq; lia).
  rewrite forallb_forall in Hall. specialize (Hall a Ha').
  rewrite forallb_forall in Hall. exact (Hall b Hb').
Qed.

Lemma palmFacing_table :
  allScoresWithin 0.5 0.95 (palmFacingScore 21) 21 = true.
Proof. vm_compute. reflexivity. Qed.

Lemma simplified_table :
  allScoresWithin 0.5 0.95 (simplifiedScore 21) 21 = true.
Proof. vm_compute. reflexivity. Qed.

(** C5: for every frame of 21 landmarks, whatever its coordinates, both
    revisions of the Confidence Estimator return a number in the closed
    interval [0.5, 0.95]. *)
Theorem confidence_within_bounds (landmarks : list HandLandmark) :
  length landmarks = 21 ->
  Js.within 0.5 0.95 (PalmFacing.calculateConfidence landmarks) = true
  /\ Js.within 0.5 0.95 (Simplified.calculateConfidence landmarks) = true.
Proof.
  intros Hlen.
  rewrite palmFacing_confidence, simplified_confidence, Hlen.
  pose proof (countIf_le (stable 0.1) landmarks) as H1.
  pose proof (countIf_le (stable 0.2) landmarks) as H2.
  pose proof (countIf_le visible landmarks) as H3.
  rewrite Hlen in H1, H2, H3.
  split.
  - now apply (allScoresWithin_spec _ _ _ 21); [apply palmFacing_table | |].
  - now apply (allScoresWithin_spec _ _ _ 21); [apply simplified_table | |].
Qed.

(** The extremes named by the claim: all landmarks on the frame's edge and
    all landmarks centred. *)
Lemma confidence_within_bounds_witness :
  (Js.within 0.5 0.95 (PalmFacing.calculateConfidence edgeFrame) = true
   /\ Js.within 0.5 0.95 (Simplified.calculateConfidence edgeFrame) = true)
  /\ (Js.within 0.5 0.95 (PalmFacing.calculateConfidence centredFrame) = true
      /\ Js.within 0.5 0.95 (Simplified.calculateConfidence centredFrame) = true).
Proof.
  split.
  - apply (confidence_within_bounds edgeFrame). reflexivity.
  - apply (confidence_within_bounds centredFrame). reflexivity.
Defined.

Example confidence_extremes :
  PalmFacing.calculateConfidence edgeFrame = 0.5%float
  /\ PalmFacing.calculateConfidence centredFrame = 0.95%float
  /\ Simplified.calculateConfidence edgeFrame = 0.7%float
  /\ Simplified.calculateConfidence centredFrame = 0.95%float.
Proof. vm_compute. repeat split; reflexivity. Qed.

(** ** The frequency table *)

Lemma freq_increment (frequency : list (string * nat)) (g k : string) :
  freq (increment frequency g) k
  = freq frequency k + (if (g =? k)%string then 1 else 0).
Proof.
  unfold freq.
  induction frequency as [|[k0 n] rest IH]; cbn [increment lookup].
  - destruct (g =? k)%string; reflexivity.
  - destruct (String.eqb_spec k0 g) as [Hg|Hg]; cbn [lookup].
    + subst k0. destruct (g =? k)%string; lia.
    + destruct (String.eqb_spec k0 k) as [Hk|Hk].
      * subst k0. apply String.eqb_neq in Hg.
        rewrite String.eqb_sym in Hg. rewrite Hg. lia.
      * exact IH.
Qed.

Lemma freq_fold (gestureBuffer : list string) (frequency : list (string * nat))
  (k : string) :
  freq (fold_left increment gestureBuffer frequency) k
  = freq frequency k + count_occ string_dec gestureBuffer k.
Proof.
  revert frequency.
  induction gestureBuffer as [|g rest IH]; intros frequency; cbn [fold_left].
  - cbn. lia.
  - rewrite IH, freq_increment.
    destruct (String.eqb_spec g k) as [H|H].
    + subst g. rewrite count_occ_cons_eq by reflexivity. lia.
    + rewrite count_occ_cons_neq by exact H. lia.
Qed.

Lemma freq_countGestures (gestureBuffer : list string) (k : string) :
  freq (countGestures gestureBuffer) k = count_occ string_dec gestureBuffer k.
Proof. unfold countGestures. rewrite freq_fold. reflexivity. Qed.

Lemma keys_increment (frequency : list (string * nat)) (g k : string) :
  In k (map fst (increment frequency g)) <-> k = g \/ In k (map fst frequency).
Proof.
  induction frequency as [|[k0 n] rest IH]; cbn [increment map fst In].
  - intuition congruence.
  - destruct (String.eqb_spec k0 g) as [Hg|Hg]; cbn [map fst In].
    + subst k0. intuition congruence.
    + rewrite IH. intuition congruence.
Qed.

Lemma keys_fold (gestureBuffer : list string) (frequency : list (string * nat))
  (k : string) :
  In k (map fst (fold_left increment gestureBuffer frequency))
  <-> In k gestureBuffer \/ In k (map fst frequency).
Proof.
  revert frequency.
  induction gestureBuffer as [|g rest IH]; intros frequency; cbn [fold_left In].
  - intuition.
  - rewrite IH, keys_increment. intuition congruence.
Qed.

Lemma keys_countGestures (gestureBuffer : list string) (k : string) :
  In k (map fst (countGestures gestureBuffer)) <-> In k gestureBuffer.
Proof. unfold countGestures. rewrite keys_fold. cbn. intuition. Qed.

(** The reduction returns a key whose count no other key exceeds. *)
Lemma reduce_max (frequency : list (string * nat)) (others : list string)
  (first : string) :
  let r := fold_left
             (fun a b => if freq frequency b <? freq frequency a then a else b)
             others first in
  In r (first :: others)
  /\ forall k, In k (first :: others) -> freq frequency k <= freq frequency r.
Proof.
  revert first.
  induction others as [|b rest IH]; intros first; cbn [fold_left].
  - cbn. split; [now left|]. intros k [<-|[]]. lia.
  - set (a' := if freq frequency b <? freq frequency first then first else b).
    specialize (IH a'). cbv zeta in IH. destruct IH as [Hin Hmax].
    assert (Ha' : (a' = first \/ a' = b)
                  /\ freq frequency first <= freq frequency a'
                  /\ freq frequency b <= freq frequency a').
    { unfold a'. destruct (Nat.ltb_spec (freq frequency b) (freq frequency first));
        repeat split; auto; lia. }
    destruct Ha' as (Hsel & Hf & Hb).
    split.
    + destruct Hin as [Hin|Hin].
      * rewrite <- Hin. destruct Hsel as [->| ->]; cbn; auto.
      * cbn. auto.
    + intros k [<-|[<-|Hk]].
      * etransitivity; [exact Hf|]. apply Hmax. now left.
      * etransitivity; [exact Hb|]. apply Hmax. now left.
      * apply Hmax. now right.
Qed.

Lemma reduceKeys_max (frequency : list (string * nat)) (r : string) :
  reduceKeys frequency = Some r ->
  In r (map fst frequency)
  /\ forall k, In k (map fst frequency) -> freq frequency k <= freq frequency r.
Proof.
  unfold reduceKeys.
  destruct (map fst frequency) as [|first others]; [discriminate|].
  intros [= <-]. apply reduce_max.
Qed.

Lemma reduceKeys_some (frequency : list (string * nat)) (k : string) :
  In k (map fst frequency) -> exists r, reduceKeys frequency = Some r.
Proof.
  unfold reduceKeys.
  destruct (map fst frequency) as [|first others]; [intros []|].
  intros _. eexists. reflexivity.
Qed.

(** What a candidate is: a label of the buffer, present at least [required]
    times, and no label of the buffer is more frequent. *)
Lemma mostFrequentAtLeast_sound (required : nat) (gestureBuffer : list string)
  (g : string) :
  mostFrequentAtLeast required gestureBuffer = Some g ->
  In g gestureBuffer
  /\ required <= count_occ string_dec gestureBuffer g
  /\ forall k, count_occ string_dec gestureBuffer k
               <= count_occ string_dec gestureBuffer g.
Proof.
  unfold mostFrequentAtLeast.
  destruct (length gestureBuffer =? 0); [discriminate|].
  destruct (reduceKeys (countGestures gestureBuffer)) as [r|] eqn:Hr;
    [|discriminate].
  destruct (Nat.leb_spec required (freq (countGestures gestureBuffer) r));
    [|discriminate].
  intros [= <-].
  apply reduceKeys_max in Hr. destruct Hr as [Hin Hmax].
  rewrite keys_countGestures in Hin.
  rewrite freq_countGestures in *.
  repeat split; auto.
  intros k.
  destruct (in_dec string_dec k gestureBuffer) as [Hk|Hk].
  - rewrite <- (freq_countGestures gestureBuffer k). apply Hmax.
    now apply keys_countGestures.
  - apply (count_occ_not_In string_dec) in Hk. rewrite Hk. lia.
Qed.

Lemma count_occ_two (gestureBuffer : list string) (g k : string) :
  g <> k ->
  count_occ string_dec gestureBuffer g + count_occ string_dec gestureBuffer k
  <= length gestureBuffer.
Proof.
  intros Hne.
  induction gestureBuffer as [|a rest IH]; [cbn; lia|].
  cbn [count_occ length].
  destruct (string_dec a g), (string_dec a k); subst; try congruence; lia.
Qed.

(** A label held by a strict majority of the buffer is the candidate. *)
Lemma mostFrequentAtLeast_majority (required : nat) (gestureBuffer : list string)
  (g : string) :
  required <= count_occ string_dec gestureBuffer g ->
  length gestureBuffer < 2 * count_occ string_dec gestureBuffer g ->
  mostFrequentAtLeast required gestureBuffer = Some g.
Proof.
  intros Hreq Hmaj.
  assert (Hin : In g gestureBuffer).
  { apply (count_occ_In string_dec). lia. }
  unfold mostFrequentAtLeast.
  destruct (Nat.eqb_spec (length gestureBuffer) 0) as [H0|_].
  { destruct gestureBuffer; [destruct Hin | discriminate H0]. }
  destruct (reduceKeys_some (countGestures gestureBuffer) g) as [r Hr].
  { now apply keys_countGestures. }
  rewrite Hr.
  apply reduceKeys_max in Hr. destruct Hr as [_ Hmax].
  specialize (Hmax g). rewrite keys_countGestures in Hmax.
  specialize (Hmax Hin). rewrite !freq_countGestures in *.
  destruct (string_dec g r) as [<-|Hne].
  - destruct (Nat.leb_spec required (count_occ string_dec gestureBuffer g));
      [reflexivity | lia].
  - pose proof (count_occ_two gestureBuffer g r Hne). lia.
Qed.

(** ** The rolling buffer *)

Lemma pushGesture_Forall (P : string -> Prop) (capacity : nat)
  (gestureBuffer : list string) (g : string) :
  Forall P gestureBuffer -> P g -> Forall P (pushGesture capacity gestureBuffer g).
Proof.
  intros Hall Hg. unfold pushGesture.
  assert (Hpushed : Forall P (gestureBuffer ++ [g])).
  { apply Forall_app. split; [exact Hall | now constructor]. }
  destruct (capacity <? length (gestureBuffer ++ [g])); [|exact Hpushed].
  destruct (gestureBuffer ++ [g]) as [|a rest]; [constructor|].
  now inversion Hpushed.
Qed.

Lemma pushGesture_length (capacity : nat) (gestureBuffer : list string)
  (g : string) :
  length gestureBuffer <= capacity ->
  length (pushGesture capacity gestureBuffer g) <= capacity.
Proof.
  intros Hlen. unfold pushGesture.
  destruct (Nat.ltb_spec capacity (length (gestureBuffer ++ [g]))) as [H|H];
    [|exact H].
  rewrite length_app in H. cbn [length] in H.
  destruct gestureBuffer as [|a rest]; cbn [app tl length] in *; [lia|].
  rewrite length_app. cbn [length]. lia.
Qed.

Lemma pushGesture_count (capacity : nat) (gestureBuffer : list string)
  (g : string) :
  count_occ string_dec gestureBuffer g
  <= count_occ string_dec (pushGesture capacity gestureBuffer g) g.
Proof.
  unfold pushGesture.
  destruct (capacity <? length (gestureBuffer ++ [g])).
  - destruct gestureBuffer as [|a rest]; cbn [app tl]; [cbn; lia|].
    rewrite count_occ_app. cbn [count_occ].
    destruct (string_dec a g), (string_dec g g); try congruence; lia.
  - rewrite count_occ_app. lia.
Qed.

(** ** The classifier's range *)

Lemma classifyGesture_labels (landmarks : list HandLandmark)
  (handedness g : string) :
  PalmFacing.classifyGesture landmarks handedness = Ok g ->
  g = "unknown" \/ In g concreteLabels.
Proof.
  unfold PalmFacing.classifyGesture. intros H.
  destruct (PalmFacing.getFingersUp landmarks [4; 8; 12; 16; 20]
              [3; 6; 10; 14; 18] [2; 5; 9; 13; 17] handedness) as [fu|];
    [|discriminate H].
  cbn [bind] in H.
  repeat match type of H with
         | context [bind ?c _] => destruct c; cbn [bind] in H
         | context [if ?c then _ else _] => destruct c
         end;
    try discriminate H; injection H as <-; cbn; auto 10.
Qed.

(** ** One invocation of [processResults] *)

Lemma processResults_Transition (this : GestureRecognizer) (r : Results)
  (now now' : Z) :
  Transition this r now now'
    (fst (PalmFacing.processResults this r now now'))
    (snd (PalmFacing.processResults this r now now')).
Proof.
  unfold PalmFacing.processResults.
  destruct (onResultsCallback this) eqn:Hcb; cbn [negb];
    [|now apply T_unregistered].
  destruct (multiHandLandmarks r) as [[|landmarks others]|] eqn:Hhands;
    try (cbn [fst snd]; apply T_noHand; auto; fail).
  destruct (PalmFacing.classifyGesture (convert landmarks) (handednessOf r))
    as [g|] eqn:Hclass; [|cbn [fst snd]; eapply T_threw; eauto].
  destruct (String.eqb_spec g "unknown") as [->|Hg]; cbn [negb];
    [cbn [fst snd]; eapply T_unknown; eauto|].
  destruct (truthyString
              (PalmFacing.getMostFrequentGesture
                 (pushGesture 5 (gestureBuffer this) g))
            && (now - lastGestureTime this >? 800)%Z) eqn:Hemit; cbn [fst snd].
  - apply andb_prop in Hemit. destruct Hemit as [Htruthy Hlate].
    destruct (PalmFacing.getMostFrequentGesture
                (pushGesture 5 (gestureBuffer this) g)) as [c|] eqn:Hc;
      [|discriminate Htruthy].
    cbn [truthyString] in Htruthy. apply negb_true_iff in Htruthy.
    apply String.eqb_neq in Htruthy.
    eapply T_emit; eauto. apply Z.gtb_lt in Hlate. lia.
  - eapply T_held; eauto.
Qed.

Lemma step_Transition (this : GestureRecognizer) (t : Tick) :
  Transition this (results t) (checkedAt t) (storedAt t)
    (fst (step this t)) (snd (step this t)).
Proof. apply processResults_Transition. Qed.

Lemma Transition_wellFormed (this this' : GestureRecognizer) (r : Results)
  (now now' : Z) (out : Outcome) :
  Transition this r now now' this' out -> wellFormed this -> wellFormed this'.
Proof.
  intros HT [Hlen Hall].
  assert (Hpush : forall landmarks g,
             PalmFacing.classifyGesture (convert landmarks) (handednessOf r) = Ok g ->
             g <> "unknown" ->
             length (pushGesture 5 (gestureBuffer this) g) <= 5
             /\ Forall (fun g => In g concreteLabels)
                       (pushGesture 5 (gestureBuffer this) g)).
  { intros landmarks g Hclass Hg. split.
    - now apply pushGesture_length.
    - apply pushGesture_Forall; [exact Hall|].
      apply classifyGesture_labels in Hclass. tauto. }
  destruct HT; unfold wellFormed; cbn [gestureBuffer length]; eauto.
  split; [lia | constructor].
Qed.

Lemma reachable_wellFormed (this : GestureRecognizer) :
  reachable this -> wellFormed this.
Proof.
  induction 1 as [|this _ IH|this r now now' _ IH|this _ IH].
  - split; [cbn; lia | constructor].
  - exact IH.
  - eapply Transition_wellFormed; [apply processResults_Transition | exact IH].
  - split; [cbn; lia | constructor].
Qed.

Lemma concreteLabels_known (g : string) :
  In g concreteLabels -> g <> "unknown" /\ g <> "".
Proof.
  unfold concreteLabels. cbn [In].
  intros H; repeat destruct H as [<-|H]; try (split; discriminate).
  destruct H.
Qed.

(** ** The classifier as a function of the frame *)

Lemma classifyGesture_frame (landmarks : list HandLandmark) (handedness : string) :
  21 <= length landmarks ->
  PalmFacing.classifyGesture landmarks handedness
  = Ok (policy (fingerState landmarks handedness)
               (thumbVertical landmarks) (pinched landmarks)).
Proof.
  intros Hlen. unfold PalmFacing.classifyGesture, policy.
  rewrite getFingersUp_frame by exact Hlen. rewrite bind_Ok. cbv zeta.
  rewrite isThumbsUp_frame, isOkGesture_frame by exact Hlen.
  repeat match goal with
         | |- context [if ?c then _ else _] => destruct c; cbn [bind andb]
         end; reflexivity.
Qed.

Lemma get_at2_short {A : Type} (landmarks : list HandLandmark) (idxs : list nat)
  (i k : nat) (field : HandLandmark -> A) :
  nth_error idxs i = Some k ->
  length landmarks <= k ->
  get (at2 landmarks idxs i) field = TypeError.
Proof. intros Hi Hk. unfold at2. rewrite Hi. now apply get_short. Qed.

Ltac through_binds :=
  repeat first
    [ erewrite get_at2_short by first [reflexivity | lia]; reflexivity
    | match goal with
      | |- bind ?c _ = TypeError => destruct c; cbn [bind]; [|reflexivity]
      end ].

Lemma getFingersUp_short (landmarks : list HandLandmark) (handedness : string) :
  length landmarks < 21 ->
  PalmFacing.getFingersUp landmarks
    [4; 8; 12; 16; 20] [3; 6; 10; 14; 18] [2; 5; 9; 13; 17] handedness
  = TypeError.
Proof.
  intros Hlen. unfold PalmFacing.getFingersUp.
  cbn [PalmFacing.otherFingers].
  destruct (handedness =? "Right")%string; through_binds.
Qed.

(** A frame of fewer than 21 landmarks makes the classifier read a landmark
    that is not there. *)
Lemma classifyGesture_short (landmarks : list HandLandmark) (handedness : string) :
  length landmarks < 21 ->
  PalmFacing.classifyGesture landmarks handedness = TypeError.
Proof.
  intros Hlen. unfold PalmFacing.classifyGesture.
  now rewrite getFingersUp_short.
Qed.

Lemma lm_firstn (landmarks : list HandLandmark) (n k : nat) :
  k < n -> lm (firstn n landmarks) k = lm landmarks k.
Proof.
  intros Hk. unfold lm. rewrite nth_firstn.
  destruct (Nat.ltb_spec k n); [reflexivity | lia].
Qed.

(** Landmarks beyond the 21st are never read by the classifier. *)
Lemma classifyGesture_prefix (landmarks : list HandLandmark) (handedness : string) :
  21 <= length landmarks ->
  PalmFacing.classifyGesture landmarks handedness
  = PalmFacing.classifyGesture (firstn 21 landmarks) handedness.
Proof.
  intros Hlen.
  rewrite (classifyGesture_frame landmarks) by exact Hlen.
  rewrite (classifyGesture_frame (firstn 21 landmarks))
    by (rewrite length_firstn; lia).
  unfold fingerState, thumbUp, fingerUp, thumbVertical, pinched, pinchDistance,
    tipAbovePip.
  rewrite !lm_firstn by lia. reflexivity.
Qed.

(** * Frames the classifier cannot name *)

(** C1, as the code has it: a frame classified ["unknown"] is skipped.  The
    recognizer is left exactly as it was (the label buffer and the time of
    the last emission are untouched, so the buffer is not cleared) and the
    callback is not invoked. *)
Theorem unknown_frame_skipped (this : GestureRecognizer) (r : Results)
  (now now' : Z) (landmarks : list HandLandmark)
  (others : list (list HandLandmark)) :
  multiHandLandmarks r = Some (landmarks :: others) ->
  PalmFacing.classifyGesture (convert landmarks) (handednessOf r) = Ok "unknown" ->
  PalmFacing.processResults this r now now' = (this, NotCalled).
Proof.
  intros Hhands Hclass. unfold PalmFacing.processResults.
  rewrite Hhands, Hclass. cbn.
  destruct (onResultsCallback this); reflexivity.
Qed.

Lemma unknown_frame_skipped_witness :
  PalmFacing.processResults (tracking ["fist"; "fist"] 0)
    (oneHand threeFingersFrame "Right") 1000 1000
  = (tracking ["fist"; "fist"] 0, NotCalled).
Proof.
  apply (unknown_frame_skipped _ _ _ _ threeFingersFrame []).
  - reflexivity.
  - vm_compute. reflexivity.
Defined.

(** C1 fails as stated: after a frame classified ["unknown"] the buffer still
    holds the labels it held before. *)
Lemma unknown_frame_keeps_buffer :
  PalmFacing.classifyGesture (convert threeFingersFrame) "Right" = Ok "unknown"
  /\ gestureBuffer
       (fst (PalmFacing.processResults (tracking ["fist"; "fist"] 0)
               (oneHand threeFingersFrame "Right") 1000 1000))
     = ["fist"; "fist"]
  /\ gestureBuffer
       (fst (PalmFacing.processResults (tracking ["fist"; "fist"] 0)
               (oneHand threeFingersFrame "Right") 1000 1000))
     <> [].
Proof.
  vm_compute. repeat split; discriminate.
Qed.

(** C2, as the code has it: frames are not validated.  With fewer than 21
    landmarks the recognizer is left exactly as it was (the buffer is not
    reset) and nothing reaches the callback: while a callback is registered
    the classifier reads a landmark that is not there and the call ends in a
    [TypeError]; while none is registered the call returns at its first line
    and raises nothing.  With more than 21 landmarks the frame is accepted
    and classified from its first 21 landmarks, and the call never raises. *)
Theorem malformed_frame_not_validated (this : GestureRecognizer) (r : Results)
  (now now' : Z) (landmarks : list HandLandmark)
  (others : list (list HandLandmark)) :
  multiHandLandmarks r = Some (landmarks :: others) ->
  (length landmarks < 21 ->
   PalmFacing.processResults this r now now'
   = (this, if onResultsCallback this then Threw else NotCalled))
  /\ (21 < length landmarks ->
      PalmFacing.classifyGesture (convert landmarks) (handednessOf r)
      = PalmFacing.classifyGesture (firstn 21 (convert landmarks)) (handednessOf r)
      /\ snd (PalmFacing.processResults this r now now') <> Threw).
Proof.
  intros Hhands. split; intros Hlen.
  - unfold PalmFacing.processResults.
    destruct (onResultsCallback this); cbn [negb]; [|reflexivity].
    rewrite Hhands.
    rewrite classifyGesture_short; [reflexivity|].
    now rewrite convert_id.
  - assert (Hlen' : 21 <= length (convert landmarks))
      by (rewrite convert_id; lia).
    split; [now apply classifyGesture_prefix|].
    pose proof (processResults_Transition this r now now') as HT.
    pose proof (classifyGesture_frame (convert landmarks) (handednessOf r) Hlen')
      as Hclass.
    intros Hthrew. rewrite Hthrew in HT.
    inversion HT as [| |landmarks0 others0 _ Hhands0 Hclass0| | |].
    rewrite Hhands in Hhands0. injection Hhands0 as <- <-.
    rewrite Hclass in Hclass0. discriminate Hclass0.
Qed.

Lemma malformed_frame_not_validated_witness :
  PalmFacing.processResults (tracking ["fist"; "fist"] 0)
    (oneHand (firstn 20 pointingFrame) "Right") 1000 1000
  = (tracking ["fist"; "fist"] 0, Threw)
  /\ PalmFacing.processResults (destroy (tracking ["fist"; "fist"] 0))
       (oneHand (firstn 20 pointingFrame) "Right") 1000 1000
     = (destroy (tracking ["fist"; "fist"] 0), NotCalled).
Proof.
  split.
  - apply (malformed_frame_not_validated (tracking ["fist"; "fist"] 0)
             (oneHand (firstn 20 pointingFrame) "Right") 1000 1000
             (firstn 20 pointingFrame) []).
    + reflexivity.
    + vm_compute. lia.
  - apply (malformed_frame_not_validated (destroy (tracking ["fist"; "fist"] 0))
             (oneHand (firstn 20 pointingFrame) "Right") 1000 1000
             (firstn 20 pointingFrame) []).
    + reflexivity.
    + vm_compute. lia.
Defined.

(** C2 fails as stated: a frame of 20 landmarks ends the call in a
    [TypeError] raised by the out-of-range read, and the buffer keeps its
    labels instead of being emptied. *)
Lemma short_frame_throws :
  length (firstn 20 pointingFrame) = 20
  /\ PalmFacing.classifyGesture (convert (firstn 20 pointingFrame)) "Right"
     = TypeError
  /\ snd (PalmFacing.processResults (tracking ["fist"; "fist"] 0)
            (oneHand (firstn 20 pointingFrame) "Right") 1000 1000)
     = Threw
  /\ gestureBuffer
       (fst (PalmFacing.processResults (tracking ["fist"; "fist"] 0)
               (oneHand (firstn 20 pointingFrame) "Right") 1000 1000))
     = ["fist"; "fist"].
Proof.
  vm_compute. repeat split.
Qed.

(** A call without a detected hand empties the buffer and hands [null] to
    the callback; repeating it changes nothing more. *)
Lemma no_hand_clears (this : GestureRecognizer) (now now' : Z) :
  onResultsCallback this = true ->
  PalmFacing.processResults this noHand now now'
  = (tracking [] (lastGestureTime this), Called None)
  /\ PalmFacing.processResults (tracking [] (lastGestureTime this)) noHand now now'
     = (tracking [] (lastGestureTime this), Called None).
Proof.
  intros Hcb. unfold PalmFacing.processResults. rewrite Hcb.
  split; reflexivity.
Qed.

Example simplified_emits_on_second_frame :
  snd (Simplified.processResults (tracking [] 0)
         (oneHand pointingFrame "Right") 1700000000000 1700000000000)
  = NotCalled
  /\ exists confidence,
       snd (Simplified.processResults (tracking ["pointing"] 0)
              (oneHand pointingFrame "Right") 1700000000100 1700000000100)
       = Called (Some {| GestureResult.type := "pointing";
                         GestureResult.confidence := confidence;
                         GestureResult.landmarks := Some pointingFrame |}).
Proof.
  split; [vm_compute; reflexivity|].
  eexists. vm_compute. reflexivity.
Qed.

(** * Reachable recognizers *)

Lemma reachable_runAll (this : GestureRecognizer) (ticks : list Tick) :
  reachable this -> reachable (runAll this ticks).
Proof.
  revert this. unfold runAll.
  induction ticks as [|t rest IH]; intros this Hreach; cbn [fold_left].
  - exact Hreach.
  - apply IH. unfold step. now apply reach_process.
Qed.

Lemma Transition_label (this this' : GestureRecognizer) (r : Results)
  (now now' : Z) (e : GestureResult.t) :
  Transition this r now now' this' (Called (Some e)) ->
  wellFormed this ->
  In (GestureResult.type e) concreteLabels.
Proof.
  intros HT Hwf.
  pose proof (Transition_wellFormed _ _ _ _ _ _ HT Hwf) as [_ Hall'].
  inversion HT as [| | | | |landmarks others g c _ _ _ _ Hc _ _ Hthis' He].
  subst this'. cbn [gestureBuffer] in Hall'.
  apply mostFrequentAtLeast_sound in Hc. destruct Hc as [Hin _].
  rewrite Forall_forall in Hall'. exact (Hall' c Hin).
Qed.

(** C9: in every reachable recognizer no label of the rolling buffer is
    ["unknown"], and every [GestureResult] handed to the callback carries a
    label other than ["unknown"]. *)
Theorem unknown_never_buffered_nor_emitted (this : GestureRecognizer) :
  reachable this ->
  Forall (fun g => g <> "unknown") (gestureBuffer this)
  /\ forall (r : Results) (now now' : Z) (e : GestureResult.t),
       snd (PalmFacing.processResults this r now now') = Called (Some e) ->
       GestureResult.type e <> "unknown".
Proof.
  intros Hreach.
  pose proof (reachable_wellFormed this Hreach) as Hwf.
  split.
  - eapply Forall_impl; [|exact (proj2 Hwf)].
    intros g Hg. now apply concreteLabels_known in Hg.
  - intros r now now' e Hout.
    pose proof (processResults_Transition this r now now') as HT.
    rewrite Hout in HT.
    apply (Transition_label _ _ _ _ _ _ HT) in Hwf.
    now apply concreteLabels_known in Hwf.
Qed.

Lemma unknown_never_buffered_nor_emitted_witness :
  Forall (fun g => g <> "unknown")
    (gestureBuffer
       (runAll (detectGesture newRecognizer)
          [rightHandAt pointingFrame 1000; rightHandAt threeFingersFrame 1100;
           rightHandAt thumbsUpFrame 1200]))
  /\ forall (r : Results) (now now' : Z) (e : GestureResult.t),
       snd (PalmFacing.processResults
              (runAll (detectGesture newRecognizer)
                 [rightHandAt pointingFrame 1000; rightHandAt threeFingersFrame 1100;
                  rightHandAt thumbsUpFrame 1200]) r now now')
       = Called (Some e) ->
       GestureResult.type e <> "unknown".
Proof.
  apply unknown_never_buffered_nor_emitted.
  apply reachable_runAll. apply reach_detect. apply reach_new.
Defined.

Example buffer_after_three_frames :
  gestureBuffer
    (runAll (detectGesture newRecognizer)
       [rightHandAt pointingFrame 1000; rightHandAt threeFingersFrame 1100;
        rightHandAt thumbsUpFrame 1200])
  = ["pointing"; "thumbs_up"].
Proof. vm_compute. reflexivity. Qed.

(** * Debouncing *)

Lemma Transition_emitted (this this' : GestureRecognizer) (r : Results)
  (now now' : Z) (e : GestureResult.t) :
  Transition this r now now' this' (Called (Some e)) ->
  (now - lastGestureTime this > 800)%Z /\ lastGestureTime this' = now'.
Proof.
  intros HT. inversion HT; subst. split; [assumption | reflexivity].
Qed.

Lemma Transition_quiet (this this' : GestureRecognizer) (r : Results)
  (now now' : Z) (out : Outcome) :
  Transition this r now now' this' out ->
  (forall e, out <> Called (Some e)) ->
  lastGestureTime this' = lastGestureTime this.
Proof.
  intros HT Hquiet. destruct HT; try reflexivity.
  exfalso. eapply Hquiet. reflexivity.
Qed.

(** Every emission of a run comes more than the cooldown after the time the
    recognizer had recorded when the run began. *)
Lemma emitting_after_last (ticks : list Tick) (this : GestureRecognizer) :
  Forall (fun t => (checkedAt t <= storedAt t)%Z) ticks ->
  Forall (fun e => (checkedAt e - lastGestureTime this > 800)%Z)
         (emitting this ticks).
Proof.
  intros Hclock. revert this.
  induction Hclock as [|t rest Ht _ IH]; intros this; cbn [emitting];
    [constructor|].
  pose proof (step_Transition this t) as HT.
  destruct (step this t) as [this' out]. cbn [fst snd] in HT.
  destruct out as [|[e|]|].
  - rewrite <- (Transition_quiet _ _ _ _ _ _ HT) by discriminate. apply IH.
  - apply Transition_emitted in HT. destruct HT as [Hlate Hlast].
    constructor; [exact Hlate|].
    eapply Forall_impl; [|apply (IH this')].
    cbn beta. intros e2 He2. rewrite Hlast in He2. lia.
  - rewrite <- (Transition_quiet _ _ _ _ _ _ HT) by discriminate. apply IH.
  - rewrite <- (Transition_quiet _ _ _ _ _ _ HT) by discriminate. apply IH.
Qed.

Lemma emitting_spaced (ticks : list Tick) (this : GestureRecognizer) :
  Forall (fun t => (checkedAt t <= storedAt t)%Z) ticks ->
  ForallOrdPairs (fun e1 e2 => (checkedAt e2 - storedAt e1 > 800)%Z)
                 (emitting this ticks).
Proof.
  intros Hclock. revert this.
  induction Hclock as [|t rest Ht Hrest IH]; intros this; cbn [emitting];
    [constructor|].
  pose proof (step_Transition this t) as HT.
  destruct (step this t) as [this' out]. cbn [fst snd] in HT.
  destruct out as [|[e|]|]; try apply IH.
  apply Transition_emitted in HT. destruct HT as [_ Hlast].
  constructor; [|apply IH].
  pose proof (emitting_after_last rest this' Hrest) as Hafter.
  rewrite Hlast in Hafter. exact Hafter.
Qed.

(** A candidate seen after the cooldown has elapsed is emitted. *)
Lemma candidate_emitted (this : GestureRecognizer) (t : Tick)
  (landmarks : list HandLandmark) (others : list (list HandLandmark))
  (g c : string) :
  wellFormed this ->
  onResultsCallback this = true ->
  multiHandLandmarks (results t) = Some (landmarks :: others) ->
  PalmFacing.classifyGesture (convert landmarks) (handednessOf (results t)) = Ok g ->
  g <> "unknown" ->
  PalmFacing.getMostFrequentGesture (pushGesture 5 (gestureBuffer this) g) = Some c ->
  (checkedAt t - lastGestureTime this > 800)%Z ->
  step this t
  = ({| lastGestureTime := storedAt t;
        gestureBuffer := pushGesture 5 (gestureBuffer this) g;
        onResultsCallback := true |},
     Called (Some {| GestureResult.type := c;
                     GestureResult.confidence :=
                       PalmFacing.calculateConfidence (convert landmarks);
                     GestureResult.landmarks := Some (convert landmarks) |})).
Proof.
  intros [_ Hall] Hcb Hhands Hclass Hg Hc Hlate.
  assert (Hne : c <> "").
  { pose proof Hc as Hin. apply mostFrequentAtLeast_sound in Hin.
    destruct Hin as [Hin _].
    assert (Hlabels : Forall (fun g => In g concreteLabels)
                        (pushGesture 5 (gestureBuffer this) g)).
    { apply pushGesture_Forall; [exact Hall|].
      apply classifyGesture_labels in Hclass. tauto. }
    rewrite Forall_forall in Hlabels. specialize (Hlabels c Hin).
    now apply concreteLabels_known in Hlabels. }
  unfold step, PalmFacing.processResults.
  rewrite Hcb, Hhands, Hclass. cbn [negb].
  apply String.eqb_neq in Hg. rewrite Hg. cbn [negb].
  rewrite Hc. cbn [truthyString].
  apply String.eqb_neq in Hne. rewrite Hne. cbn [negb andb].
  assert (Hgt : (checkedAt t - lastGestureTime this >? 800)%Z = true)
    by (apply Z.gtb_lt; lia).
  rewrite Hgt. reflexivity.
Qed.

(** C4: in any run of the recognizer whose clock does not go backwards
    between the two readings of one invocation, any two emissions are more
    than the 800 ms cooldown apart (the later one is tested more than 800 ms
    after the time the earlier one recorded), so no cooldown window holds
    two of them; and in a reachable recognizer with a callback, a frame that
    yields a candidate more than 800 ms after the last recorded emission is
    emitted and its time recorded. *)
Theorem debounce (this : GestureRecognizer) (ticks : list Tick) :
  Forall (fun t => (checkedAt t <= storedAt t)%Z) ticks ->
  ForallOrdPairs (fun e1 e2 => (checkedAt e2 - storedAt e1 > 800)%Z)
                 (emitting this ticks)
  /\ forall (t : Tick) (landmarks : list HandLandmark)
       (others : list (list HandLandmark)) (g c : string),
       reachable this ->
       onResultsCallback this = true ->
       multiHandLandmarks (results t) = Some (landmarks :: others) ->
       PalmFacing.classifyGesture (convert landmarks) (handednessOf (results t))
       = Ok g ->
       g <> "unknown" ->
       PalmFacing.getMostFrequentGesture (pushGesture 5 (gestureBuffer this) g)
       = Some c ->
       (checkedAt t - lastGestureTime this > 800)%Z ->
       exists e, snd (step this t) = Called (Some e)
                 /\ GestureResult.type e = c
                 /\ lastGestureTime (fst (step this t)) = storedAt t.
Proof.
  intros Hclock. split; [now apply emitting_spaced|].
  intros t landmarks others g c Hreach Hcb Hhands Hclass Hg Hc Hlate.
  apply reachable_wellFormed in Hreach.
  rewrite (candidate_emitted this t landmarks others g c) by assumption.
  eexists. cbn [fst snd lastGestureTime]. repeat split.
Qed.

(** The scenario of a held pointing hand.  A fresh recognizer has seen the
    hand twice; of the five invocations that follow, the first emits, the
    next two fall inside the cooldown, the one exactly 800 ms later is still
    held back, and the one after it emits again. *)
Lemma debounce_witness :
  (emitting (runAll (detectGesture newRecognizer) (firstn 2 sustainedPointing))
     (skipn 2 sustainedPointing)
   = [ rightHandAt pointingFrame 1700000000200;
       rightHandAt pointingFrame 1700000001100 ]
   /\ ForallOrdPairs (fun e1 e2 => (checkedAt e2 - storedAt e1 > 800)%Z)
        (emitting
           (runAll (detectGesture newRecognizer) (firstn 2 sustainedPointing))
           (skipn 2 sustainedPointing)))
  /\ exists e,
       snd (step (runAll (detectGesture newRecognizer)
                    (firstn 2 sustainedPointing))
              (rightHandAt pointingFrame 1700000000200))
       = Called (Some e)
       /\ GestureResult.type e = "pointing"
       /\ lastGestureTime
            (fst (step (runAll (detectGesture newRecognizer)
                          (firstn 2 sustainedPointing))
                    (rightHandAt pointingFrame 1700000000200)))
          = storedAt (rightHandAt pointingFrame 1700000000200).
Proof.
  destruct (debounce
              (runAll (detectGesture newRecognizer) (firstn 2 sustainedPointing))
              (skipn 2 sustainedPointing)) as [Hspaced Hemit].
  - unfold sustainedPointing, rightHandAt. cbn [skipn].
    repeat constructor; cbn [checkedAt storedAt]; lia.
  - split.
    + split; [vm_compute; reflexivity | exact Hspaced].
    + apply (Hemit (rightHandAt pointingFrame 1700000000200) pointingFrame []
               "pointing" "pointing").
      * apply reachable_runAll. apply reach_detect. apply reach_new.
      * reflexivity.
      * reflexivity.
      * vm_compute. reflexivity.
      * discriminate.
      * vm_compute. reflexivity.
      * vm_compute. reflexivity.
Defined.

(** * Emission and the buffer *)

(** C10: on a frame with a concrete label the buffer becomes the old buffer
    with that label pushed (and the oldest entry dropped at capacity),
    whether or not the frame emits; emitting changes the recorded time of
    the last emission and nothing else; and when a reachable recognizer has
    just emitted the label of the frame, the same label seen again more than
    800 ms later is emitted at once, from the buffer as the pushes left
    it. *)
Theorem emission_leaves_buffer (this : GestureRecognizer) (t : Tick)
  (landmarks : list HandLandmark) (others : list (list HandLandmark))
  (g : string) :
  onResultsCallback this = true ->
  multiHandLandmarks (results t) = Some (landmarks :: others) ->
  PalmFacing.classifyGesture (convert landmarks) (handednessOf (results t)) = Ok g ->
  g <> "unknown" ->
  gestureBuffer (fst (step this t)) = pushGesture 5 (gestureBuffer this) g
  /\ onResultsCallback (fst (step this t)) = true
  /\ ((exists e, snd (step this t) = Called (Some e))
      /\ lastGestureTime (fst (step this t)) = storedAt t
      \/ snd (step this t) = NotCalled
         /\ lastGestureTime (fst (step this t)) = lastGestureTime this)
  /\ forall (t2 : Tick) (landmarks2 : list HandLandmark)
       (others2 : list (list HandLandmark)) (e : GestureResult.t),
       reachable this ->
       snd (step this t) = Called (Some e) ->
       GestureResult.type e = g ->
       multiHandLandmarks (results t2) = Some (landmarks2 :: others2) ->
       PalmFacing.classifyGesture (convert landmarks2) (handednessOf (results t2))
       = Ok g ->
       (checkedAt t2 - storedAt t > 800)%Z ->
       exists e2, snd (step (fst (step this t)) t2) = Called (Some e2)
                  /\ GestureResult.type e2 = g
                  /\ gestureBuffer (fst (step (fst (step this t)) t2))
                     = pushGesture 5 (pushGesture 5 (gestureBuffer this) g) g.
Proof.
  intros Hcb Hhands Hclass Hg.
  pose proof (step_Transition this t) as HT.
  assert (Hsame : forall landmarks0 others0 g0,
             multiHandLandmarks (results t) = Some (landmarks0 :: others0) ->
             PalmFacing.classifyGesture (convert landmarks0)
               (handednessOf (results t)) = Ok g0 ->
             g0 = g).
  { intros landmarks0 others0 g0 Hhands0 Hclass0.
    rewrite Hhands in Hhands0. injection Hhands0 as <- <-.
    rewrite Hclass in Hclass0. now injection Hclass0. }
  inversion HT as
    [ Hcb0
    | Hcb0 Hnone
    | landmarks0 others0 Hcb0 Hhands0 Hclass0
    | landmarks0 others0 Hcb0 Hhands0 Hclass0
    | landmarks0 others0 g0 Hcb0 Hhands0 Hclass0 Hg0 Hheld Hthis' Hout
    | landmarks0 others0 g0 c Hcb0 Hhands0 Hclass0 Hg0 Hc Hne Hlate Hthis' Hout ].
  - congruence.
  - destruct Hnone; congruence.
  - rewrite Hhands in Hhands0. injection Hhands0 as <- <-. congruence.
  - apply (Hsame _ _ _ Hhands0) in Hclass0. congruence.
  - apply (Hsame _ _ _ Hhands0) in Hclass0. subst g0.
    cbn [gestureBuffer onResultsCallback lastGestureTime].
    repeat split; [now right|].
    intros t2 landmarks2 others2 e _ Hcalled. discriminate Hcalled.
  - apply (Hsame _ _ _ Hhands0) in Hclass0. subst g0.
    cbn [gestureBuffer onResultsCallback lastGestureTime].
    repeat split; [left; split; [now eexists | reflexivity]|].
    intros t2 landmarks2 others2 e Hreach Hcalled Htype Hhands2 Hclass2 Hlate2.
    injection Hcalled as <-.
    cbn [GestureResult.type] in Htype. subst c.
    set (this1 := {| lastGestureTime := storedAt t;
                     gestureBuffer := pushGesture 5 (gestureBuffer this) g;
                     onResultsCallback := true |}).
    assert (Hwf1 : wellFormed this1).
    { unfold this1. rewrite Hthis'. apply reachable_wellFormed.
      unfold step. now apply reach_process. }
    assert (Hc2 : PalmFacing.getMostFrequentGesture
                    (pushGesture 5 (gestureBuffer this1) g) = Some g).
    { apply mostFrequentAtLeast_sound in Hc. destruct Hc as (_ & Hthree & _).
      pose proof (pushGesture_count 5 (gestureBuffer this1) g) as Hcount.
      pose proof (pushGesture_length 5 (gestureBuffer this1) g (proj1 Hwf1))
        as Hlen.
      cbn [gestureBuffer this1] in *.
      apply mostFrequentAtLeast_majority; lia. }
    rewrite (candidate_emitted this1 t2 landmarks2 others2 g g);
      try assumption; try reflexivity.
    eexists. cbn [fst snd gestureBuffer GestureResult.type this1].
    repeat split.
Qed.

(** A pointing hand held by a recognizer that has seen it twice: the third
    frame emits, and a frame 900 ms later emits again from the buffer the
    four pushes left. *)
Lemma emission_leaves_buffer_witness :
  gestureBuffer
    (fst (step (tracking ["pointing"; "pointing"] 0)
            (rightHandAt pointingFrame 1700000000200)))
  = ["pointing"; "pointing"; "pointing"]
  /\ exists e2,
       snd (step (fst (step (tracking ["pointing"; "pointing"] 0)
                         (rightHandAt pointingFrame 1700000000200)))
              (rightHandAt pointingFrame 1700000001100))
       = Called (Some e2)
       /\ GestureResult.type e2 = "pointing"
       /\ gestureBuffer
            (fst (step (fst (step (tracking ["pointing"; "pointing"] 0)
                              (rightHandAt pointingFrame 1700000000200)))
                    (rightHandAt pointingFrame 1700000001100)))
          = pushGesture 5
              (pushGesture 5 (gestureBuffer (tracking ["pointing"; "pointing"] 0))
                 "pointing")
              "pointing".
Proof.
  destruct (emission_leaves_buffer (tracking ["pointing"; "pointing"] 0)
              (rightHandAt pointingFrame 1700000000200) pointingFrame []
              "pointing") as (Hbuf & _ & _ & Hagain).
  - reflexivity.
  - reflexivity.
  - vm_compute. reflexivity.
  - discriminate.
  - split; [exact Hbuf|].
    apply (Hagain (rightHandAt pointingFrame 1700000001100) pointingFrame []
             {| GestureResult.type := "pointing";
                GestureResult.confidence :=
                  PalmFacing.calculateConfidence (convert pointingFrame);
                GestureResult.landmarks := Some (convert pointingFrame) |}).
    + change (reachable
                (runAll (detectGesture newRecognizer)
                   [rightHandAt pointingFrame 1700000000000;
                    rightHandAt pointingFrame 1700000000100])).
      apply reachable_runAll. apply reach_detect. apply reach_new.
    + vm_compute. reflexivity.
    + reflexivity.
    + reflexivity.
    + vm_compute. reflexivity.
    + cbn [checkedAt storedAt rightHandAt]. lia.
Defined.

(** * Majority vote *)

(** C6: with the simplified revision's constants (capacity 3, two
    detections required) and A, B, C three pairwise distinct labels of the
    classifier, pushing A, B, A into an empty buffer leaves [A, B, A], whose
    candidate is A; and the buffer [A, B, C] has no candidate. *)
Theorem majority_of_three (A B C : string) :
  In A concreteLabels -> In B concreteLabels -> In C concreteLabels ->
  A <> B -> B <> C -> A <> C ->
  pushGesture 3 (pushGesture 3 (pushGesture 3 [] A) B) A = [A; B; A]
  /\ Simplified.getMostFrequentGesture [A; B; A] = Some A
  /\ Simplified.getMostFrequentGesture [A; B; C] = None.
Proof.
  intros _ _ _ HAB HBC HAC. unfold Simplified.getMostFrequentGesture.
  split; [reflexivity|]. split.
  - apply mostFrequentAtLeast_majority; cbn [count_occ length];
      destruct (string_dec A A), (string_dec B A); try congruence; lia.
  - destruct (mostFrequentAtLeast 2 [A; B; C]) as [g|] eqn:Hg; [|reflexivity].
    apply mostFrequentAtLeast_sound in Hg. destruct Hg as (_ & Htwo & _).
    cbn [count_occ] in Htwo.
    destruct (string_dec A g), (string_dec B g), (string_dec C g);
      try congruence; lia.
Qed.

Lemma majority_of_three_witness :
  pushGesture 3 (pushGesture 3 (pushGesture 3 [] "fist") "peace") "fist"
  = ["fist"; "peace"; "fist"]
  /\ Simplified.getMostFrequentGesture ["fist"; "peace"; "fist"] = Some "fist"
  /\ Simplified.getMostFrequentGesture ["fist"; "peace"; "pointing"] = None.
Proof.
  apply (majority_of_three "fist" "peace" "pointing");
    first [discriminate | cbn [In concreteLabels]; tauto].
Defined.

(** * The decision chains on finger-state vectors *)

Ltac by_cases :=
  cbn; repeat split; intros;
  repeat match goal with
         | H : _ /\ _ |- _ => destruct H
         end;
  try congruence; try lia.

Lemma policy_thumb_only (a b c d e vertical ok : bool) :
  isOne [Nat.b2n a; Nat.b2n b; Nat.b2n c; Nat.b2n d; Nat.b2n e] 0 = true ->
  sum [Nat.b2n a; Nat.b2n b; Nat.b2n c; Nat.b2n d; Nat.b2n e] = 1 ->
  policy [Nat.b2n a; Nat.b2n b; Nat.b2n c; Nat.b2n d; Nat.b2n e] vertical ok
  = if vertical then "thumbs_up" else "unknown".
Proof.
  destruct a, b, c, d, e; cbn; intros; try discriminate; reflexivity.
Qed.

Lemma policy_thumbs_up (a b c d e vertical ok : bool) :
  policy [Nat.b2n a; Nat.b2n b; Nat.b2n c; Nat.b2n d; Nat.b2n e] vertical ok
  = "thumbs_up"
  <-> a = true /\ b = false /\ c = false /\ d = false /\ e = false
      /\ vertical = true.
Proof.
  destruct a, b, c, d, e, vertical, ok; by_cases.
Qed.

Lemma policy_ok_sign (a b c d e vertical ok : bool) :
  policy [Nat.b2n a; Nat.b2n b; Nat.b2n c; Nat.b2n d; Nat.b2n e] vertical ok
  = "ok_sign"
  <-> a = true /\ b = true
      /\ sum [Nat.b2n a; Nat.b2n b; Nat.b2n c; Nat.b2n d; Nat.b2n e] <> 5
      /\ ok = true.
Proof.
  destruct a, b, c, d, e, vertical, ok; by_cases.
Qed.

Lemma simplifiedPolicy_ok_sign (fingersUp : list nat) (ok : bool) :
  simplifiedPolicy fingersUp ok = "ok_sign"
  <-> simplerRule fingersUp = false /\ ok = true.
Proof.
  unfold simplifiedPolicy, simplerRule. cbv zeta.
  destruct (sum fingersUp =? 0), (sum fingersUp =? 5), (sum fingersUp =? 1),
    (sum fingersUp =? 2), (isOne fingersUp 0), (isOne fingersUp 1),
    (isOne fingersUp 2), (isOne fingersUp 4), ok; by_cases.
Qed.

Lemma raised_at_least_one (m r p : bool) :
  m || r || p = true <-> 1 <= Nat.b2n m + Nat.b2n r + Nat.b2n p.
Proof. destruct m, r, p; by_cases. Qed.

Lemma raised_at_least_two (m r p : bool) :
  (2 <=? length (filter (fun b : bool => b) [m; r; p])) = true
  <-> 2 <= Nat.b2n m + Nat.b2n r + Nat.b2n p.
Proof. destruct m, r, p; by_cases. Qed.

(** ** The simplified classifier as a function of the frame *)

Lemma getFingersUpSimplified_frame (landmarks : list HandLandmark)
  (handedness : string) :
  21 <= length landmarks ->
  Simplified.getFingersUpSimplified landmarks handedness
  = Ok (simplifiedFingerState landmarks).
Proof.
  intros Hlen.
  unfold Simplified.getFingersUpSimplified, simplifiedFingerState.
  cbn [Simplified.otherFingers].
  frame_reads.
  destruct (Js.gt (Js.abs (x (lm landmarks 4) - x (lm landmarks 5))) 0.05);
    frame_reads; reflexivity.
Qed.

Lemma isOkGestureSimplified_frame (landmarks : list HandLandmark) :
  21 <= length landmarks ->
  Simplified.isOkGestureSimplified landmarks = Ok (pinchedLoosely landmarks).
Proof.
  intros Hlen.
  unfold Simplified.isOkGestureSimplified, pinchedLoosely, pinchDistance,
    tipAbovePip.
  frame_reads. reflexivity.
Qed.

Lemma simplified_classifyGesture_frame (landmarks : list HandLandmark)
  (handedness : string) :
  21 <= length landmarks ->
  Simplified.classifyGesture landmarks handedness
  = Ok (simplifiedPolicy (simplifiedFingerState landmarks)
                         (pinchedLoosely landmarks)).
Proof.
  intros Hlen. unfold Simplified.classifyGesture, simplifiedPolicy.
  rewrite getFingersUpSimplified_frame by exact Hlen. rewrite bind_Ok. cbv zeta.
  rewrite isOkGestureSimplified_frame by exact Hlen.
  repeat match goal with
         | |- context [if ?c then _ else _] => destruct c; cbn [bind andb]
         end; reflexivity.
Qed.

(** * Thumbs up *)

(** C7: on a frame of 21 landmarks whose finger states have only the thumb
    up ([fingersUp[0] === 1] and [fingerCount === 1]), [isThumbsUp] is the
    verticality check (thumb tip strictly above the thumb MCP and the index
    MCP, and more than 0.05 from the index MCP horizontally); the classifier
    returns ["thumbs_up"] exactly when the check passes and ["unknown"] when
    it fails. *)
Theorem thumb_only_rule (landmarks : list HandLandmark) (handedness : string)
  (fingersUp : list nat) :
  length landmarks = 21 ->
  PalmFacing.getFingersUp landmarks
    [4; 8; 12; 16; 20] [3; 6; 10; 14; 18] [2; 5; 9; 13; 17] handedness
  = Ok fingersUp ->
  isOne fingersUp 0 = true ->
  sum fingersUp = 1 ->
  PalmFacing.isThumbsUp landmarks handedness = Ok (thumbVertical landmarks)
  /\ (PalmFacing.classifyGesture landmarks handedness = Ok "thumbs_up"
      <-> thumbVertical landmarks = true)
  /\ (thumbVertical landmarks = false ->
      PalmFacing.classifyGesture landmarks handedness = Ok "unknown").
Proof.
  intros Hlen Hfingers Hthumb Hcount.
  assert (Hlen' : 21 <= length landmarks) by lia.
  rewrite getFingersUp_frame in Hfingers by exact Hlen'.
  injection Hfingers as <-.
  rewrite classifyGesture_frame by exact Hlen'.
  unfold fingerState in *.
  rewrite policy_thumb_only by assumption.
  split; [now apply isThumbsUp_frame|].
  destruct (thumbVertical landmarks); repeat split; intros; congruence.
Qed.

Lemma thumb_only_rule_witness :
  PalmFacing.isThumbsUp thumbsUpFrame "Right" = Ok (thumbVertical thumbsUpFrame)
  /\ (PalmFacing.classifyGesture thumbsUpFrame "Right" = Ok "thumbs_up"
      <-> thumbVertical thumbsUpFrame = true)
  /\ (thumbVertical thumbsUpFrame = false ->
      PalmFacing.classifyGesture thumbsUpFrame "Right" = Ok "unknown").
Proof.
  apply (thumb_only_rule thumbsUpFrame "Right" [1; 0; 0; 0; 0]).
  - reflexivity.
  - vm_compute. reflexivity.
  - reflexivity.
  - reflexivity.
Defined.

Example thumb_only_rule_examples :
  PalmFacing.classifyGesture thumbsUpFrame "Right" = Ok "thumbs_up"
  /\ thumbVertical thumbsUpFrame = true.
Proof. vm_compute. split; reflexivity. Qed.

(** ** Mirroring *)

Lemma lm_mirror (landmarks : list HandLandmark) (k : nat) :
  k < length landmarks ->
  lm (mirror landmarks) k
  = {| x := (1 - x (lm landmarks k))%float;
       y := y (lm landmarks k);
       z := z (lm landmarks k) |}.
Proof.
  intros Hk. unfold lm, mirror.
  rewrite (nth_indep _ origin
             {| x := (1 - x origin)%float; y := y origin; z := z origin |})
    by (rewrite length_map; exact Hk).
  apply (map_nth (fun landmark =>
                    {| x := (1 - x landmark)%float;
                       y := y landmark; z := z landmark |})).
Qed.

(** ** Comparisons and exact subtractions of doubles *)

Section ExactSubtraction.

Local Open Scope Z_scope.

Lemma digits2_pos_bounds (m : positive) :
  2 ^ (Z.pos (digits2_pos m) - 1) <= Z.pos m < 2 ^ Z.pos (digits2_pos m).
Proof.
  induction m as [m IH|m IH|]; cbn [digits2_pos].
  - rewrite Pos2Z.inj_succ.
    replace (Z.succ (Z.pos (digits2_pos m)) - 1)
      with (Z.succ (Z.pos (digits2_pos m) - 1)) by lia.
    rewrite !Z.pow_succ_r by lia. lia.
  - rewrite Pos2Z.inj_succ.
    replace (Z.succ (Z.pos (digits2_pos m)) - 1)
      with (Z.succ (Z.pos (digits2_pos m) - 1)) by lia.
    rewrite !Z.pow_succ_r by lia. lia.
  - cbn. lia.
Qed.

(** A double's exponent is at least -1074 and its mantissa has at most 53
    bits, exactly 53 unless the number is subnormal. *)
Lemma valid_finite (s : bool) (m : positive) (e : Z) :
  valid_binary (S754_finite s m e) = true ->
  -1074 <= e
  /\ Z.pos m < 2 ^ 53
  /\ (-1074 < e -> 2 ^ 52 <= Z.pos m).
Proof.
  unfold SpecFloat.valid_binary, bounded, canonical_mantissa, fexp.
  change (SpecFloat.emin prec emax) with (-1074).
  change prec with 53. change emax with 1024.
  intros H. apply andb_prop in H. destruct H as [H _].
  apply Z.eqb_eq in H.
  pose proof (digits2_pos_bounds m) as [Hlo Hhi].
  set (d := Z.pos (digits2_pos m)) in *.
  assert (Hd : 0 < d) by (unfold d; lia).
  split; [lia|]. split.
  - assert (d <= 53) by lia.
    apply Z.lt_le_trans with (1 := Hhi).
    apply Z.pow_le_mono_r; lia.
  - intros He. assert (d = 53) by lia.
    replace 52 with (d - 1) by lia. exact Hlo.
Qed.

Lemma scaled_positive (m : positive) (e : Z) :
  -1074 <= e -> 0 < Z.pos m * 2 ^ (e + 1074).
Proof.
  intros He. apply Z.mul_pos_pos; [lia|]. apply Z.pow_pos_nonneg; lia.
Qed.

(** Of two positive doubles the one with the smaller exponent is smaller. *)
Lemma scaled_lt (m1 m2 : positive) (e1 e2 : Z) :
  valid_binary (S754_finite false m1 e1) = true ->
  valid_binary (S754_finite false m2 e2) = true ->
  e1 < e2 ->
  Z.pos m1 * 2 ^ (e1 + 1074) < Z.pos m2 * 2 ^ (e2 + 1074).
Proof.
  intros H1 H2 He.
  apply valid_finite in H1. destruct H1 as (Hmin1 & Hhi1 & _).
  apply valid_finite in H2. destruct H2 as (_ & _ & Hlo2).
  specialize (Hlo2 ltac:(lia)).
  assert (Hp : 0 < 2 ^ (e1 + 1074)) by (apply Z.pow_pos_nonneg; lia).
  assert (Hq : 0 < 2 ^ (e2 - e1 - 1)) by (apply Z.pow_pos_nonneg; lia).
  assert (Hsplit : 2 ^ (e2 + 1074)
                   = 2 ^ (e2 - e1 - 1) * (2 * 2 ^ (e1 + 1074))).
  { rewrite <- Z.pow_succ_r, <- Z.pow_add_r by lia. f_equal. lia. }
  rewrite Hsplit.
  change (2 ^ 53) with (2 * 2 ^ 52) in Hhi1.
  set (p := 2 ^ (e1 + 1074)) in *. set (q := 2 ^ (e2 - e1 - 1)) in *.
  set (t := 2 ^ 52) in *.
  nia.
Qed.

(** The comparison of two finite doubles is the comparison of the numbers
    they stand for. *)
Lemma SFcompare_scaled (f1 f2 : spec_float) (v1 v2 : Z) :
  valid_binary f1 = true -> valid_binary f2 = true ->
  scaled f1 = Some v1 -> scaled f2 = Some v2 ->
  SFcompare f1 f2 = Some (v1 ?= v2).
Proof.
  intros Hv1 Hv2 H1 H2.
  destruct f1 as [s1| | |s1 m1 e1], f2 as [s2| | |s2 m2 e2];
    try discriminate; cbn [scaled] in H1, H2;
    injection H1 as <-; injection H2 as <-; cbn [SFcompare].
  - reflexivity.
  - pose proof (valid_finite _ _ _ Hv2) as (He & _).
    pose proof (scaled_positive m2 e2 He).
    f_equal. symmetry. destruct s2.
    + apply Z.compare_gt_iff. lia.
    + apply Z.compare_lt_iff. lia.
  - pose proof (valid_finite _ _ _ Hv1) as (He & _).
    pose proof (scaled_positive m1 e1 He).
    f_equal. symmetry. destruct s1.
    + apply Z.compare_lt_iff. lia.
    + apply Z.compare_gt_iff. lia.
  - pose proof (valid_finite _ _ _ Hv1) as (He1 & _).
    pose proof (valid_finite _ _ _ Hv2) as (He2 & _).
    pose proof (scaled_positive m1 e1 He1).
    pose proof (scaled_positive m2 e2 He2).
    assert (Hsame : e1 = e2 ->
              (Z.pos m1 * 2 ^ (e1 + 1074) ?= Z.pos m2 * 2 ^ (e2 + 1074))
              = (m1 ?= m2)%positive).
    { intros <-. rewrite Pos2Z.inj_compare.
      assert (Hp : 0 < 2 ^ (e1 + 1074)) by (apply Z.pow_pos_nonneg; lia).
      set (p := 2 ^ (e1 + 1074)) in *.
      destruct (Z.compare_spec (Z.pos m1) (Z.pos m2)) as [Heq|Hlt|Hgt].
      - rewrite Heq. apply Z.compare_refl.
      - apply Z.compare_lt_iff. nia.
      - apply Z.compare_gt_iff. nia. }
    f_equal. symmetry. destruct s1, s2; cbv iota.
    + change (Z.neg m1) with (- Z.pos m1). change (Z.neg m2) with (- Z.pos m2).
      rewrite !Z.mul_opp_l, Z.compare_opp.
      destruct (Z.compare_spec e1 e2) as [Heq|Hlt|Hgt].
      * rewrite Z.compare_antisym. f_equal. now apply Hsame.
      * apply Z.compare_gt_iff.
        apply (scaled_lt m1 m2 e1 e2); [exact Hv1|exact Hv2|exact Hlt].
      * apply Z.compare_lt_iff.
        apply (scaled_lt m2 m1 e2 e1); [exact Hv2|exact Hv1|lia].
    + apply Z.compare_lt_iff. lia.
    + apply Z.compare_gt_iff. lia.
    + destruct (Z.compare_spec e1 e2) as [Heq|Hlt|Hgt].
      * now apply Hsame.
      * apply Z.compare_lt_iff. now apply scaled_lt.
      * apply Z.compare_gt_iff.
        apply (scaled_lt m2 m1 e2 e1); [exact Hv2|exact Hv1|lia].
Qed.

(** [a < b] on finite doubles is [<] on the numbers. *)
Lemma ltb_scaled (a b : float) (va vb : Z) :
  scaled (Prim2SF a) = Some va -> scaled (Prim2SF b) = Some vb ->
  PrimFloat.ltb a b = (va <? vb).
Proof.
  intros Ha Hb. rewrite ltb_spec. unfold SFltb.
  rewrite (SFcompare_scaled _ _ va vb (Prim2SF_valid a) (Prim2SF_valid b) Ha Hb).
  unfold Z.ltb. now destruct (va ?= vb).
Qed.

Lemma exactSub_spec (a b : float) :
  exactSub a b = true ->
  exists va vb, scaled (Prim2SF a) = Some va /\ scaled (Prim2SF b) = Some vb
                /\ scaled (Prim2SF (a - b)%float) = Some (va - vb).
Proof.
  unfold exactSub.
  destruct (scaled (Prim2SF a)) as [va|]; [|discriminate].
  destruct (scaled (Prim2SF b)) as [vb|]; [|discriminate].
  destruct (scaled (Prim2SF (a - b)%float)) as [vd|]; [|discriminate].
  intros H. apply Z.eqb_eq in H. subst vd. now exists va, vb.
Qed.

(** Mirroring reverses a strict left-to-right order when [1 - x] does not
    round. *)
Lemma mirrored_side (a b : float) :
  Js.gt a b = true ->
  exactSub 1 a = true -> exactSub 1 b = true ->
  Js.lt (1 - a) (1 - b) = true.
Proof.
  unfold Js.gt, Js.lt. intros Hab Ha Hb.
  apply exactSub_spec in Ha. destruct Ha as (one & va & Hone & Hva & Hma).
  apply exactSub_spec in Hb. destruct Hb as (one' & vb & Hone' & Hvb & Hmb).
  rewrite Hone in Hone'. injection Hone' as <-.
  rewrite (ltb_scaled _ _ _ _ Hvb Hva) in Hab.
  rewrite (ltb_scaled _ _ _ _ Hma Hmb).
  apply Z.ltb_lt in Hab. apply Z.ltb_lt. lia.
Qed.

Lemma iter_pos_iter {A : Type} (f : A -> A) (p : positive) (a : A) :
  iter_pos f p a = Pos.iter f a p.
Proof.
  revert a. induction p as [p IH|p IH|]; intros a; cbn [iter_pos Pos.iter].
  - rewrite !IH. now rewrite !Pos.iter_swap.
  - now rewrite !IH.
  - reflexivity.
Qed.

Lemma shlZ_add (m : positive) (a b : Z) :
  0 <= a -> 0 <= b -> shlZ m (a + b) = shlZ (shlZ m b) a.
Proof.
  intros Ha Hb. destruct a as [|p|p], b as [|q|q]; try lia; try reflexivity.
  cbn [Z.add shlZ]. apply Pos.iter_add.
Qed.

Lemma shrZ_add (mrs : shr_record) (a b : Z) :
  0 <= a -> 0 <= b -> shrZ mrs (a + b) = shrZ (shrZ mrs b) a.
Proof.
  intros Ha Hb. destruct a as [|p|p], b as [|q|q]; try lia; try reflexivity.
  cbn [Z.add shrZ]. apply Pos.iter_add.
Qed.

Lemma shrZ_shlZ (m : positive) (n : Z) :
  shrZ (noBitsLost (Z.pos (shlZ m n))) n = noBitsLost (Z.pos m).
Proof.
  destruct n as [|p|p]; try reflexivity. cbn [shrZ shlZ].
  revert m. induction p as [|p IH] using Pos.peano_ind; intros m.
  - reflexivity.
  - rewrite Pos.iter_succ, Pos.iter_succ_r, IH. reflexivity.
Qed.

Lemma shlZ_value (m : positive) (n : Z) :
  0 <= n -> Z.pos (shlZ m n) = Z.pos m * 2 ^ n.
Proof.
  intros Hn. destruct n as [|p|p]; try lia.
  - cbn [shlZ]. lia.
  - cbn [shlZ]. clear Hn. induction p as [|p IH] using Pos.peano_ind.
    + cbn [Pos.iter]. rewrite Pos2Z.inj_xO. change (2 ^ 1) with 2. lia.
    + rewrite Pos.iter_succ, Pos2Z.inj_succ, Z.pow_succ_r by lia.
      rewrite Pos2Z.inj_xO, IH. lia.
Qed.

Lemma digits_shlZ (m : positive) (n : Z) :
  0 <= n -> Z.pos (digits2_pos (shlZ m n)) = Z.pos (digits2_pos m) + n.
Proof.
  intros Hn. destruct n as [|p|p]; try lia.
  - cbn [shlZ]. lia.
  - cbn [shlZ]. induction p as [|p IH] using Pos.peano_ind.
    + cbn [Pos.iter digits2_pos]. lia.
    + rewrite Pos.iter_succ. cbn [digits2_pos]. lia.
Qed.

Lemma shr_shrZ (mrs : shr_record) (e n : Z) :
  0 <= n -> shr mrs e n = (shrZ mrs n, e + n).
Proof.
  intros Hn. destruct n as [|p|p]; try lia; cbn [shr shrZ].
  - now rewrite Z.add_0_r.
  - now rewrite iter_pos_iter.
Qed.

Lemma shl_align_shlZ (m : positive) (e e' : Z) :
  shl_align m e e' = if e' <? e then (shlZ m (e - e'), e') else (m, e).
Proof.
  unfold shl_align. destruct (Z.ltb_spec e' e) as [H|H].
  - destruct (e' - e) as [|p|p] eqn:Hd; try lia.
    replace (e - e') with (Z.pos p) by lia. reflexivity.
  - destruct (e' - e) as [|p|p] eqn:Hd; try lia; reflexivity.
Qed.

Lemma binary_round_stages (s : bool) (m : positive) (e : Z) :
  binary_round prec emax s m e = finish s (aligned m e).
Proof.
  unfold binary_round, aligned, binary_round_aux, finish.
  destruct (shl_align m e _) as [mz ez]. reflexivity.
Qed.

Lemma fexp_min (e : Z) : -1074 <= fexp prec emax e.
Proof.
  unfold fexp. change (SpecFloat.emin prec emax) with (-1074). lia.
Qed.

Lemma aligned_value (m : positive) (e : Z) :
  -1074 <= e ->
  aligned m e
  = (shrZ (noBitsLost (Z.pos (shlZ m (e + 1074))))
       (fexp prec emax (Z.pos (digits2_pos m) + e) + 1074),
     fexp prec emax (Z.pos (digits2_pos m) + e)).
Proof.
  intros He. unfold aligned.
  pose proof (fexp_min (Z.pos (digits2_pos m) + e)) as Ht.
  set (t := fexp prec emax (Z.pos (digits2_pos m) + e)) in *.
  rewrite shl_align_shlZ. destruct (Z.ltb_spec t e) as [Hlt|Hge].
  - unfold shr_fexp. cbn [Zdigits2 shr_record_of_loc].
    rewrite digits_shlZ by lia.
    replace (Z.pos (digits2_pos m) + (e - t) + t)
      with (Z.pos (digits2_pos m) + e) by lia.
    fold t. rewrite Z.sub_diag. cbn [shr].
    replace (e + 1074) with ((t + 1074) + (e - t)) by lia.
    rewrite shlZ_add by lia. fold (noBitsLost (Z.pos (shlZ (shlZ m (e - t)) (t + 1074)))).
    rewrite shrZ_shlZ. reflexivity.
  - unfold shr_fexp. cbn [Zdigits2 shr_record_of_loc]. fold t.
    rewrite shr_shrZ by lia. f_equal; [|lia].
    fold (noBitsLost (Z.pos m)).
    replace (t + 1074) with ((t - e) + (e + 1074)) by lia.
    rewrite shrZ_add by lia. now rewrite shrZ_shlZ.
Qed.

(** Rounding a mantissa and exponent is rounding the number they stand for. *)
Lemma binary_round_value (s : bool) (m : positive) (e : Z) :
  -1074 <= e ->
  binary_round prec emax s m e
  = binary_round prec emax s (shlZ m (e + 1074)) (-1074).
Proof.
  intros He. rewrite !binary_round_stages. f_equal.
  rewrite (aligned_value m e He), (aligned_value _ (-1074)) by lia.
  rewrite digits_shlZ by lia.
  change (shlZ (shlZ m (e + 1074)) (-1074 + 1074)) with (shlZ m (e + 1074)).
  replace (Z.pos (digits2_pos m) + (e + 1074) + -1074)
    with (Z.pos (digits2_pos m) + e) by lia.
  reflexivity.
Qed.

Lemma binary_round_valid (s : bool) (m : positive) (e : Z) :
  valid_binary (S754_finite s m e) = true ->
  binary_round prec emax s m e = S754_finite s m e.
Proof.
  unfold SpecFloat.valid_binary, bounded, canonical_mantissa.
  intros H. apply andb_prop in H. destruct H as [Hcanon Hmax].
  apply Z.eqb_eq in Hcanon.
  unfold binary_round. rewrite Hcanon, shl_align_shlZ, Z.ltb_irrefl.
  unfold binary_round_aux, shr_fexp. cbn [Zdigits2 shr_record_of_loc].
  rewrite Hcanon, Z.sub_diag. cbn [shr shr_m loc_of_shr_record round_nearest_even
                                    Zdigits2 shr_record_of_loc].
  rewrite Hcanon, Z.sub_diag. cbn [shr shr_m]. now rewrite Hmax.
Qed.

Lemma binary_round_abs (s : bool) (m : positive) (e : Z) :
  SFabs (binary_round prec emax s m e)
  = SFabs (binary_round prec emax false m e).
Proof.
  rewrite !binary_round_stages. unfold finish.
  destruct (aligned m e) as [mrs' e'].
  destruct (shr_fexp prec emax _ e' loc_Exact) as [mrs'' e''].
  destruct (shr_m mrs'') as [|p|p]; try reflexivity.
  destruct (e'' <=? emax - prec); reflexivity.
Qed.

Lemma nearest_opp (v : Z) : SFabs (nearest (- v)) = SFabs (nearest v).
Proof.
  unfold nearest. destruct v as [|p|p]; cbn [Z.opp binary_normalize];
    try reflexivity.
  - apply binary_round_abs.
  - symmetry. apply binary_round_abs.
Qed.

Lemma binary_normalize_value (m e : Z) :
  -1074 <= e ->
  SFabs (binary_normalize prec emax m e false) = SFabs (nearest (m * 2 ^ (e + 1074))).
Proof.
  intros He. unfold nearest. destruct m as [|p|p].
  - reflexivity.
  - rewrite <- shlZ_value by lia. cbn [binary_normalize].
    now rewrite binary_round_value.
  - change (Z.neg p) with (- Z.pos p). rewrite Z.mul_opp_l.
    rewrite <- shlZ_value by lia. cbn [Z.opp binary_normalize].
    now rewrite binary_round_value.
Qed.

Lemma scaled_finite (s : bool) (m : positive) (e : Z) :
  scaled (S754_finite s m e) = Some (cond_Zopp s (Z.pos m) * 2 ^ (e + 1074)).
Proof. destruct s; reflexivity. Qed.

Lemma nearest_valid (s : bool) (m : positive) (e v : Z) :
  valid_binary (S754_finite s m e) = true ->
  scaled (S754_finite s m e) = Some v ->
  SFabs (nearest v) = S754_finite false m e.
Proof.
  intros Hv Hs. pose proof (valid_finite _ _ _ Hv) as (He & _).
  rewrite scaled_finite in Hs. injection Hs as <-.
  rewrite <- (binary_normalize_value _ e He).
  destruct s; cbn [cond_Zopp Z.opp binary_normalize];
    rewrite binary_round_valid by exact Hv; reflexivity.
Qed.

(** The size of a difference of two finite doubles is decided by the
    difference of the numbers. *)
Lemma SFsub_value (f1 f2 : spec_float) (v1 v2 : Z) :
  valid_binary f1 = true -> valid_binary f2 = true ->
  scaled f1 = Some v1 -> scaled f2 = Some v2 ->
  SFabs (SF64sub f1 f2) = SFabs (nearest (v1 - v2)).
Proof.
  intros Hv1 Hv2 H1 H2.
  destruct f1 as [s1| | |s1 m1 e1], f2 as [s2| | |s2 m2 e2];
    try discriminate.
  - injection H1 as <-. injection H2 as <-. destruct s1, s2; reflexivity.
  - injection H1 as <-. rewrite Z.sub_0_l, nearest_opp.
    rewrite (nearest_valid _ _ _ _ Hv2 H2). reflexivity.
  - injection H2 as <-. rewrite Z.sub_0_r.
    rewrite (nearest_valid _ _ _ _ Hv1 H1). reflexivity.
  - pose proof (valid_finite _ _ _ Hv1) as (He1 & _).
    pose proof (valid_finite _ _ _ Hv2) as (He2 & _).
    rewrite scaled_finite in H1, H2.
    injection H1 as <-. injection H2 as <-.
    unfold SF64sub. cbn [SFsub]. cbv zeta.
    rewrite binary_normalize_value by lia. do 2 f_equal.
    rewrite !shl_align_shlZ.
    set (ez := Z.min e1 e2).
    assert (Hz1 : Z.pos (fst (if ez <? e1 then (shlZ m1 (e1 - ez), ez) else (m1, e1)))
                  * 2 ^ (ez + 1074) = Z.pos m1 * 2 ^ (e1 + 1074)).
    { destruct (Z.ltb_spec ez e1) as [H|H]; cbn [fst].
      - rewrite shlZ_value by lia. rewrite <- Z.mul_assoc, <- Z.pow_add_r by lia.
        do 2 f_equal. lia.
      - replace ez with e1 by lia. reflexivity. }
    assert (Hz2 : Z.pos (fst (if ez <? e2 then (shlZ m2 (e2 - ez), ez) else (m2, e2)))
                  * 2 ^ (ez + 1074) = Z.pos m2 * 2 ^ (e2 + 1074)).
    { destruct (Z.ltb_spec ez e2) as [H|H]; cbn [fst].
      - rewrite shlZ_value by lia. rewrite <- Z.mul_assoc, <- Z.pow_add_r by lia.
        do 2 f_equal. lia.
      - replace ez with e2 by lia. reflexivity. }
    rewrite Z.mul_sub_distr_r.
    unfold cond_Zopp.
    destruct s1, s2; rewrite ?Z.mul_opp_l, Hz1, Hz2; reflexivity.
Qed.

(** Mirroring keeps a horizontal distance above a threshold when [1 - x]
    does not round: the two differences are opposite numbers, and rounding
    is symmetric. *)
Lemma mirrored_distance (a c k : float) :
  Js.gt (Js.abs (a - c)) k = true ->
  exactSub 1 a = true -> exactSub 1 c = true ->
  Js.gt (Js.abs ((1 - a) - (1 - c))) k = true.
Proof.
  unfold Js.gt, Js.abs. intros Hfar Ha Hc.
  apply exactSub_spec in Ha. destruct Ha as (one & va & Hone & Hva & Hma).
  apply exactSub_spec in Hc. destruct Hc as (one' & vc & Hone' & Hvc & Hmc).
  rewrite Hone in Hone'. injection Hone' as <-.
  rewrite ltb_spec, abs_spec, sub_spec in Hfar.
  rewrite ltb_spec, abs_spec, sub_spec.
  rewrite (SFsub_value _ _ _ _ (Prim2SF_valid _) (Prim2SF_valid _) Hma Hmc).
  rewrite (SFsub_value _ _ _ _ (Prim2SF_valid _) (Prim2SF_valid _) Hva Hvc) in Hfar.
  replace (one - va - (one - vc)) with (- (va - vc)) by lia.
  now rewrite nearest_opp.
Qed.

End ExactSubtraction.

(** C8, as the code has it: a frame classified ["thumbs_up"] as a right
    hand is classified ["thumbs_up"] as a left hand once mirrored, provided
    [1 - x] does not round the x-coordinate of the thumb IP joint, of the
    thumb tip and of the index MCP.  The vertical tests are untouched by
    mirroring; that the mirrored thumb tip is left of the mirrored IP joint
    follows from the right hand's thumb tip being right of its IP joint, and
    that it is more than 0.05 from the mirrored index MCP follows from the
    same distance on the right hand. *)
Theorem thumbs_up_mirrored (landmarks : list HandLandmark) :
  PalmFacing.classifyGesture landmarks "Right" = Ok "thumbs_up" ->
  mirrorsExactly landmarks = true ->
  PalmFacing.classifyGesture (mirror landmarks) "Left" = Ok "thumbs_up".
Proof.
  intros Hright Hexact.
  destruct (le_lt_dec 21 (length landmarks)) as [Hlen|Hshort];
    [|rewrite classifyGesture_short in Hright by exact Hshort;
      discriminate Hright].
  assert (Hlen' : 21 <= length (mirror landmarks))
    by (unfold mirror; rewrite length_map; exact Hlen).
  unfold mirrorsExactly in Hexact.
  repeat (apply andb_prop in Hexact;
          let H := fresh "Hexact" in destruct Hexact as [Hexact H]).
  rewrite classifyGesture_frame in Hright by exact Hlen.
  injection Hright as Hright.
  unfold fingerState in Hright. apply policy_thumbs_up in Hright.
  destruct Hright as (Hthumb & Hindex & Hmiddle & Hring & Hpinky & Hvertical).
  rewrite classifyGesture_frame by exact Hlen'. f_equal.
  unfold fingerState. apply policy_thumbs_up.
  unfold thumbUp, fingerUp, thumbVertical in *.
  rewrite !lm_mirror by lia. cbn [x y String.eqb Ascii.eqb Bool.eqb] in *.
  apply andb_prop in Hvertical. destruct Hvertical as [Hvertical Hfar].
  repeat split; try assumption.
  - now apply mirrored_side.
  - rewrite Hvertical. now apply mirrored_distance.
Qed.

Lemma thumbs_up_mirrored_witness :
  PalmFacing.classifyGesture (mirror binaryThumbsUpFrame) "Left" = Ok "thumbs_up".
Proof.
  apply (thumbs_up_mirrored binaryThumbsUpFrame); vm_compute; reflexivity.
Defined.

(** Exactness is sufficient, not necessary: the decimal fractions of
    [thumbsUpFrame] are rounded by [1 - x], by less than the margin of the
    two tests. *)
Example rounded_thumb_still_mirrored :
  mirrorsExactly thumbsUpFrame = false
  /\ PalmFacing.classifyGesture thumbsUpFrame "Right" = Ok "thumbs_up"
  /\ PalmFacing.classifyGesture (mirror thumbsUpFrame) "Left" = Ok "thumbs_up".
Proof. vm_compute. repeat split. Qed.

(** Every x-coordinate [k / 1024] is mirrored without rounding, and the
    hairline of [hairlineThumbFrame] is not. *)
Example exactly_mirrored_coordinates :
  forallb (exactSub 1) binaryFractions = true
  /\ exactSub 1 (x (lm hairlineThumbFrame 4)) = false.
Proof. vm_compute. split; reflexivity. Qed.

(** C8 fails as stated: a right hand whose thumb tip is 2^-60 to the right
    of its IP joint classifies as ["thumbs_up"]; mirrored, both joints round
    to [x = 1], the thumb is no longer to the left of its IP joint, and the
    left hand classifies as ["fist"]. *)
Lemma hairline_thumb_not_mirrored :
  length hairlineThumbFrame = 21
  /\ PalmFacing.classifyGesture hairlineThumbFrame "Right" = Ok "thumbs_up"
  /\ x (lm (mirror hairlineThumbFrame) 4) = 1%float
  /\ x (lm (mirror hairlineThumbFrame) 3) = 1%float
  /\ PalmFacing.classifyGesture (mirror hairlineThumbFrame) "Left" = Ok "fist".
Proof. vm_compute. repeat split. Qed.

(** * The OK sign *)

(** C3, as the code has it.  The palm-facing revision returns ["ok_sign"]
    exactly when the thumb and the index are up by the finger-state rules,
    the five fingers are not all up, the thumb and index tips are less than
    0.05 apart and at least one of middle, ring and pinky has its tip above
    its PIP joint.  The simplified revision returns ["ok_sign"] exactly when
    none of its simpler rules names the finger states, the tips are less
    than 0.08 apart and at least two of middle, ring and pinky have their
    tip above their PIP joint. *)
Theorem ok_sign_rule (landmarks : list HandLandmark) (handedness : string) :
  length landmarks = 21 ->
  (PalmFacing.classifyGesture landmarks handedness = Ok "ok_sign"
   <-> thumbUp landmarks handedness = true
       /\ fingerUp landmarks 8 6 5 = true
       /\ sum (fingerState landmarks handedness) <> 5
       /\ Js.lt (pinchDistance landmarks) 0.05 = true
       /\ 1 <= raisedOthers landmarks)
  /\ (Simplified.classifyGesture landmarks handedness = Ok "ok_sign"
      <-> simplerRule (simplifiedFingerState landmarks) = false
          /\ Js.lt (pinchDistance landmarks) 0.08 = true
          /\ 2 <= raisedOthers landmarks).
Proof.
  intros Hlen.
  assert (Hlen' : 21 <= length landmarks) by lia.
  rewrite classifyGesture_frame, simplified_classifyGesture_frame by exact Hlen'.
  split.
  - split.
    + intros [= H]. unfold fingerState in H. apply policy_ok_sign in H.
      destruct H as (Hthumb & Hindex & Hcount & Hok).
      unfold pinched in Hok. apply andb_prop in Hok.
      destruct Hok as [Hnear Hraised]. apply raised_at_least_one in Hraised.
      repeat split; assumption.
    + intros (Hthumb & Hindex & Hcount & Hnear & Hraised).
      f_equal. unfold fingerState. apply policy_ok_sign.
      repeat split; try assumption.
      unfold pinched. rewrite Hnear. cbn [andb].
      now apply raised_at_least_one.
  - split.
    + intros [= H]. apply simplifiedPolicy_ok_sign in H.
      destruct H as [Hsimpler Hok].
      unfold pinchedLoosely in Hok. apply andb_prop in Hok.
      destruct Hok as [Hnear Hraised]. apply raised_at_least_two in Hraised.
      repeat split; assumption.
    + intros (Hsimpler & Hnear & Hraised).
      f_equal. apply simplifiedPolicy_ok_sign.
      split; [assumption|].
      unfold pinchedLoosely. rewrite Hnear. cbn [andb].
      now apply raised_at_least_two.
Qed.

Lemma ok_sign_rule_witness :
  (PalmFacing.classifyGesture pinchOneFrame "Right" = Ok "ok_sign"
   <-> thumbUp pinchOneFrame "Right" = true
       /\ fingerUp pinchOneFrame 8 6 5 = true
       /\ sum (fingerState pinchOneFrame "Right") <> 5
       /\ Js.lt (pinchDistance pinchOneFrame) 0.05 = true
       /\ 1 <= raisedOthers pinchOneFrame)
  /\ (Simplified.classifyGesture pinchOneFrame "Right" = Ok "ok_sign"
      <-> simplerRule (simplifiedFingerState pinchOneFrame) = false
          /\ Js.lt (pinchDistance pinchOneFrame) 0.08 = true
          /\ 2 <= raisedOthers pinchOneFrame).
Proof.
  apply (ok_sign_rule pinchOneFrame "Right"). reflexivity.
Defined.

(** C3 fails as stated, in both directions and in both revisions: the
    palm-facing classifier returns ["ok_sign"] with a single raised finger
    besides the pinch, returns ["unknown"] for a pinch with three raised
    fingers when the thumb is not up, and both revisions return
    ["open_palm"] for a pinch with three raised fingers when all five
    fingers are up. *)
Lemma ok_sign_needs_more_than_the_pinch :
  (PalmFacing.classifyGesture pinchOneFrame "Right" = Ok "ok_sign"
   /\ raisedOthers pinchOneFrame = 1)
  /\ (Js.lt (pinchDistance pinchTuckedFrame) 0.05 = true
      /\ raisedOthers pinchTuckedFrame = 3
      /\ PalmFacing.classifyGesture pinchTuckedFrame "Right" = Ok "unknown")
  /\ (Js.lt (pinchDistance pinchOpenFrame) 0.05 = true
      /\ raisedOthers pinchOpenFrame = 3
      /\ PalmFacing.classifyGesture pinchOpenFrame "Right" = Ok "open_palm"
      /\ Simplified.classifyGesture pinchOpenFrame "Right" = Ok "open_palm").
Proof. vm_compute. repeat split. Qed.

(** * Further properties of the confidence estimators *)

Lemma ltb_leb (a b : float) :
  PrimFloat.ltb a b = true -> PrimFloat.leb a b = true.
Proof.
  rewrite ltb_spec, leb_spec. unfold SFltb, SFleb.
  destruct (SFcompare (Prim2SF a) (Prim2SF b)) as [[| |]|]; congruence.
Qed.

(** Clamping a number that is not NaN lands in the interval; clamping NaN
    gives NaN. *)
Lemma clamp_within (lo hi c : float) :
  PrimFloat.is_nan lo = false ->
  PrimFloat.is_nan hi = false ->
  PrimFloat.eqb lo 0 = false ->
  PrimFloat.eqb hi 0 = false ->
  Js.within lo hi lo = true ->
  Js.within lo hi (Js.max lo hi) = true ->
  PrimFloat.is_nan c = false ->
  Js.within lo hi (clamp lo hi c) = true.
Proof.
  intros Hlo Hhi Hlo0 Hhi0 Hwlo Hwhi Hc.
  unfold clamp, Js.min. rewrite Hhi, Hc, Hhi0. cbn [orb].
  destruct (PrimFloat.ltb hi c) eqn:Hhc; [exact Hwhi|].
  destruct (PrimFloat.ltb c hi) eqn:Hch; [|exact Hwhi].
  unfold Js.max. rewrite Hlo, Hc, Hlo0. cbn [orb].
  destruct (PrimFloat.ltb lo c) eqn:Hlc.
  - unfold Js.within. rewrite (ltb_leb _ _ Hlc), (ltb_leb _ _ Hch). reflexivity.
  - destruct (PrimFloat.ltb c lo); exact Hwlo.
Qed.

Lemma clamp_nan (lo hi c : float) :
  PrimFloat.is_nan c = true -> clamp lo hi c = nan.
Proof.
  intros Hc. unfold clamp, Js.min. rewrite Hc, orb_true_r.
  unfold Js.max. rewrite orb_true_r. reflexivity.
Qed.

Lemma clamp_nan_or_within (lo hi c : float) :
  PrimFloat.is_nan lo = false ->
  PrimFloat.is_nan hi = false ->
  PrimFloat.eqb lo 0 = false ->
  PrimFloat.eqb hi 0 = false ->
  Js.within lo hi lo = true ->
  Js.within lo hi (Js.max lo hi) = true ->
  clamp lo hi c = nan \/ Js.within lo hi (clamp lo hi c) = true.
Proof.
  intros Hlo Hhi Hlo0 Hhi0 Hwlo Hwhi.
  destruct (PrimFloat.is_nan c) eqn:Hc.
  - left. now apply clamp_nan.
  - right. now apply clamp_within.
Qed.

(** X1: whatever the number of landmarks and whatever their coordinates, no
    revision of [calculateConfidence] returns a number outside its interval
    ([0.5, 0.95], and [0.6, 0.95] for the simplified revision): the result
    lies in the interval or is NaN.  On an empty frame the ratios are [0 / 0]
    and every revision returns NaN. *)
Theorem confidence_in_range_or_nan (landmarks : list HandLandmark) :
  (PalmFacing.calculateConfidence landmarks = nan
   \/ Js.within 0.5 0.95 (PalmFacing.calculateConfidence landmarks) = true)
  /\ (Simplified.calculateConfidence landmarks = nan
      \/ Js.within 0.6 0.95 (Simplified.calculateConfidence landmarks) = true)
  /\ (Baseline.calculateConfidence landmarks = nan
      \/ Js.within 0.5 0.95 (Baseline.calculateConfidence landmarks) = true)
  /\ PalmFacing.calculateConfidence [] = nan
  /\ Simplified.calculateConfidence [] = nan
  /\ Baseline.calculateConfidence [] = nan.
Proof.
  repeat split; try reflexivity.
  - rewrite palmFacing_confidence. unfold palmFacingScore. cbv zeta.
    apply (clamp_nan_or_within 0.5 0.95); reflexivity.
  - rewrite simplified_confidence. unfold simplifiedScore. cbv zeta.
    apply (clamp_nan_or_within 0.6 0.95); reflexivity.
  - unfold Baseline.calculateConfidence. cbv zeta.
    apply (clamp_nan_or_within 0.5 0.95); reflexivity.
Qed.

Lemma allScoresSatisfy_spec (p : float -> bool) (score : nat -> nat -> float)
  (n a b : nat) :
  allScoresSatisfy p score n = true -> a <= n -> b <= n -> p (score a b) = true.
Proof.
  unfold allScoresSatisfy. intros Hall Ha Hb.
  assert (Ha' : In a (seq 0 (S n))) by (apply in_seq; lia).
  assert (Hb' : In b (seq 0 (S n))) by (apply in_seq; lia).
  rewrite forallb_forall in Hall. specialize (Hall a Ha').
  rewrite forallb_forall in Hall. exact (Hall b Hb').
Qed.

(** Any test that holds of the 22 * 22 scores holds of the confidence of a
    frame of 21 landmarks. *)
Lemma palmFacing_confidence_satisfies (p : float -> bool)
  (landmarks : list HandLandmark) :
  allScoresSatisfy p (palmFacingScore 21) 21 = true ->
  length landmarks = 21 ->
  p (PalmFacing.calculateConfidence landmarks) = true.
Proof.
  intros Htable Hlen. rewrite palmFacing_confidence, Hlen.
  pose proof (countIf_le (stable 0.1) landmarks) as H1.
  pose proof (countIf_le visible landmarks) as H2.
  rewrite Hlen in H1, H2.
  now apply (allScoresSatisfy_spec p _ 21).
Qed.

Lemma simplified_confidence_satisfies (p : float -> bool)
  (landmarks : list HandLandmark) :
  allScoresSatisfy p (simplifiedScore 21) 21 = true ->
  length landmarks = 21 ->
  p (Simplified.calculateConfidence landmarks) = true.
Proof.
  intros Htable Hlen. rewrite simplified_confidence, Hlen.
  pose proof (countIf_le (stable 0.2) landmarks) as H1.
  pose proof (countIf_le visible landmarks) as H2.
  rewrite Hlen in H1, H2.
  now apply (allScoresSatisfy_spec p _ 21).
Qed.

(** X2: on a frame of 21 landmarks the simplified estimator never returns
    less than 0.7 (its lower clamp at 0.6 is never reached), so
    [getConfidenceColor] never paints such a confidence red. *)
Theorem simplified_confidence_floor (landmarks : list HandLandmark) :
  length landmarks = 21 ->
  Js.within 0.7 0.95 (Simplified.calculateConfidence landmarks) = true
  /\ getConfidenceColor (Simplified.calculateConfidence landmarks)
     <> "text-red-400".
Proof.
  intros Hlen. split.
  - apply (simplified_confidence_satisfies (Js.within 0.7 0.95));
      [vm_compute; reflexivity | exact Hlen].
  - apply String.eqb_neq. apply negb_true_iff.
    apply (simplified_confidence_satisfies
             (fun c => negb (getConfidenceColor c =? "text-red-400")%string));
      [vm_compute; reflexivity | exact Hlen].
Qed.

Lemma simplified_confidence_floor_witness :
  Js.within 0.7 0.95 (Simplified.calculateConfidence edgeFrame) = true
  /\ getConfidenceColor (Simplified.calculateConfidence edgeFrame)
     <> "text-red-400".
Proof.
  apply (simplified_confidence_floor edgeFrame). reflexivity.
Defined.

(** The palm-facing estimator does reach red: the floor above is a property
    of the simplified revision only. *)
Example palmFacing_confidence_red :
  getConfidenceColor (PalmFacing.calculateConfidence edgeFrame) = "text-red-400".
Proof. vm_compute. reflexivity. Qed.

(** * The detector's sensitivity test *)

(** X3: the sensitivity test of the detector's callback never rejects a
    result.  Whatever value the slider has (0.3 to 0.9), a result whose
    confidence was computed by either estimator from a frame of 21 landmarks
    passes [confidence >= sensitivity / 100] and is handed on with its label
    and confidence unchanged. *)
Theorem sensitivity_never_filters (sensitivity : float)
  (landmarks : list HandLandmark) (r : GestureResult.t) :
  In sensitivity GestureDetector.sliderValues ->
  length landmarks = 21 ->
  GestureResult.confidence r = PalmFacing.calculateConfidence landmarks
  \/ GestureResult.confidence r = Simplified.calculateConfidence landmarks ->
  exists d,
    GestureDetector.onResult sensitivity (Some r) = Some d
    /\ Detected.type d = GestureResult.type r
    /\ Detected.confidence d = GestureResult.confidence r.
Proof.
  intros Hs Hlen Hconf.
  assert (Hpass : Js.ge (GestureResult.confidence r) (sensitivity / 100) = true).
  { set (p := fun c : float =>
                forallb (fun s => Js.ge c (s / 100))
                        GestureDetector.sliderValues).
    assert (Hp : p (GestureResult.confidence r) = true).
    { destruct Hconf as [-> | ->].
      - apply (palmFacing_confidence_satisfies p);
          [vm_compute; reflexivity | exact Hlen].
      - apply (simplified_confidence_satisfies p);
          [vm_compute; reflexivity | exact Hlen]. }
    unfold p in Hp. rewrite forallb_forall in Hp. exact (Hp sensitivity Hs). }
  unfold GestureDetector.onResult. rewrite Hpass.
  eexists. repeat split.
Qed.

Lemma sensitivity_never_filters_witness :
  exists d,
    GestureDetector.onResult 0.9
      (Some {| GestureResult.type := "fist";
               GestureResult.confidence := PalmFacing.calculateConfidence edgeFrame;
               GestureResult.landmarks := Some edgeFrame |})
    = Some d
    /\ Detected.type d = "fist"
    /\ Detected.confidence d = PalmFacing.calculateConfidence edgeFrame.
Proof.
  apply (sensitivity_never_filters 0.9 edgeFrame
           {| GestureResult.type := "fist";
              GestureResult.confidence := PalmFacing.calculateConfidence edgeFrame;
              GestureResult.landmarks := Some edgeFrame |}).
  - cbn. auto 10.
  - reflexivity.
  - left. reflexivity.
Defined.

(** * Further properties of the classifiers *)

Lemma classifyGesture_total (landmarks : list HandLandmark) (handedness : string) :
  21 <= length landmarks ->
  exists g, PalmFacing.classifyGesture landmarks handedness = Ok g
            /\ In g allLabels.
Proof.
  intros Hlen. rewrite classifyGesture_frame by exact Hlen.
  eexists. split; [reflexivity|].
  pose proof (classifyGesture_labels landmarks handedness _
                (classifyGesture_frame landmarks handedness Hlen)) as H.
  unfold allLabels. cbn [In]. destruct H as [-> | H]; auto.
Qed.

(** X4: the palm-facing classifier raises a [TypeError] exactly on frames of
    fewer than 21 landmarks; on every other frame it returns one of the
    eight gesture names. *)
Theorem classifier_throws_iff_short (landmarks : list HandLandmark)
  (handedness : string) :
  (PalmFacing.classifyGesture landmarks handedness = TypeError
   <-> length landmarks < 21)
  /\ (forall g, PalmFacing.classifyGesture landmarks handedness = Ok g ->
                In g allLabels /\ 21 <= length landmarks).
Proof.
  destruct (le_lt_dec 21 (length landmarks)) as [Hlen|Hshort].
  - destruct (classifyGesture_total landmarks handedness Hlen) as (g & Hg & Hin).
    split.
    + split; [rewrite Hg; discriminate | lia].
    + intros g' Hg'. rewrite Hg in Hg'. injection Hg' as <-. now split.
  - pose proof (classifyGesture_short landmarks handedness Hshort) as Hthrow.
    split.
    + split; [intros _; exact Hshort | intros _; exact Hthrow].
    + intros g Hg. rewrite Hthrow in Hg. discriminate Hg.
Qed.

Ltac table_cases :=
  repeat match goal with
         | Hx : Ok _ = Ok _ |- _ => injection Hx as Hx
         end;
  first [ tauto | f_equal; tauto ].

Lemma policy_table (a b c d e vertical ok : bool) :
  let fingersUp := [Nat.b2n a; Nat.b2n b; Nat.b2n c; Nat.b2n d; Nat.b2n e] in
  (policy fingersUp vertical ok = "fist" <-> fingersUp = [0; 0; 0; 0; 0])
  /\ (policy fingersUp vertical ok = "open_palm" <-> fingersUp = [1; 1; 1; 1; 1])
  /\ (policy fingersUp vertical ok = "pointing" <-> fingersUp = [0; 1; 0; 0; 0])
  /\ (policy fingersUp vertical ok = "peace" <-> fingersUp = [0; 1; 1; 0; 0])
  /\ (policy fingersUp vertical ok = "rock_on" <-> fingersUp = [0; 1; 0; 0; 1]).
Proof.
  destruct a, b, c, d, e, vertical, ok; by_cases.
Qed.

(** X5: on a frame of at least 21 landmarks, [getFingersUp] returns the five
    finger states of the rules (thumb by handedness, the others by
    tip < PIP < MCP), and the palm-facing classifier returns ["fist"] exactly
    when no finger is up, ["open_palm"] exactly when all five are,
    ["pointing"] exactly when only the index is, ["peace"] exactly when only
    index and middle are, and ["rock_on"] exactly when only index and pinky
    are. *)
Theorem decision_table (landmarks : list HandLandmark) (handedness : string) :
  21 <= length landmarks ->
  PalmFacing.getFingersUp landmarks
    [4; 8; 12; 16; 20] [3; 6; 10; 14; 18] [2; 5; 9; 13; 17] handedness
  = Ok (fingerState landmarks handedness)
  /\ (PalmFacing.classifyGesture landmarks handedness = Ok "fist"
      <-> fingerState landmarks handedness = [0; 0; 0; 0; 0])
  /\ (PalmFacing.classifyGesture landmarks handedness = Ok "open_palm"
      <-> fingerState landmarks handedness = [1; 1; 1; 1; 1])
  /\ (PalmFacing.classifyGesture landmarks handedness = Ok "pointing"
      <-> fingerState landmarks handedness = [0; 1; 0; 0; 0])
  /\ (PalmFacing.classifyGesture landmarks handedness = Ok "peace"
      <-> fingerState landmarks handedness = [0; 1; 1; 0; 0])
  /\ (PalmFacing.classifyGesture landmarks handedness = Ok "rock_on"
      <-> fingerState landmarks handedness = [0; 1; 0; 0; 1]).
Proof.
  intros Hlen. split; [now apply getFingersUp_frame|].
  rewrite classifyGesture_frame by exact Hlen.
  pose proof (policy_table (thumbUp landmarks handedness)
                (fingerUp landmarks 8 6 5) (fingerUp landmarks 12 10 9)
                (fingerUp landmarks 16 14 13) (fingerUp landmarks 20 18 17)
                (thumbVertical landmarks) (pinched landmarks)) as H.
  cbv zeta in H. fold (fingerState landmarks handedness) in H.
  destruct H as (H1 & H2 & H3 & H4 & H5).
  repeat split; intros; table_cases.
Qed.

Lemma decision_table_witness :
  PalmFacing.getFingersUp pointingFrame
    [4; 8; 12; 16; 20] [3; 6; 10; 14; 18] [2; 5; 9; 13; 17] "Right"
  = Ok (fingerState pointingFrame "Right")
  /\ (PalmFacing.classifyGesture pointingFrame "Right" = Ok "fist"
      <-> fingerState pointingFrame "Right" = [0; 0; 0; 0; 0])
  /\ (PalmFacing.classifyGesture pointingFrame "Right" = Ok "open_palm"
      <-> fingerState pointingFrame "Right" = [1; 1; 1; 1; 1])
  /\ (PalmFacing.classifyGesture pointingFrame "Right" = Ok "pointing"
      <-> fingerState pointingFrame "Right" = [0; 1; 0; 0; 0])
  /\ (PalmFacing.classifyGesture pointingFrame "Right" = Ok "peace"
      <-> fingerState pointingFrame "Right" = [0; 1; 1; 0; 0])
  /\ (PalmFacing.classifyGesture pointingFrame "Right" = Ok "rock_on"
      <-> fingerState pointingFrame "Right" = [0; 1; 0; 0; 1]).
Proof.
  apply (decision_table pointingFrame "Right"). cbn. lia.
Defined.

(** X6: the handedness label is only ever compared with ["Right"].  A
    missing or empty label is read as ["Right"]; any other label, whatever
    its spelling, is classified as a left hand. *)
Theorem handedness_fallback (landmarks : list HandLandmark) (handedness : string)
  (r : Results) :
  (multiHandedness r = None \/ multiHandedness r = Some []
   \/ (exists rest, multiHandedness r = Some ("" :: rest)) ->
   handednessOf r = "Right")
  /\ (handedness <> "Right" ->
      PalmFacing.classifyGesture landmarks handedness
      = PalmFacing.classifyGesture landmarks "Left").
Proof.
  split.
  - unfold handednessOf. intros [-> | [-> | [rest ->]]]; reflexivity.
  - intros Hne. apply String.eqb_neq in Hne.
    unfold PalmFacing.classifyGesture, PalmFacing.getFingersUp,
      PalmFacing.isThumbsUp.
    rewrite Hne. reflexivity.
Qed.

Lemma handedness_fallback_witness :
  handednessOf {| multiHandLandmarks := Some [thumbsUpFrame];
                  multiHandedness := None |} = "Right"
  /\ PalmFacing.classifyGesture thumbsUpFrame "right"
     = PalmFacing.classifyGesture thumbsUpFrame "Left".
Proof.
  destruct (handedness_fallback thumbsUpFrame "right"
              {| multiHandLandmarks := Some [thumbsUpFrame];
                 multiHandedness := None |}) as [Hdefault Hother].
  split.
  - apply Hdefault. left. reflexivity.
  - apply Hother. discriminate.
Defined.

Example lowercase_right_is_a_left_hand :
  PalmFacing.classifyGesture thumbsUpFrame "Right" = Ok "thumbs_up"
  /\ PalmFacing.classifyGesture thumbsUpFrame "right" = Ok "fist".
Proof. vm_compute. split; reflexivity. Qed.

(** ** The first revision *)

Lemma baseline_getFingersUp_frame (landmarks : list HandLandmark)
  (handedness : string) :
  21 <= length landmarks ->
  Baseline.getFingersUp landmarks
    [4; 8; 12; 16; 20] [3; 6; 10; 14; 18] [2; 5; 9; 13; 17] handedness
  = Ok (baselineFingerState landmarks handedness).
Proof.
  intros Hlen.
  unfold Baseline.getFingersUp, baselineFingerState, thumbUp, tipAbovePip.
  cbn [Baseline.otherFingers].
  destruct (handedness =? "Right")%string; frame_reads; reflexivity.
Qed.

Lemma baseline_classifyGesture_frame (landmarks : list HandLandmark)
  (handedness : string) :
  21 <= length landmarks ->
  Baseline.classifyGesture landmarks handedness
  = Ok (baselinePolicy (baselineFingerState landmarks handedness)
                       (Js.lt (pinchDistance landmarks) 0.05)).
Proof.
  intros Hlen. unfold Baseline.classifyGesture, baselinePolicy.
  rewrite baseline_getFingersUp_frame by exact Hlen. rewrite bind_Ok. cbv zeta.
  assert (Hok : Baseline.isOkGesture landmarks
                = Ok (Js.lt (pinchDistance landmarks) 0.05)).
  { unfold Baseline.isOkGesture, pinchDistance. frame_reads. reflexivity. }
  rewrite Hok.
  repeat match goal with
         | |- context [if ?c then _ else _] => destruct c; cbn [bind andb]
         end; reflexivity.
Qed.

Lemma baseline_classifyGesture_short (landmarks : list HandLandmark)
  (handedness : string) :
  length landmarks < 21 ->
  Baseline.classifyGesture landmarks handedness = TypeError.
Proof.
  intros Hlen.
  assert (Hfingers : Baseline.getFingersUp landmarks
                       [4; 8; 12; 16; 20] [3; 6; 10; 14; 18] [2; 5; 9; 13; 17]
                       handedness = TypeError).
  { unfold Baseline.getFingersUp. cbn [Baseline.otherFingers].
    destruct (handedness =? "Right")%string; through_binds. }
  unfold Baseline.classifyGesture. now rewrite Hfingers.
Qed.

Lemma baselinePolicy_table (a b c d e ok : bool) :
  let fingersUp := [Nat.b2n a; Nat.b2n b; Nat.b2n c; Nat.b2n d; Nat.b2n e] in
  (baselinePolicy fingersUp ok = "fist" <-> fingersUp = [0; 0; 0; 0; 0])
  /\ (baselinePolicy fingersUp ok = "open_palm" <-> fingersUp = [1; 1; 1; 1; 1])
  /\ (baselinePolicy fingersUp ok = "pointing" <-> fingersUp = [0; 1; 0; 0; 0])
  /\ (baselinePolicy fingersUp ok = "thumbs_up" <-> fingersUp = [1; 0; 0; 0; 0])
  /\ (baselinePolicy fingersUp ok = "peace" <-> fingersUp = [0; 1; 1; 0; 0])
  /\ (baselinePolicy fingersUp ok = "rock_on" <-> fingersUp = [0; 1; 1; 0; 1])
  /\ (baselinePolicy fingersUp ok = "ok_sign"
      <-> a = true /\ b = true /\ sum fingersUp <> 5 /\ ok = true).
Proof.
  destruct a, b, c, d, e, ok; by_cases.
Qed.

(** X7: the first revision of the classifier raises a [TypeError] exactly on
    frames of fewer than 21 landmarks.  On any other frame, with a finger up
    as soon as its tip is above its PIP joint, it returns ["thumbs_up"]
    exactly when only the thumb is up (there is no verticality check),
    ["rock_on"] exactly when index, middle and pinky are up and thumb and
    ring are not, ["ok_sign"] exactly when thumb and index are up, not all
    five fingers are, and the two tips are less than 0.05 apart; fist, open
    palm, pointing and peace are as in the later revisions. *)
Theorem baseline_classifier (landmarks : list HandLandmark) (handedness : string) :
  (Baseline.classifyGesture landmarks handedness = TypeError
   <-> length landmarks < 21)
  /\ (21 <= length landmarks ->
      (Baseline.classifyGesture landmarks handedness = Ok "fist"
       <-> baselineFingerState landmarks handedness = [0; 0; 0; 0; 0])
      /\ (Baseline.classifyGesture landmarks handedness = Ok "open_palm"
          <-> baselineFingerState landmarks handedness = [1; 1; 1; 1; 1])
      /\ (Baseline.classifyGesture landmarks handedness = Ok "pointing"
          <-> baselineFingerState landmarks handedness = [0; 1; 0; 0; 0])
      /\ (Baseline.classifyGesture landmarks handedness = Ok "thumbs_up"
          <-> baselineFingerState landmarks handedness = [1; 0; 0; 0; 0])
      /\ (Baseline.classifyGesture landmarks handedness = Ok "peace"
          <-> baselineFingerState landmarks handedness = [0; 1; 1; 0; 0])
      /\ (Baseline.classifyGesture landmarks handedness = Ok "rock_on"
          <-> baselineFingerState landmarks handedness = [0; 1; 1; 0; 1])
      /\ (Baseline.classifyGesture landmarks handedness = Ok "ok_sign"
          <-> thumbUp landmarks handedness = true
              /\ tipAbovePip landmarks 8 6 = true
              /\ sum (baselineFingerState landmarks handedness) <> 5
              /\ Js.lt (pinchDistance landmarks) 0.05 = true)).
Proof.
  split.
  - destruct (le_lt_dec 21 (length landmarks)) as [Hlen|Hshort].
    + rewrite baseline_classifyGesture_frame by exact Hlen.
      split; [discriminate | lia].
    + rewrite baseline_classifyGesture_short by exact Hshort.
      split; [intros _; exact Hshort | reflexivity].
  - intros Hlen. rewrite baseline_classifyGesture_frame by exact Hlen.
    pose proof (baselinePolicy_table (thumbUp landmarks handedness)
                  (tipAbovePip landmarks 8 6) (tipAbovePip landmarks 12 10)
                  (tipAbovePip landmarks 16 14) (tipAbovePip landmarks 20 18)
                  (Js.lt (pinchDistance landmarks) 0.05)) as H.
    cbv zeta in H. fold (baselineFingerState landmarks handedness) in H.
    destruct H as (H1 & H2 & H3 & H4 & H5 & H6 & H7).
    repeat split; intros; table_cases.
Qed.

Lemma baseline_classifier_witness :
  (Baseline.classifyGesture thumbsUpFrame "Right" = Ok "thumbs_up"
   <-> baselineFingerState thumbsUpFrame "Right" = [1; 0; 0; 0; 0])
  /\ (Baseline.classifyGesture (firstn 20 thumbsUpFrame) "Right" = TypeError
      <-> length (firstn 20 thumbsUpFrame) < 21).
Proof.
  destruct (baseline_classifier thumbsUpFrame "Right") as [_ Htable].
  destruct (baseline_classifier (firstn 20 thumbsUpFrame) "Right") as [Hthrow _].
  split; [|exact Hthrow].
  apply Htable. cbn. lia.
Defined.

(** The three-finger rock-on of the first revision against the two-finger
    one of the later revisions. *)
Example rock_on_differs :
  Baseline.classifyGesture threeFingersFrame "Right" = Ok "unknown"
  /\ Baseline.classifyGesture pinchOneFrame "Right" = Ok "ok_sign"
  /\ Baseline.classifyGesture thumbsUpFrame "Right" = Ok "thumbs_up"
  /\ Baseline.classifyGesture hairlineThumbFrame "Left" = Ok "fist".
Proof. vm_compute. repeat split. Qed.

(** ** The simplified revision *)

Lemma simplified_classifyGesture_short (landmarks : list HandLandmark)
  (handedness : string) :
  length landmarks < 21 ->
  Simplified.classifyGesture landmarks handedness = TypeError.
Proof.
  intros Hlen.
  assert (Hfingers : Simplified.getFingersUpSimplified landmarks handedness
                     = TypeError).
  { unfold Simplified.getFingersUpSimplified.
    cbn [Simplified.otherFingers]. through_binds. }
  unfold Simplified.classifyGesture. now rewrite Hfingers.
Qed.

Lemma simplifiedPolicy_table (a b c d e ok : bool) :
  let fingersUp := [Nat.b2n a; Nat.b2n b; Nat.b2n c; Nat.b2n d; Nat.b2n e] in
  (simplifiedPolicy fingersUp ok = "fist" <-> fingersUp = [0; 0; 0; 0; 0])
  /\ (simplifiedPolicy fingersUp ok = "open_palm" <-> fingersUp = [1; 1; 1; 1; 1])
  /\ (simplifiedPolicy fingersUp ok = "thumbs_up" <-> fingersUp = [1; 0; 0; 0; 0])
  /\ (simplifiedPolicy fingersUp ok = "pointing" <-> fingersUp = [0; 1; 0; 0; 0])
  /\ (simplifiedPolicy fingersUp ok = "peace" <-> fingersUp = [0; 1; 1; 0; 0])
  /\ (simplifiedPolicy fingersUp ok = "rock_on" <-> fingersUp = [0; 1; 0; 0; 1]).
Proof.
  destruct a, b, c, d, e, ok; by_cases.
Qed.

(** X8: the simplified classifier raises a [TypeError] exactly on frames of
    fewer than 21 landmarks and never looks at the handedness.  On any other
    frame it returns ["thumbs_up"] exactly when only the thumb is up by its
    own thumb test, and fist, open palm, pointing, peace and rock-on exactly
    on the finger states that name them. *)
Theorem simplified_classifier (landmarks : list HandLandmark)
  (handedness : string) :
  (Simplified.classifyGesture landmarks handedness = TypeError
   <-> length landmarks < 21)
  /\ (forall other : string,
        Simplified.classifyGesture landmarks other
        = Simplified.classifyGesture landmarks handedness)
  /\ (21 <= length landmarks ->
      Simplified.getFingersUpSimplified landmarks handedness
      = Ok (simplifiedFingerState landmarks)
      /\ (Simplified.classifyGesture landmarks handedness = Ok "fist"
          <-> simplifiedFingerState landmarks = [0; 0; 0; 0; 0])
      /\ (Simplified.classifyGesture landmarks handedness = Ok "open_palm"
          <-> simplifiedFingerState landmarks = [1; 1; 1; 1; 1])
      /\ (Simplified.classifyGesture landmarks handedness = Ok "thumbs_up"
          <-> simplifiedFingerState landmarks = [1; 0; 0; 0; 0])
      /\ (Simplified.classifyGesture landmarks handedness = Ok "pointing"
          <-> simplifiedFingerState landmarks = [0; 1; 0; 0; 0])
      /\ (Simplified.classifyGesture landmarks handedness = Ok "peace"
          <-> simplifiedFingerState landmarks = [0; 1; 1; 0; 0])
      /\ (Simplified.classifyGesture landmarks handedness = Ok "rock_on"
          <-> simplifiedFingerState landmarks = [0; 1; 0; 0; 1])).
Proof.
  split; [|split].
  - destruct (le_lt_dec 21 (length landmarks)) as [Hlen|Hshort].
    + rewrite simplified_classifyGesture_frame by exact Hlen.
      split; [discriminate | lia].
    + rewrite simplified_classifyGesture_short by exact Hshort.
      split; [intros _; exact Hshort | reflexivity].
  - intros other. reflexivity.
  - intros Hlen. split; [now apply getFingersUpSimplified_frame|].
    rewrite simplified_classifyGesture_frame by exact Hlen.
    unfold simplifiedFingerState.
    match goal with
    | |- context [simplifiedPolicy
                    [Nat.b2n ?a; Nat.b2n ?b; Nat.b2n ?c; Nat.b2n ?d; Nat.b2n ?e]
                    ?ok] =>
        pose proof (simplifiedPolicy_table a b c d e ok) as H
    end.
    cbv zeta in H. destruct H as (H1 & H2 & H3 & H4 & H5 & H6).
    repeat split; intros; table_cases.
Qed.

Lemma simplified_classifier_witness :
  (Simplified.classifyGesture pointingFrame "Right" = Ok "pointing"
   <-> simplifiedFingerState pointingFrame = [0; 1; 0; 0; 0])
  /\ (Simplified.classifyGesture (firstn 20 pointingFrame) "Right" = TypeError
      <-> length (firstn 20 pointingFrame) < 21).
Proof.
  destruct (simplified_classifier pointingFrame "Right") as (_ & _ & Htable).
  destruct (simplified_classifier (firstn 20 pointingFrame) "Right")
    as (Hthrow & _).
  split; [|exact Hthrow].
  apply Htable. cbn. lia.
Defined.

(** * Further properties of the stabilizer *)

(** X9: on a buffer of at most five of the classifier's labels,
    [getMostFrequentGesture] returns a label exactly when that label occurs
    at least three times, and returns [null] exactly when no label does: the
    order in which [reduce] resolves ties cannot be observed. *)
Theorem candidate_iff_three (gestureBuffer : list string) (g : string) :
  Forall (fun label => In label concreteLabels) gestureBuffer ->
  length gestureBuffer <= 5 ->
  (PalmFacing.getMostFrequentGesture gestureBuffer = Some g
   <-> 3 <= count_occ string_dec gestureBuffer g)
  /\ (PalmFacing.getMostFrequentGesture gestureBuffer = None
      <-> forall k, count_occ string_dec gestureBuffer k < 3).
Proof.
  intros _ Hlen. unfold PalmFacing.getMostFrequentGesture.
  assert (Hmajority : forall k, 3 <= count_occ string_dec gestureBuffer k ->
                                mostFrequentAtLeast 3 gestureBuffer = Some k).
  { intros k Hk. apply mostFrequentAtLeast_majority; lia. }
  split; split.
  - intros H. now apply mostFrequentAtLeast_sound in H.
  - apply Hmajority.
  - intros Hnone k.
    destruct (le_lt_dec 3 (count_occ string_dec gestureBuffer k)) as [Hk|Hk];
      [|exact Hk].
    rewrite (Hmajority k Hk) in Hnone. discriminate Hnone.
  - intros Hfew.
    destruct (mostFrequentAtLeast 3 gestureBuffer) as [k|] eqn:Hk;
      [|reflexivity].
    apply mostFrequentAtLeast_sound in Hk. destruct Hk as (_ & Hthree & _).
    specialize (Hfew k). lia.
Qed.

Lemma candidate_iff_three_witness :
  (PalmFacing.getMostFrequentGesture ["fist"; "peace"; "fist"; "peace"; "fist"]
   = Some "fist"
   <-> 3 <= count_occ string_dec ["fist"; "peace"; "fist"; "peace"; "fist"] "fist")
  /\ (PalmFacing.getMostFrequentGesture ["fist"; "peace"; "fist"; "peace"; "fist"]
      = None
      <-> forall k,
            count_occ string_dec ["fist"; "peace"; "fist"; "peace"; "fist"] k < 3).
Proof.
  apply (candidate_iff_three ["fist"; "peace"; "fist"; "peace"; "fist"] "fist").
  - repeat constructor; cbn [In concreteLabels]; tauto.
  - cbn. lia.
Defined.

(** Without the bound the order of first occurrence decides a tie. *)
Example tie_goes_to_the_later_label :
  PalmFacing.getMostFrequentGesture
    ["fist"; "peace"; "fist"; "peace"; "fist"; "peace"] = Some "peace"
  /\ PalmFacing.getMostFrequentGesture
       ["peace"; "fist"; "peace"; "fist"; "peace"; "fist"] = Some "fist".
Proof. vm_compute. split; reflexivity. Qed.

(** X10: in every reachable recognizer the buffer holds at most five
    labels, each one of the seven concrete gesture names. *)
Theorem buffer_bounded (this : GestureRecognizer) :
  reachable this ->
  length (gestureBuffer this) <= 5
  /\ Forall (fun g => In g concreteLabels) (gestureBuffer this).
Proof.
  intros Hreach. now apply reachable_wellFormed in Hreach.
Qed.

Lemma buffer_bounded_witness :
  length (gestureBuffer (runAll (detectGesture newRecognizer) sustainedPointing))
  <= 5
  /\ Forall (fun g => In g concreteLabels)
       (gestureBuffer (runAll (detectGesture newRecognizer) sustainedPointing)).
Proof.
  apply (buffer_bounded (runAll (detectGesture newRecognizer) sustainedPointing)).
  apply reachable_runAll. apply reach_detect. apply reach_new.
Defined.

Example buffer_is_full_after_seven_frames :
  gestureBuffer (runAll (detectGesture newRecognizer) sustainedPointing)
  = ["pointing"; "pointing"; "pointing"; "pointing"; "pointing"].
Proof. vm_compute. reflexivity. Qed.

(** What an emitting call has gone through. *)
Lemma Transition_emission (this this' : GestureRecognizer) (r : Results)
  (now now' : Z) (e : GestureResult.t) :
  Transition this r now now' this' (Called (Some e)) ->
  exists landmarks others,
    multiHandLandmarks r = Some (landmarks :: others)
    /\ 21 <= length landmarks
    /\ GestureResult.landmarks e = Some landmarks
    /\ GestureResult.confidence e = PalmFacing.calculateConfidence landmarks
    /\ 3 <= count_occ string_dec (gestureBuffer this') (GestureResult.type e)
    /\ length (gestureBuffer this') <= length (gestureBuffer this) + 1
    /\ (now - lastGestureTime this > 800)%Z
    /\ lastGestureTime this' = now'
    /\ onResultsCallback this = true.
Proof.
  intros HT.
  inversion HT as [| | | | |landmarks others g c Hcb Hhands Hclass Hg Hc Hne Hlate].
  subst. exists landmarks, others.
  cbn [GestureResult.landmarks GestureResult.confidence GestureResult.type
       gestureBuffer lastGestureTime].
  rewrite convert_id in *.
  apply mostFrequentAtLeast_sound in Hc. destruct Hc as (_ & Hthree & _).
  repeat split; try assumption.
  - destruct (le_lt_dec 21 (length landmarks)) as [Hlen|Hshort]; [exact Hlen|].
    rewrite classifyGesture_short in Hclass by exact Hshort.
    discriminate Hclass.
  - unfold pushGesture.
    destruct (5 <? length (gestureBuffer this ++ [g])).
    + destruct (gestureBuffer this) as [|a rest]; cbn [app tl length]; [lia|].
      rewrite length_app. cbn [length]. lia.
    + rewrite length_app. cbn [length]. lia.
Qed.

(** X11: a call of [processResults] that hands a result to the callback was
    made with a registered callback, on a hand of at least 21 landmarks, more
    than 800 ms after the recorded time of the last emission; the result
    carries that hand's landmarks and their confidence, its label occurs at
    least three times in the buffer the call leaves, and the call records
    the second clock reading as the time of the last emission. *)
Theorem emission_contents (this : GestureRecognizer) (r : Results)
  (now now' : Z) (e : GestureResult.t) :
  snd (PalmFacing.processResults this r now now') = Called (Some e) ->
  exists landmarks others,
    multiHandLandmarks r = Some (landmarks :: others)
    /\ 21 <= length landmarks
    /\ GestureResult.landmarks e = Some landmarks
    /\ GestureResult.confidence e = PalmFacing.calculateConfidence landmarks
    /\ 3 <= count_occ string_dec
              (gestureBuffer (fst (PalmFacing.processResults this r now now')))
              (GestureResult.type e)
    /\ (now - lastGestureTime this > 800)%Z
    /\ lastGestureTime (fst (PalmFacing.processResults this r now now')) = now'
    /\ onResultsCallback this = true.
Proof.
  intros Hout.
  pose proof (processResults_Transition this r now now') as HT.
  rewrite Hout in HT. apply Transition_emission in HT.
  destruct HT as (landmarks & others & H1 & H2 & H3 & H4 & H5 & _ & H6 & H7 & H8).
  exists landmarks, others. repeat split; assumption.
Qed.

Lemma emission_contents_witness :
  exists landmarks others,
    multiHandLandmarks (oneHand pointingFrame "Right")
    = Some (landmarks :: others)
    /\ 21 <= length landmarks
    /\ GestureResult.landmarks
         {| GestureResult.type := "pointing";
            GestureResult.confidence := PalmFacing.calculateConfidence pointingFrame;
            GestureResult.landmarks := Some pointingFrame |}
       = Some landmarks
    /\ GestureResult.confidence
         {| GestureResult.type := "pointing";
            GestureResult.confidence := PalmFacing.calculateConfidence pointingFrame;
            GestureResult.landmarks := Some pointingFrame |}
       = PalmFacing.calculateConfidence landmarks
    /\ 3 <= count_occ string_dec
              (gestureBuffer
                 (fst (PalmFacing.processResults
                         (tracking ["pointing"; "pointing"] 0)
                         (oneHand pointingFrame "Right") 1000 1001)))
              (GestureResult.type
                 {| GestureResult.type := "pointing";
                    GestureResult.confidence :=
                      PalmFacing.calculateConfidence pointingFrame;
                    GestureResult.landmarks := Some pointingFrame |})
    /\ (1000 - lastGestureTime (tracking ["pointing"; "pointing"] 0) > 800)%Z
    /\ lastGestureTime
         (fst (PalmFacing.processResults (tracking ["pointing"; "pointing"] 0)
                 (oneHand pointingFrame "Right") 1000 1001)) = 1001%Z
    /\ onResultsCallback (tracking ["pointing"; "pointing"] 0) = true.
Proof.
  apply (emission_contents (tracking ["pointing"; "pointing"] 0)
           (oneHand pointingFrame "Right") 1000 1001).
  vm_compute. reflexivity.
Defined.

Lemma step_length (this : GestureRecognizer) (t : Tick) :
  length (gestureBuffer (fst (step this t))) <= length (gestureBuffer this) + 1.
Proof.
  pose proof (step_Transition this t) as HT.
  destruct HT; cbn [gestureBuffer length]; try lia.
  - unfold pushGesture.
    destruct (5 <? length (gestureBuffer this ++ [g])).
    + destruct (gestureBuffer this) as [|a rest]; cbn [app tl length]; [lia|].
      rewrite length_app. cbn [length]. lia.
    + rewrite length_app. cbn [length]. lia.
  - unfold pushGesture.
    destruct (5 <? length (gestureBuffer this ++ [g])).
    + destruct (gestureBuffer this) as [|a rest]; cbn [app tl length]; [lia|].
      rewrite length_app. cbn [length]. lia.
    + rewrite length_app. cbn [length]. lia.
Qed.

Lemma step_emission_length (this : GestureRecognizer) (t : Tick)
  (e : GestureResult.t) :
  snd (step this t) = Called (Some e) ->
  3 <= length (gestureBuffer (fst (step this t))).
Proof.
  intros Hout.
  pose proof (step_Transition this t) as HT. rewrite Hout in HT.
  apply Transition_emission in HT.
  destruct HT as (_ & _ & _ & _ & _ & _ & Hthree & _).
  pose proof (count_occ_bound string_dec (GestureResult.type e)
                (gestureBuffer (fst (step this t)))).
  lia.
Qed.

(** X12: once the buffer is empty (a new recognizer, after [destroy], after
    a frame without a hand), neither of the next two calls hands a result to
    the callback, however much time has passed: an event needs three
    labelled frames. *)
Theorem no_event_before_third_frame (this : GestureRecognizer) (t1 t2 : Tick) :
  gestureBuffer this = [] ->
  (forall e, snd (step this t1) <> Called (Some e))
  /\ (forall e, snd (step (fst (step this t1)) t2) <> Called (Some e)).
Proof.
  intros Hempty.
  pose proof (step_length this t1) as H1.
  pose proof (step_length (fst (step this t1)) t2) as H2.
  rewrite Hempty in H1. cbn [length] in H1.
  split; intros e He; apply step_emission_length in He; lia.
Qed.

Lemma no_event_before_third_frame_witness :
  (forall e,
     snd (step (detectGesture newRecognizer)
            (rightHandAt pointingFrame 1700000000000)) <> Called (Some e))
  /\ (forall e,
        snd (step (fst (step (detectGesture newRecognizer)
                          (rightHandAt pointingFrame 1700000000000)))
               (rightHandAt pointingFrame 1700000000100))
        <> Called (Some e)).
Proof.
  apply (no_event_before_third_frame (detectGesture newRecognizer)).
  reflexivity.
Defined.

(** X13: a call whose results hold no hand ([multiHandLandmarks] missing or
    empty) empties the buffer, hands [null] to the callback and leaves the
    time of the last emission alone; a second such call changes nothing
    more. *)
Theorem no_hand_resets (this : GestureRecognizer) (r : Results) (now now' : Z) :
  onResultsCallback this = true ->
  multiHandLandmarks r = None \/ multiHandLandmarks r = Some [] ->
  PalmFacing.processResults this r now now'
  = (tracking [] (lastGestureTime this), Called None)
  /\ forall later later',
       PalmFacing.processResults
         (fst (PalmFacing.processResults this r now now')) r later later'
       = (tracking [] (lastGestureTime this), Called None).
Proof.
  intros Hcb Hnone.
  assert (Hfirst : PalmFacing.processResults this r now now'
                   = (tracking [] (lastGestureTime this), Called None)).
  { unfold PalmFacing.processResults. rewrite Hcb.
    destruct Hnone as [-> | ->]; reflexivity. }
  split; [exact Hfirst|].
  intros later later'. rewrite Hfirst. cbn [fst].
  unfold PalmFacing.processResults.
  destruct Hnone as [-> | ->]; reflexivity.
Qed.

Lemma no_hand_resets_witness :
  PalmFacing.processResults (tracking ["fist"; "fist"] 5) noHand 1000 1000
  = (tracking [] (lastGestureTime (tracking ["fist"; "fist"] 5)), Called None)
  /\ forall later later',
       PalmFacing.processResults
         (fst (PalmFacing.processResults (tracking ["fist"; "fist"] 5)
                 noHand 1000 1000))
         noHand later later'
       = (tracking [] (lastGestureTime (tracking ["fist"; "fist"] 5)),
          Called None).
Proof.
  apply (no_hand_resets (tracking ["fist"; "fist"] 5) noHand 1000 1000).
  - reflexivity.
  - right. reflexivity.
Defined.

(** X14: [destroy] empties the buffer and unregisters the callback but keeps
    the time of the last emission.  A destroyed recognizer ignores every
    result (the early return comes before the classifier, so even a
    malformed frame raises nothing); and once [detectGesture] registers a
    callback again, every emission still comes more than 800 ms after the
    last emission recorded before [destroy], as long as the second clock
    reading of a call is not before the first. *)
Theorem destroy_keeps_cooldown (this : GestureRecognizer) (r : Results)
  (now now' : Z) (ticks : list Tick) :
  Forall (fun t => (checkedAt t <= storedAt t)%Z) ticks ->
  PalmFacing.processResults (destroy this) r now now' = (destroy this, NotCalled)
  /\ gestureBuffer (detectGesture (destroy this)) = []
  /\ Forall (fun e => (checkedAt e - lastGestureTime this > 800)%Z)
       (emitting (detectGesture (destroy this)) ticks).
Proof.
  intros Hclock. repeat split.
  exact (emitting_after_last ticks (detectGesture (destroy this)) Hclock).
Qed.

Lemma destroy_keeps_cooldown_witness :
  PalmFacing.processResults (destroy (tracking ["fist"] 1700000000000))
    (oneHand (firstn 20 pointingFrame) "Right") 1700000000100 1700000000100
  = (destroy (tracking ["fist"] 1700000000000), NotCalled)
  /\ gestureBuffer (detectGesture (destroy (tracking ["fist"] 1700000000000)))
     = []
  /\ Forall (fun e => (checkedAt e
                       - lastGestureTime (tracking ["fist"] 1700000000000)
                       > 800)%Z)
       (emitting (detectGesture (destroy (tracking ["fist"] 1700000000000)))
          (skipn 1 sustainedPointing)).
Proof.
  apply (destroy_keeps_cooldown (tracking ["fist"] 1700000000000)).
  unfold sustainedPointing, rightHandAt. cbn [skipn].
  repeat constructor; cbn [checkedAt storedAt]; lia.
Defined.

Example restart_waits_for_the_cooldown :
  emitting (detectGesture (destroy (tracking ["fist"] 1700000000000)))
    (skipn 1 sustainedPointing)
  = [rightHandAt pointingFrame 1700000001000].
Proof. vm_compute. reflexivity. Qed.

Lemma Transition_time (this this' : GestureRecognizer) (r : Results)
  (now now' : Z) (out : Outcome) :
  Transition this r now now' this' out ->
  (now <= now')%Z ->
  (lastGestureTime this <= lastGestureTime this')%Z.
Proof.
  intros HT Hclock. destruct HT; cbn [lastGestureTime]; lia.
Qed.

(** X15: as long as the second clock reading of a call is not before the
    first, the recorded time of the last emission never goes back over a run
    of calls. *)
Theorem last_emission_time_monotone (this : GestureRecognizer)
  (ticks : list Tick) :
  Forall (fun t => (checkedAt t <= storedAt t)%Z) ticks ->
  (lastGestureTime this <= lastGestureTime (runAll this ticks))%Z.
Proof.
  intros Hclock. revert this. unfold runAll.
  induction Hclock as [|t rest Ht _ IH]; intros this; cbn [fold_left]; [lia|].
  pose proof (Transition_time _ _ _ _ _ _ (step_Transition this t) Ht).
  specialize (IH (fst (step this t))). lia.
Qed.

Lemma last_emission_time_monotone_witness :
  (lastGestureTime (detectGesture newRecognizer)
   <= lastGestureTime (runAll (detectGesture newRecognizer) sustainedPointing))%Z.
Proof.
  apply (last_emission_time_monotone (detectGesture newRecognizer)
           sustainedPointing).
  unfold sustainedPointing, rightHandAt.
  repeat constructor; cbn [checkedAt storedAt]; lia.
Defined.

(** A clock that jumps back between the two readings lets the recorded time
    go back and a second event follow within the cooldown. *)
Example backwards_clock_breaks_the_cooldown :
  emitting (tracking ["pointing"; "pointing"] 1700000000000)
    [ {| results := oneHand pointingFrame "Right";
         checkedAt := 1700000001000; storedAt := 1699999999000 |};
      rightHandAt pointingFrame 1700000001100 ]
  = [ {| results := oneHand pointingFrame "Right";
         checkedAt := 1700000001000; storedAt := 1699999999000 |};
      rightHandAt pointingFrame 1700000001100 ].
Proof. vm_compute. reflexivity. Qed.

(** ** The simplified stabilizer *)

(** X16: in the simplified revision a call hands a result to the callback
    only more than 300 ms after the recorded time of the last emission, and
    the label of the result occurs at least twice in the buffer the call
    leaves; on a buffer of at most three of the classifier's labels
    [getMostFrequentGesture] returns a label exactly when it occurs at least
    twice. *)
Theorem simplified_emission (this : GestureRecognizer) (r : Results)
  (now now' : Z) (e : GestureResult.t) (gestureBuffer0 : list string)
  (g : string) :
  (snd (Simplified.processResults this r now now') = Called (Some e) ->
   (now - lastGestureTime this > 300)%Z
   /\ lastGestureTime (fst (Simplified.processResults this r now now')) = now'
   /\ 2 <= count_occ string_dec
             (gestureBuffer (fst (Simplified.processResults this r now now')))
             (GestureResult.type e))
  /\ (Forall (fun label => In label concreteLabels) gestureBuffer0 ->
      length gestureBuffer0 <= 3 ->
      (Simplified.getMostFrequentGesture gestureBuffer0 = Some g
       <-> 2 <= count_occ string_dec gestureBuffer0 g)).
Proof.
  split.
  - unfold Simplified.processResults.
    destruct (onResultsCallback this); cbn [negb fst snd]; [|discriminate].
    destruct (multiHandLandmarks r) as [[|landmarks others]|];
      cbn [fst snd]; try discriminate.
    destruct (Simplified.classifyGesture (convert landmarks) (handednessOf r))
      as [label|]; cbn [fst snd]; [|discriminate].
    destruct (negb (label =? "unknown")%string); cbn [fst snd]; [|discriminate].
    destruct (Simplified.getMostFrequentGesture
                (pushGesture 3 (gestureBuffer this) label)) as [c|] eqn:Hc;
      cbn [truthyString andb fst snd]; [|discriminate].
    destruct (negb (c =? "")%string); cbn [andb fst snd]; [|discriminate].
    destruct (now - lastGestureTime this >? 300)%Z eqn:Hlate;
      cbn [fst snd]; [|discriminate].
    intros [= <-]. cbn [lastGestureTime gestureBuffer GestureResult.type].
    apply mostFrequentAtLeast_sound in Hc. destruct Hc as (_ & Htwo & _).
    apply Z.gtb_lt in Hlate. repeat split; try lia; assumption.
  - intros _ Hlen. unfold Simplified.getMostFrequentGesture. split.
    + intros H. now apply mostFrequentAtLeast_sound in H.
    + intros H. apply mostFrequentAtLeast_majority; lia.
Qed.

Lemma simplified_emission_witness :
  ((1700000000100 - lastGestureTime (tracking ["pointing"] 0) > 300)%Z
   /\ lastGestureTime
        (fst (Simplified.processResults (tracking ["pointing"] 0)
                (oneHand pointingFrame "Right") 1700000000100 1700000000101))
      = 1700000000101%Z
   /\ 2 <= count_occ string_dec
             (gestureBuffer
                (fst (Simplified.processResults (tracking ["pointing"] 0)
                        (oneHand pointingFrame "Right")
                        1700000000100 1700000000101)))
             (GestureResult.type
                {| GestureResult.type := "pointing";
                   GestureResult.confidence :=
                     Simplified.calculateConfidence pointingFrame;
                   GestureResult.landmarks := Some pointingFrame |}))
  /\ (Simplified.getMostFrequentGesture ["fist"; "peace"; "fist"] = Some "fist"
      <-> 2 <= count_occ string_dec ["fist"; "peace"; "fist"] "fist").
Proof.
  destruct (simplified_emission (tracking ["pointing"] 0)
              (oneHand pointingFrame "Right") 1700000000100 1700000000101
              {| GestureResult.type := "pointing";
                 GestureResult.confidence :=
                   Simplified.calculateConfidence pointingFrame;
                 GestureResult.landmarks := Some pointingFrame |}
              ["fist"; "peace"; "fist"] "fist") as [Hemit Hvote].
  split.
  - apply Hemit. vm_compute. reflexivity.
  - apply Hvote.
    + repeat constructor; cbn [In concreteLabels]; tauto.
    + cbn. lia.
Defined.

(** * The application's history and timer *)

Lemma record_history (st : App.State) (d : App.Detection) :
  App.detectedGestures (App.record st d)
  = App.asGestureData d :: firstn 49 (App.detectedGestures st).
Proof. destruct d as [[gesture random] now]. reflexivity. Qed.

Lemma record_stats (st : App.State) (d : App.Detection) :
  App.totalGestures (App.stats (App.record st d))
  = (App.totalGestures (App.stats st) + 1)%Z
  /\ App.accuracy (App.stats (App.record st d)) = App.accuracy (App.stats st)
  /\ App.sessionTime (App.stats (App.record st d))
     = App.sessionTime (App.stats st).
Proof. destruct d as [[gesture random] now]. repeat split. Qed.

(** X17: [handleGestureDetected] keeps the history newest first and never
    longer than 50 entries, whatever its length was before.  After a reset
    and any number of detections the history is the 50 most recent
    detections, newest first, [totalGestures] is their number, and
    [accuracy] and [sessionTime] are what the reset left. *)
Theorem history_keeps_last_fifty (st : App.State) (ds : list App.Detection)
  (d : App.Detection) :
  length (App.detectedGestures (App.record st d)) <= 50
  /\ hd_error (App.detectedGestures (App.record st d))
     = Some (App.asGestureData d)
  /\ App.detectedGestures (fold_left App.record ds (App.handleReset st))
     = firstn 50 (rev (map App.asGestureData ds))
  /\ App.totalGestures (App.stats (fold_left App.record ds (App.handleReset st)))
     = Z.of_nat (length ds)
  /\ App.accuracy (App.stats (fold_left App.record ds (App.handleReset st)))
     = 95.2%float
  /\ App.sessionTime (App.stats (fold_left App.record ds (App.handleReset st)))
     = 0.
Proof.
  split; [|split].
  - rewrite record_history. cbn [length].
    pose proof (firstn_le_length 49 (App.detectedGestures st)). lia.
  - rewrite record_history. reflexivity.
  - induction ds as [|d0 ds IH] using rev_ind.
    + repeat split.
    + rewrite fold_left_app. cbn [fold_left].
      destruct IH as (Hhist & Htotal & Hacc & Htime).
      pose proof (record_stats (fold_left App.record ds (App.handleReset st)) d0)
        as (Htotal' & Hacc' & Htime').
      rewrite record_history, Hhist, Htotal', Hacc', Htime', Htotal, Hacc, Htime.
      rewrite map_app, rev_app_distr, length_app. cbn [map rev app length].
      rewrite firstn_firstn. cbn [Nat.min firstn].
      repeat split. lia.
Qed.

Example history_of_sixty :
  length
    (App.detectedGestures
       (fold_left App.record
          (map (fun n => ({| Detected.type := "fist";
                             Detected.confidence := 0.9;
                             Detected.coordinates := None |},
                          "id", Z.of_nat n)) (seq 0 60))
          App.initialState))
  = 50
  /\ option_map GestureData.timestamp
       (hd_error
          (App.detectedGestures
             (fold_left App.record
                (map (fun n => ({| Detected.type := "fist";
                                   Detected.confidence := 0.9;
                                   Detected.coordinates := None |},
                                "id", Z.of_nat n)) (seq 0 60))
                App.initialState)))
     = Some 59%Z.
Proof. vm_compute. split; reflexivity. Qed.

Lemma formatTime_table : forallb formatsBack (seq 0 (100 * 60)) = true.
Proof. vm_compute. reflexivity. Qed.

(** X18: for every session time below 100 minutes, [formatTime] gives the
    five characters [MM:SS], and reading the minutes before the colon and
    the seconds after it gives the time back. *)
Theorem formatTime_round_trip (seconds : nat) :
  seconds < 100 * 60 ->
  String.length (App.formatTime seconds) = 5
  /\ App.readTime (App.formatTime seconds) = Some seconds.
Proof.
  intros Hlt.
  pose proof formatTime_table as Htable.
  rewrite forallb_forall in Htable.
  assert (Hin : In seconds (seq 0 (100 * 60))) by (apply in_seq; lia).
  specialize (Htable seconds Hin). unfold formatsBack in Htable.
  apply andb_prop in Htable. destruct Htable as [Hlen Hback].
  apply Nat.eqb_eq in Hlen. split; [exact Hlen|].
  destruct (App.readTime (App.formatTime seconds)) as [n|]; [|discriminate Hback].
  apply Nat.eqb_eq in Hback. now subst n.
Qed.

Lemma formatTime_round_trip_witness :
  String.length (App.formatTime 125) = 5
  /\ App.readTime (App.formatTime 125) = Some 125.
Proof.
  apply (formatTime_round_trip 125). lia.
Defined.

Example formatTime_examples :
  App.formatTime 0 = "00:00"
  /\ App.formatTime 125 = "02:05"
  /\ App.formatTime (99 * 60 + 59) = "99:59"
  /\ App.formatTime (100 * 60) = "100:00".
Proof. vm_compute. repeat split. Qed.

(** * The coordinates the detector reports *)

(** X19: when a result passes the sensitivity test, the coordinates handed
    on fall back to the centre of the 640 x 480 view, (320, 240), not only
    when the landmarks or their tenth entry are missing but also when the
    tenth landmark lies on the corner [x = 1], [y = 0], whose pixel
    coordinates (0, 0) the [||] takes for missing. *)
Theorem centre_fallback (sensitivity : float) (r : GestureResult.t) :
  Js.ge (GestureResult.confidence r) (sensitivity / 100) = true ->
  (GestureResult.landmarks r = None
   \/ (exists l, GestureResult.landmarks r = Some l /\ length l <= 9)
   \/ (exists l p, GestureResult.landmarks r = Some l
                   /\ nth_error l 9 = Some p
                   /\ x p = 1%float /\ y p = 0%float)) ->
  exists d,
    GestureDetector.onResult sensitivity (Some r) = Some d
    /\ Detected.coordinates d = Some (320, 240)%float.
Proof.
  intros Hpass Hcase. unfold GestureDetector.onResult. rewrite Hpass.
  eexists. split; [reflexivity|]. cbn [Detected.coordinates].
  destruct Hcase as [-> | [(l & -> & Hshort) | (l & p & -> & Hp & Hx & Hy)]].
  - reflexivity.
  - apply nth_error_None in Hshort. rewrite Hshort. reflexivity.
  - rewrite Hp. cbn [GestureDetector.optional]. rewrite Hx, Hy. reflexivity.
Qed.

Lemma centre_fallback_witness :
  exists d,
    GestureDetector.onResult 0.7
      (Some {| GestureResult.type := "fist";
               GestureResult.confidence := 0.95;
               GestureResult.landmarks :=
                 Some (repeat {| x := 1; y := 0; z := None |} 21) |})
    = Some d
    /\ Detected.coordinates d = Some (320, 240)%float.
Proof.
  apply (centre_fallback 0.7
           {| GestureResult.type := "fist";
              GestureResult.confidence := 0.95;
              GestureResult.landmarks :=
                Some (repeat {| x := 1; y := 0; z := None |} 21) |}).
  - vm_compute. reflexivity.
  - right. right.
    exists (repeat {| x := 1; y := 0; z := None |} 21),
           {| x := 1; y := 0; z := None |}.
    repeat split.
Defined.

(** Elsewhere the x coordinate is mirrored. *)
Example mirrored_coordinates :
  option_map Detected.coordinates
    (GestureDetector.onResult 0.7
       (Some {| GestureResult.type := "pointing";
                GestureResult.confidence := 0.95;
                GestureResult.landmarks := Some pointingFrame |}))
  = Some (Some ((1 - 0.55) * 640, 0.6 * 480)%float).
Proof. vm_compute. reflexivity. Qed.
